(** * seller-apis: the reconciliation core of [seller.py] and [market.py]

    A shallow embedding of the delta builder ([create_stocks],
    [create_prices], [price_conversion]), the batch splitter ([divide]),
    the catalogue readers ([get_offer_ids]) and the orchestration in
    [main], followed by the properties the specification states about
    them.

    Conventions of the embedding.
    - A Python [str] is a [string]: the bytes of its UTF-8 encoding.  The
      operations the code applies to text (equality, splitting at the
      period, deleting what is not an ASCII digit) act on ASCII bytes only
      and leave the bytes of longer encodings untouched.
    - A spreadsheet cell is a [pyval]: text, an integer or [None] (the
      value [dict.get] gives for an absent column).  Cells holding floats
      are outside the model.
    - The built-in [int] is modelled on ASCII text: the digits and blanks
      beyond ASCII that CPython also accepts are outside the model.
    - A function that can raise returns a [result]; a function that
      mutates an object takes it as state and returns its final value.
    - The requests to the outside are recorded in a trace, and answered
      by an environment that gives the answer to the request of each
      rank; a [while True] loop runs on fuel. *)

From Stdlib Require Import ZArith List String Ascii Bool Lia Permutation.
From Stdlib Require Import DecimalString DecimalZ.
Import ListNotations.

Local Open Scope string_scope.
Local Open Scope list_scope.
Local Open Scope Z_scope.

(* ================================================================== *)
(** * Python built-ins used by the two modules *)

Module Py.

(** Exception classes that can reach [main].  [ConnectTimeout] is a
    subclass of [ConnectionError] in [requests]. *)
Inductive exn : Type :=
| ValueError
| TypeError
| AttributeError
| HTTPError
| ReadTimeout
| ConnectTimeout
| ConnectionError
| IndexError
| OtherException.

Inductive result (A : Type) : Type :=
| Ok (a : A)
| Raise (e : exn).
Arguments Ok {A} a.
Arguments Raise {A} e.

Definition exn_eqb (a b : exn) : bool :=
  match a, b with
  | ValueError, ValueError | TypeError, TypeError
  | AttributeError, AttributeError | HTTPError, HTTPError
  | ReadTimeout, ReadTimeout | ConnectTimeout, ConnectTimeout
  | ConnectionError, ConnectionError | IndexError, IndexError
  | OtherException, OtherException => true
  | _, _ => false
  end.

(** State and exception monad: [S] is the mutable store the code works
    on; the store a computation leaves behind is returned also when it
    raises. *)
Definition M (S A : Type) : Type := S -> result A * S.

Definition ret {S A} (a : A) : M S A := fun s => (Ok a, s).

Definition bind {S A B} (m : M S A) (k : A -> M S B) : M S B :=
  fun s => match m s with
           | (Ok a, s') => k a s'
           | (Raise e, s') => (Raise e, s')
           end.

Definition lift {S A} (r : result A) : M S A := fun s => (r, s).

Definition get {S} : M S S := fun s => (Ok s, s).

Definition put {S} (s : S) : M S unit := fun _ => (Ok tt, s).

(** [for x in l: body x] *)
Fixpoint for_each {S A} (l : list A) (body : A -> M S unit) : M S unit :=
  match l with
  | [] => ret tt
  | x :: l' => bind (body x) (fun _ => for_each l' body)
  end.

(** Cell values. *)
Inductive pyval : Type :=
| PStr (s : string)
| PInt (z : Z)
| PNone.

(** [str(v)] *)
Definition str (v : pyval) : string :=
  match v with
  | PStr s => s
  | PInt z => NilZero.string_of_int (Z.to_int z)
  | PNone => "None"
  end.

Definition is_digit (c : ascii) : bool :=
  let n := nat_of_ascii c in (48 <=? n)%nat && (n <=? 57)%nat.

(** Blank characters skipped by [int]: tab, line feed, vertical tab, form
    feed, carriage return and space. *)
Definition is_space (c : ascii) : bool :=
  let n := nat_of_ascii c in ((9 <=? n)%nat && (n <=? 13)%nat) || (n =? 32)%nat.

Definition digit_value (c : ascii) : Z := Z.of_nat (nat_of_ascii c) - 48.

Fixpoint lstrip (s : string) : string :=
  match s with
  | String c s' => if is_space c then lstrip s' else s
  | EmptyString => EmptyString
  end.

Fixpoint rstrip (s : string) : string :=
  match s with
  | String c s' =>
      match rstrip s' with
      | EmptyString => if is_space c then EmptyString else String c EmptyString
      | r => String c r
      end
  | EmptyString => EmptyString
  end.

(** Decimal digits with single underscores allowed between digits;
    [prev] tells whether the previous character was a digit. *)
Fixpoint digits (acc : Z) (prev : bool) (s : string) : option Z :=
  match s with
  | EmptyString => if prev then Some acc else None
  | String c s' =>
      if is_digit c then digits (10 * acc + digit_value c) true s'
      else if Ascii.eqb c "_" then
             if prev then digits acc false s' else None
      else None
  end.

(** [int(s)] for text: blanks around, an optional sign, digits. *)
Definition int_of_string (s : string) : result Z :=
  let body := rstrip (lstrip s) in
  let signed :=
    match body with
    | String c r =>
        if Ascii.eqb c "-" then option_map Z.opp (digits 0 false r)
        else if Ascii.eqb c "+" then digits 0 false r
        else digits 0 false body
    | EmptyString => digits 0 false body
    end in
  match signed with
  | Some z => Ok z
  | None => Raise ValueError
  end.

(** [int(v)] *)
Definition int (v : pyval) : result Z :=
  match v with
  | PStr s => int_of_string s
  | PInt z => Ok z
  | PNone => Raise TypeError
  end.

(** [x in l] on a list of text. *)
Definition contains (x : string) (l : list string) : bool :=
  existsb (fun y => String.eqb y x) l.

(** [l.remove(x)]: deletes the first element equal to [x], and raises
    [ValueError] when there is none. *)
Fixpoint remove (x : string) (l : list string) : result (list string) :=
  match l with
  | [] => Raise ValueError
  | y :: l' =>
      if String.eqb y x then Ok l'
      else match remove x l' with
           | Ok r => Ok (y :: r)
           | Raise e => Raise e
           end
  end.

(** [s.split(".")]: the pieces of [s] between its periods. *)
Fixpoint split_period (s : string) : list string :=
  match s with
  | EmptyString => [EmptyString]
  | String c s' =>
      if Ascii.eqb c "." then EmptyString :: split_period s'
      else match split_period s' with
           | h :: t => String c h :: t
           | [] => [String c EmptyString]
           end
  end.

(** [re.sub("[^0-9]", "", s)] *)
Fixpoint sub_non_digits (s : string) : string :=
  match s with
  | EmptyString => EmptyString
  | String c s' =>
      if is_digit c then String c (sub_non_digits s') else sub_non_digits s'
  end.

(** [l[0]] *)
Definition index0 {A} (l : list A) : result A :=
  match l with
  | x :: _ => Ok x
  | [] => Raise IndexError
  end.

(** [list(range(start, stop, step))]; a zero [step] raises. *)
Definition range (start stop step : Z) : result (list Z) :=
  if step =? 0 then Raise ValueError
  else
    let len :=
      if 0 <? step then (stop - start + step - 1) / step
      else (start - stop - step - 1) / (- step) in
    Ok (map (fun k => start + Z.of_nat k * step) (seq 0 (Z.to_nat len))).

(** [l[i:j]] for [0 <= i] and [0 <= j]. *)
Definition slice {A} (l : list A) (i j : Z) : list A :=
  firstn (Z.to_nat (j - i)) (skipn (Z.to_nat i) l).

End Py.

Notation "x <- m ;; k" := (Py.bind m (fun x => k))
  (at level 100, m at next level, right associativity).
Notation "m ;;; k" := (Py.bind m (fun _ => k))
  (at level 100, right associativity).


(* ================================================================== *)
(** * The delta builder of [seller.py] *)

Module Seller.
Import Py.

(** A supplier record: the columns "Код" (code), "Количество"
    (quantity) and "Цена" (price) of one spreadsheet row, each as
    [watch.get] returns it. *)
Record watch : Type := {
  Kod : pyval;
  Kolichestvo : pyval;
  Tsena : pyval
}.

(** [{"offer_id": ..., "stock": ...}] *)
Record stock_record : Type := {
  offer_id : string;
  stock : Z
}.

(** The dictionary built in [create_prices]. *)
Record price_record : Type := {
  auto_action_enabled : string;
  currency_code : string;
  price_offer_id : string;
  old_price : string;
  price : string
}.

(** The store of [create_stocks]: the local list [stocks] and the list
    object [offer_ids] received from the caller. *)
Record store : Type := {
  stocks : list stock_record;
  offer_ids : list string
}.

(** Lines 185-191: the [if]/[elif]/[else] computing [stock]. *)
Definition stock_of_count (w : watch) : result Z :=
  let count := str (Kolichestvo w) in
  if String.eqb count ">10" then Ok 100
  else if String.eqb count "1" then Ok 0
  else int (Kolichestvo w).

Definition stocks_append (r : stock_record) : M store unit :=
  fun st => (Ok tt, {| stocks := stocks st ++ [r]; offer_ids := offer_ids st |}).

Definition offer_ids_remove (x : string) : M store unit :=
  fun st => match remove x (offer_ids st) with
            | Ok l => (Ok tt, {| stocks := stocks st; offer_ids := l |})
            | Raise e => (Raise e, st)
            end.

(** Body of the first loop of [create_stocks] (lines 184-193). *)
Definition create_stocks_body (w : watch) : M store unit :=
  st <- get ;;
  if contains (str (Kod w)) (offer_ids st) then
    stock <- lift (stock_of_count w) ;;
    stocks_append {| offer_id := str (Kod w); stock := stock |} ;;;
    offer_ids_remove (str (Kod w))
  else ret tt.

(** [create_stocks(watch_remnants, offer_ids)]: the second component of
    the outcome is the caller's list object as the call leaves it. *)
Definition create_stocks (watch_remnants : list watch) (ids : list string)
  : result (list stock_record) * list string :=
  let run :=
    for_each watch_remnants create_stocks_body ;;;
    st <- get ;;
    for_each (offer_ids st)
      (fun offer_id => stocks_append {| offer_id := offer_id; stock := 0 |}) ;;;
    st' <- get ;;
    ret (stocks st') in
  let (r, st) := run {| stocks := []; offer_ids := ids |} in
  (r, offer_ids st).

(** [price_conversion(price)]; [price.split] exists for text only. *)
Definition price_conversion (price : pyval) : result string :=
  match price with
  | PStr s =>
      match index0 (split_period s) with
      | Ok head => Ok (sub_non_digits head)
      | Raise e => Raise e
      end
  | _ => Raise AttributeError
  end.

(** Body of the loop of [create_prices]; the store is the list [prices]. *)
Definition create_prices_body (ids : list string) (w : watch)
  : M (list price_record) unit :=
  if contains (str (Kod w)) ids then
    p <- lift (price_conversion (Tsena w)) ;;
    prices <- get ;;
    put (prices ++ [{| auto_action_enabled := "UNKNOWN";
                       currency_code := "RUB";
                       price_offer_id := str (Kod w);
                       old_price := "0";
                       price := p |}])
  else ret tt.

(** [create_prices(watch_remnants, offer_ids)]; [offer_ids] is only read. *)
Definition create_prices (watch_remnants : list watch) (ids : list string)
  : result (list price_record) :=
  match for_each watch_remnants (create_prices_body ids) [] with
  | (Ok _, prices) => Ok prices
  | (Raise e, _) => Raise e
  end.

(** [list(divide(lst, n))] *)
Definition divide {A} (lst : list A) (n : Z) : result (list (list A)) :=
  match range 0 (Z.of_nat (List.length lst)) n with
  | Ok starts => Ok (map (fun i => slice lst i (i + n)) starts)
  | Raise e => Raise e
  end.

(** ** The calls to the marketplace and the orchestration in [main] *)

(** One product of a listing page and the page itself: the value of
    ["result"] in the answer of [/v2/product/list]. *)
Record product : Type := { product_offer_id : string }.

Record page : Type := {
  items : list product;
  total : Z;
  last_id : string
}.

(** What the program does to the outside: requests sent, in order, and
    lines printed.  A request is recorded whether or not it succeeds. *)
Inductive print_arg : Type :=
| PrintStr (s : string)
| PrintExn (e : exn).

Inductive event : Type :=
| ListProducts (last_id : string)
| DownloadStock
| UpdateStocks (chunk : list stock_record)
| UpdatePrice (chunk : list price_record)
| Print (args : list print_arg).

Definition world : Type := list event.

(** The outside, as the answers it gives: [listing k] answers the
    listing request number [k] of the run, [stocks_api k] and
    [prices_api k] the update requests number [k] of their kind, and
    [supplier] is the outcome of [download_stock]. *)
Record env : Type := {
  listing : nat -> result page;
  supplier : result (list watch);
  stocks_api : nat -> result unit;
  prices_api : nat -> result unit
}.

Definition is_ListProducts (ev : event) : bool :=
  match ev with ListProducts _ => true | _ => false end.
Definition is_UpdateStocks (ev : event) : bool :=
  match ev with UpdateStocks _ => true | _ => false end.
Definition is_UpdatePrice (ev : event) : bool :=
  match ev with UpdatePrice _ => true | _ => false end.
Definition is_Print (ev : event) : bool :=
  match ev with Print _ => true | _ => false end.

Definition sent (kind : event -> bool) (tr : world) : nat :=
  List.length (filter kind tr).

Section Run.
Variable E : env.

(** [get_product_list(last_id, client_id, seller_token)] *)
Definition get_product_list (last_id : string) : M world page :=
  fun tr => (listing E (sent is_ListProducts tr), tr ++ [ListProducts last_id]).

(** [update_stocks(stocks, client_id, seller_token)] *)
Definition update_stocks (chunk : list stock_record) : M world unit :=
  fun tr => (stocks_api E (sent is_UpdateStocks tr), tr ++ [UpdateStocks chunk]).

(** [update_price(prices, client_id, seller_token)] *)
Definition update_price (chunk : list price_record) : M world unit :=
  fun tr => (prices_api E (sent is_UpdatePrice tr), tr ++ [UpdatePrice chunk]).

(** [download_stock()] *)
Definition download_stock : M world (list watch) :=
  fun tr => (supplier E, tr ++ [DownloadStock]).

(** The [while True] loop of [get_offer_ids] (lines 66-72), run for at
    most [fuel] iterations; [None] when they do not suffice. *)
Fixpoint get_offer_ids_loop (fuel : nat) (last_id : string)
  (product_list : list product) (tr : world)
  : option (result (list product) * world) :=
  match fuel with
  | O => None
  | S fuel' =>
      match get_product_list last_id tr with
      | (Raise e, tr') => Some (Raise e, tr')
      | (Ok some_prod, tr') =>
          let product_list := product_list ++ items some_prod in
          let last_id := Seller.last_id some_prod in
          if total some_prod =? Z.of_nat (List.length product_list)
          then Some (Ok product_list, tr')
          else get_offer_ids_loop fuel' last_id product_list tr'
      end
  end.

(** [get_offer_ids(client_id, seller_token)] *)
Definition get_offer_ids (fuel : nat) (tr : world)
  : option (result (list string) * world) :=
  match get_offer_ids_loop fuel "" [] tr with
  | None => None
  | Some (Raise e, tr') => Some (Raise e, tr')
  | Some (Ok product_list, tr') => Some (Ok (map product_offer_id product_list), tr')
  end.

(** The statements of [main] under [try] that follow the call of
    [get_offer_ids] (lines 328-336).  [offer_ids'] is the list object
    [offer_ids] as [create_stocks] leaves it: [main] hands the same
    object to [create_prices]. *)
Definition main_try_rest (offer_ids : list string) : M world unit :=
  watch_remnants <- download_stock ;;
  let (r, offer_ids') := create_stocks watch_remnants offer_ids in
  stocks <- lift r ;;
  stock_chunks <- lift (divide stocks 100) ;;
  for_each stock_chunks update_stocks ;;;
  prices <- lift (create_prices watch_remnants offer_ids') ;;
  price_chunks <- lift (divide prices 900) ;;
  for_each price_chunks update_price.

(** The [try] block of [main] (lines 327-336). *)
Definition main_try (fuel : nat) (tr : world) : option (result unit * world) :=
  match get_offer_ids fuel tr with
  | None => None
  | Some (Raise e, tr') => Some (Raise e, tr')
  | Some (Ok offer_ids, tr') => Some (main_try_rest offer_ids tr')
  end.

(** [isinstance(e, cls)] on the classes of [exn]. *)
Definition isinstance (e cls : exn) : bool :=
  exn_eqb e cls || (exn_eqb e ConnectTimeout && exn_eqb cls ConnectionError).

(** The three [except] clauses of [main] (lines 337-342). *)
Definition main_except (e : exn) : M world unit :=
  fun tr =>
    if isinstance e ReadTimeout then
      (Ok tt, tr ++ [Print [PrintStr "Превышено время ожидания..."]])
    else if isinstance e ConnectionError then
      (Ok tt, tr ++ [Print [PrintExn e; PrintStr "Ошибка соединения"]])
    else
      (Ok tt, tr ++ [Print [PrintExn e; PrintStr "ERROR_2"]]).

(** [main()], once the two settings are read from the environment: a
    run of the program from the empty trace. *)
Definition main (fuel : nat) : option (result unit * world) :=
  match main_try fuel [] with
  | None => None
  | Some (Ok tt, tr) => Some (Ok tt, tr)
  | Some (Raise e, tr) => Some (main_except e tr)
  end.

End Run.

End Seller.

(* ================================================================== *)
(** * The delta builder and the catalogue reader of [market.py] *)

Module Market.
Import Py.

(** [{"count": ..., "type": "FIT", "updatedAt": ...}] *)
Record item : Type := {
  count : Z;
  type : string;
  updatedAt : string
}.

(** The dictionary appended to [stocks] in [create_stocks]. *)
Record stock_record : Type := {
  sku : string;
  warehouseId : string;
  items : list item
}.

(** The dictionary built in [create_prices] and its ["price"] entry. *)
Record price_value : Type := {
  value : Z;
  currencyId : string
}.

Record price_record : Type := {
  id : string;
  price : price_value
}.

(** The store of [create_stocks]: the local list [stocks] and the list
    object [offer_ids] received from the caller. *)
Record store : Type := {
  stocks : list stock_record;
  offer_ids : list string
}.

(** Lines 158-164: the [if]/[elif]/[else] computing [stock]. *)
Definition stock_of_count (w : Seller.watch) : result Z :=
  let count := str (Seller.Kolichestvo w) in
  if String.eqb count ">10" then Ok 100
  else if String.eqb count "1" then Ok 0
  else int (Seller.Kolichestvo w).

Definition stocks_append (r : stock_record) : M store unit :=
  fun st => (Ok tt, {| stocks := stocks st ++ [r]; offer_ids := offer_ids st |}).

Definition offer_ids_remove (x : string) : M store unit :=
  fun st => match remove x (offer_ids st) with
            | Ok l => (Ok tt, {| stocks := stocks st; offer_ids := l |})
            | Raise e => (Raise e, st)
            end.

Section Stocks.
(** [warehouse_id], and [date]: the text made of the clock's reading on
    line 155. *)
Variables (warehouse_id date : string).

Definition stock_entry (code : string) (n : Z) : stock_record :=
  {| sku := code;
     warehouseId := warehouse_id;
     items := [{| count := n; type := "FIT"; updatedAt := date |}] |}.

(** Body of the first loop of [create_stocks] (lines 157-178). *)
Definition create_stocks_body (w : Seller.watch) : M store unit :=
  st <- get ;;
  if contains (str (Seller.Kod w)) (offer_ids st) then
    stock <- lift (stock_of_count w) ;;
    stocks_append (stock_entry (str (Seller.Kod w)) stock) ;;;
    offer_ids_remove (str (Seller.Kod w))
  else ret tt.

(** [create_stocks(watch_remnants, offer_ids, warehouse_id)] *)
Definition create_stocks (watch_remnants : list Seller.watch) (ids : list string)
  : result (list stock_record) * list string :=
  let run :=
    for_each watch_remnants create_stocks_body ;;;
    st <- get ;;
    for_each (offer_ids st) (fun offer_id => stocks_append (stock_entry offer_id 0)) ;;;
    st' <- get ;;
    ret (stocks st') in
  let (r, st) := run {| stocks := []; offer_ids := ids |} in
  (r, offer_ids st).

End Stocks.

(** Body of the loop of [create_prices] (lines 211-224). *)
Definition create_prices_body (ids : list string) (w : Seller.watch)
  : M (list price_record) unit :=
  if contains (str (Seller.Kod w)) ids then
    p <- lift (Seller.price_conversion (Seller.Tsena w)) ;;
    v <- lift (int (PStr p)) ;;
    prices <- get ;;
    put (prices ++ [{| id := str (Seller.Kod w);
                       price := {| value := v; currencyId := "RUR" |} |}])
  else ret tt.

(** [create_prices(watch_remnants, offer_ids)] *)
Definition create_prices (watch_remnants : list Seller.watch) (ids : list string)
  : result (list price_record) :=
  match for_each watch_remnants (create_prices_body ids) [] with
  | (Ok _, prices) => Ok prices
  | (Raise e, _) => Raise e
  end.

(** The value of ["result"] in the answer of [offer-mapping-entries]:
    the entries, each with the [shopSku] of its offer, and the token of
    the next page. *)
Record entry : Type := { shopSku : string }.

Record page : Type := {
  offerMappingEntries : list entry;
  nextPageToken : pyval
}.

(** Truth value of a cell, as [not page] tests it. *)
Definition truthy (v : pyval) : bool :=
  match v with
  | PStr s => negb (String.eqb s "")
  | PInt z => negb (z =? 0)
  | PNone => false
  end.

(** The listing requests sent so far, each with its [page_token]. *)
Definition world : Type := list pyval.

Section Run.
(** [listing k] answers the listing request number [k] of the run. *)
Variable listing : nat -> result page.

(** [get_product_list(page, campaign_id, access_token)] *)
Definition get_product_list (page_token : pyval) : M world page :=
  fun tr => (listing (List.length tr), tr ++ [page_token]).

(** The [while True] loop of [get_offer_ids] (lines 126-131), run for
    at most [fuel] iterations; [None] when they do not suffice. *)
Fixpoint get_offer_ids_loop (fuel : nat) (page_token : pyval)
  (product_list : list entry) (tr : world)
  : option (result (list entry) * world) :=
  match fuel with
  | O => None
  | S fuel' =>
      match get_product_list page_token tr with
      | (Raise e, tr') => Some (Raise e, tr')
      | (Ok some_prod, tr') =>
          let product_list := product_list ++ offerMappingEntries some_prod in
          let page_token := nextPageToken some_prod in
          if negb (truthy page_token)
          then Some (Ok product_list, tr')
          else get_offer_ids_loop fuel' page_token product_list tr'
      end
  end.

(** [get_offer_ids(campaign_id, market_token)] *)
Definition get_offer_ids (fuel : nat) (tr : world)
  : option (result (list string) * world) :=
  match get_offer_ids_loop fuel (PStr "") [] tr with
  | None => None
  | Some (Raise e, tr') => Some (Raise e, tr')
  | Some (Ok product_list, tr') => Some (Ok (map shopSku product_list), tr')
  end.

End Run.

End Market.

(* ================================================================== *)
(** * Notions the properties are stated with *)

Module Spec.
Import Py.

(** The code of a supplier record, as text. *)
Definition code (w : Seller.watch) : string := str (Seller.Kod w).

(** [l] without the first element equal to [x]. *)
Fixpoint remove_first (x : string) (l : list string) : list string :=
  match l with
  | [] => []
  | y :: l' => if String.eqb y x then l' else y :: remove_first x l'
  end.

(** The supplier records that match: those whose code is in the list
    of identifiers when their turn comes, each match taking one
    occurrence of its code out of the list. *)
Fixpoint matched (feed : list Seller.watch) (ids : list string) : list Seller.watch :=
  match feed with
  | [] => []
  | w :: rest =>
      if contains (code w) ids then w :: matched rest (remove_first (code w) ids)
      else matched rest ids
  end.

(** The identifiers left once every record has had its turn. *)
Fixpoint remaining (feed : list Seller.watch) (ids : list string) : list string :=
  match feed with
  | [] => ids
  | w :: rest =>
      if contains (code w) ids then remaining rest (remove_first (code w) ids)
      else remaining rest ids
  end.

(** Whether some supplier record has the code [id]. *)
Definition in_feed (feed : list Seller.watch) (id : string) : bool :=
  existsb (fun w => String.eqb (code w) id) feed.

(** The identifiers that are the code of no supplier record. *)
Definition unmatched (feed : list Seller.watch) (ids : list string) : list string :=
  filter (fun id => negb (in_feed feed id)) ids.

(** A stock record emitted for a supplier record: it carries the code
    of the record and the stock its quantity is coerced to. *)
Definition emitted (r : Seller.stock_record) (w : Seller.watch) : Prop :=
  Seller.offer_id r = code w /\ Seller.stock_of_count w = Ok (Seller.stock r).

(** The record telling the marketplace that [id] is out of stock. *)
Definition zero_stock (id : string) : Seller.stock_record :=
  {| Seller.offer_id := id; Seller.stock := 0 |}.

(** The record of [market.py] with the identifier and quantity of a
    record of [seller.py]. *)
Definition to_market (warehouse_id date : string) (r : Seller.stock_record)
  : Market.stock_record :=
  Market.stock_entry warehouse_id date (Seller.offer_id r) (Seller.stock r).

(** The store of [market.create_stocks] that matches a store of
    [seller.create_stocks]. *)
Definition to_market_store (warehouse_id date : string) (st : Seller.store)
  : Market.store :=
  {| Market.stocks := map (to_market warehouse_id date) (Seller.stocks st);
     Market.offer_ids := Seller.offer_ids st |}.

(** The number of chunks of size [N] a list of [len] elements is split
    into, and the chunk of rank [k]. *)
Definition chunk_count (len N : nat) : nat := ((len + N - 1) / N)%nat.

Definition chunk {A} (lst : list A) (N k : nat) : list A :=
  firstn N (skipn (k * N) lst).




(** The supplier records whose code is a known identifier. *)
Definition known (feed : list Seller.watch) (ids : list string) : list Seller.watch :=
  filter (fun w => contains (code w) ids) feed.

(** The price record of [seller.py] for the code [c] and the price [p]. *)
Definition seller_price (c p : string) : Seller.price_record :=
  {| Seller.auto_action_enabled := "UNKNOWN";
     Seller.currency_code := "RUB";
     Seller.price_offer_id := c;
     Seller.old_price := "0";
     Seller.price := p |}.

(** A price record emitted for a supplier record, in [seller.py] and in
    [market.py]. *)
Definition seller_priced (p : Seller.price_record) (w : Seller.watch) : Prop :=
  exists s, Seller.price_conversion (Seller.Tsena w) = Ok s /\
            p = seller_price (code w) s.

Definition market_priced (p : Market.price_record) (w : Seller.watch) : Prop :=
  exists s v, Seller.price_conversion (Seller.Tsena w) = Ok s /\
              int (PStr s) = Ok v /\
              p = {| Market.id := code w;
                     Market.price := {| Market.value := v; Market.currencyId := "RUR" |} |}.

(** The text before the first period of [s]; all of [s] when it has no
    period. *)
Fixpoint before_period (s : string) : string :=
  match s with
  | EmptyString => EmptyString
  | String c s' => if Ascii.eqb c "." then EmptyString else String c (before_period s')
  end.

(** [s] with every character that is not a decimal digit taken out. *)
Definition digits_only (s : string) : string :=
  string_of_list_ascii (filter is_digit (list_ascii_of_string s)).

(** Catalogue reading.  [pages k] is the page given to the listing
    request number [k].  The products of the pages before number [j],
    in page order; whether the loop of [get_offer_ids] stops once it has
    page number [k]; the requests sent from number [j] on, [d] of them
    after the one carrying [cursor]. *)
Definition seller_before (pages : nat -> Seller.page) (j : nat) : list Seller.product :=
  flat_map (fun i => Seller.items (pages i)) (seq 0 j).

Definition seller_stops (pages : nat -> Seller.page) (k : nat) : Prop :=
  Seller.total (pages k) = Z.of_nat (List.length (seller_before pages (S k))).

Definition seller_requests (pages : nat -> Seller.page) (cursor : string) (j d : nat)
  : list Seller.event :=
  Seller.ListProducts cursor
  :: map (fun i => Seller.ListProducts (Seller.last_id (pages i))) (seq j d).

Definition market_before (pages : nat -> Market.page) (j : nat) : list Market.entry :=
  flat_map (fun i => Market.offerMappingEntries (pages i)) (seq 0 j).

Definition market_stops (pages : nat -> Market.page) (k : nat) : Prop :=
  Market.truthy (Market.nextPageToken (pages k)) = false.

Definition market_requests (pages : nat -> Market.page) (token : pyval) (j d : nat)
  : list pyval :=
  token :: map (fun i => Market.nextPageToken (pages i)) (seq j d).

(** What [main] prints for an exception, by its class. *)
Definition report (e : exn) : list Seller.print_arg :=
  match e with
  | ReadTimeout => [Seller.PrintStr "Превышено время ожидания..."]
  | ConnectionError | ConnectTimeout =>
      [Seller.PrintExn e; Seller.PrintStr "Ошибка соединения"]
  | _ => [Seller.PrintExn e; Seller.PrintStr "ERROR_2"]
  end.

(** A trace in which nothing is printed. *)
Definition silent (tr : Seller.world) : Prop :=
  Forall (fun ev => Seller.is_Print ev = false) tr.

End Spec.

(** Sample data: the scenario of the specification, and a catalogue that
    lists an identifier twice. *)
Module Scenario.
Import Py.

Definition row (code quantity price : string) : Seller.watch :=
  {| Seller.Kod := PStr code;
     Seller.Kolichestvo := PStr quantity;
     Seller.Tsena := PStr price |}.

Definition feed : list Seller.watch :=
  [row "A" "5" "100.00"; row "B" "1" "50.00"].

Definition known_ids : list string := ["A"; "B"; "C"].

Definition stocks : list Seller.stock_record :=
  [{| Seller.offer_id := "A"; Seller.stock := 5 |};
   {| Seller.offer_id := "B"; Seller.stock := 0 |};
   {| Seller.offer_id := "C"; Seller.stock := 0 |}].

Definition prices : list Seller.price_record :=
  [Spec.seller_price "A" "100"; Spec.seller_price "B" "50"].

(** A catalogue of three products given in two pages. *)
Definition seller_pages (k : nat) : Seller.page :=
  match k with
  | O => {| Seller.items := [{| Seller.product_offer_id := "A" |};
                             {| Seller.product_offer_id := "B" |}];
            Seller.total := 3;
            Seller.last_id := "p1" |}
  | _ => {| Seller.items := [{| Seller.product_offer_id := "C" |}];
            Seller.total := 3;
            Seller.last_id := "" |}
  end.

Definition market_pages (k : nat) : Market.page :=
  match k with
  | O => {| Market.offerMappingEntries := [{| Market.shopSku := "A" |};
                                           {| Market.shopSku := "B" |}];
            Market.nextPageToken := PStr "p1" |}
  | _ => {| Market.offerMappingEntries := [{| Market.shopSku := "C" |}];
            Market.nextPageToken := PNone |}
  end.

(** A catalogue of 150 products given in one page, a supplier file with
    no row, and a marketplace whose second stock update times out. *)
Definition many_ids : list string :=
  map (fun k => NilZero.string_of_uint (Nat.to_uint k)) (seq 0 150).

Definition stormy : Seller.env :=
  {| Seller.listing := fun _ =>
       Ok {| Seller.items := map (fun i => {| Seller.product_offer_id := i |}) many_ids;
             Seller.total := 150;
             Seller.last_id := "" |};
     Seller.supplier := Ok [];
     Seller.stocks_api := fun k => match k with 1%nat => Raise ReadTimeout | _ => Ok tt end;
     Seller.prices_api := fun _ => Ok tt |}.

(** Pages that never satisfy the stopping test of either reader. *)
Definition endless_seller (_ : nat) : Seller.page :=
  {| Seller.items := []; Seller.total := 1; Seller.last_id := "" |}.

Definition endless_market (_ : nat) : Market.page :=
  {| Market.offerMappingEntries := []; Market.nextPageToken := PStr "next" |}.

(** An outside whose listing gives two products and reports one. *)
Definition overshoot_page : Seller.page :=
  {| Seller.items := [{| Seller.product_offer_id := "A" |};
                      {| Seller.product_offer_id := "B" |}];
     Seller.total := 1;
     Seller.last_id := "p1" |}.

Definition overshoot : Seller.env :=
  {| Seller.listing := fun _ => Ok overshoot_page;
     Seller.supplier := Ok feed;
     Seller.stocks_api := fun _ => Ok tt;
     Seller.prices_api := fun _ => Ok tt |}.

(** An outside whose listing never meets the stopping test. *)
Definition stuck : Seller.env :=
  {| Seller.listing := fun k => Ok (endless_seller k);
     Seller.supplier := Ok feed;
     Seller.stocks_api := fun _ => Ok tt;
     Seller.prices_api := fun _ => Ok tt |}.

(** An outside where every request succeeds. *)
Definition calm : Seller.env :=
  {| Seller.listing := fun k => Ok (seller_pages k);
     Seller.supplier := Ok feed;
     Seller.stocks_api := fun _ => Ok tt;
     Seller.prices_api := fun _ => Ok tt |}.

End Scenario.

(* ================================================================== *)
(** * The coroutines of [seller.py] *)

Module SellerAsync.
Import Py.

Section Run.
Variable E : Seller.env.

(** The body of [upload_prices(watch_remnants, client_id, seller_token)],
    as it runs once the coroutine is awaited, from the trace [tr]. *)
Definition upload_prices (watch_remnants : list Seller.watch) (fuel : nat)
  (tr : Seller.world)
  : option (result (list Seller.price_record) * Seller.world) :=
  match Seller.get_offer_ids E fuel tr with
  | None => None
  | Some (Raise e, tr') => Some (Raise e, tr')
  | Some (Ok offer_ids, tr') =>
      Some ((prices <- lift (Seller.create_prices watch_remnants offer_ids) ;;
             chunks <- lift (Seller.divide prices 1000) ;;
             for_each chunks (Seller.update_price E) ;;;
             ret prices) tr')
  end.

(** The body of [upload_stocks(watch_remnants, client_id, seller_token)]. *)
Definition upload_stocks (watch_remnants : list Seller.watch) (fuel : nat)
  (tr : Seller.world)
  : option (result (list Seller.stock_record * list Seller.stock_record)
            * Seller.world) :=
  match Seller.get_offer_ids E fuel tr with
  | None => None
  | Some (Raise e, tr') => Some (Raise e, tr')
  | Some (Ok offer_ids, tr') =>
      Some ((let (r, _) := Seller.create_stocks watch_remnants offer_ids in
             stocks <- lift r ;;
             chunks <- lift (Seller.divide stocks 100) ;;
             for_each chunks (Seller.update_stocks E) ;;;
             let not_empty :=
               filter (fun stock => negb (Seller.stock stock =? 0)) stocks in
             ret (not_empty, stocks)) tr')
  end.

End Run.

End SellerAsync.

(* ================================================================== *)
(** * The calls, the coroutines and [main] of [market.py] *)

Module MarketRun.
Import Py.

(** The two campaigns [main] works on, standing for their identifiers
    [campaign_fbs_id] and [campaign_dbs_id]. *)
Inductive campaign : Type := FBS | DBS.

Definition campaign_eqb (a b : campaign) : bool :=
  match a, b with
  | FBS, FBS | DBS, DBS => true
  | _, _ => false
  end.

Inductive event : Type :=
| ListEntries (c : campaign) (page_token : pyval)
| DownloadStock
| UpdateStocks (c : campaign) (chunk : list Market.stock_record)
| UpdatePrice (c : campaign) (chunk : list Market.price_record)
| Print (args : list Seller.print_arg).

Definition world : Type := list event.

(** The outside: [listing c k] answers the listing request number [k]
    of a reading of the catalogue of [c]; [stocks_api c k] and
    [prices_api c k] the update requests number [k] sent for [c];
    [supplier] is the outcome of [download_stock]; [warehouse c] is the
    warehouse identifier read from the settings for [c] and [utcnow c]
    the text made of the clock's reading when [create_stocks] is called
    for [c]. *)
Record env : Type := {
  listing : campaign -> nat -> result Market.page;
  supplier : result (list Seller.watch);
  stocks_api : campaign -> nat -> result unit;
  prices_api : campaign -> nat -> result unit;
  warehouse : campaign -> string;
  utcnow : campaign -> string
}.

Definition is_UpdateStocks (c : campaign) (ev : event) : bool :=
  match ev with UpdateStocks c' _ => campaign_eqb c' c | _ => false end.
Definition is_UpdatePrice (c : campaign) (ev : event) : bool :=
  match ev with UpdatePrice c' _ => campaign_eqb c' c | _ => false end.
Definition sent (kind : event -> bool) (tr : world) : nat :=
  List.length (filter kind tr).

(** [list(filter(f, l))] for a test that can raise. *)
Fixpoint filter_list {A} (f : A -> result bool) (l : list A) : result (list A) :=
  match l with
  | [] => Ok []
  | x :: l' =>
      match f x with
      | Raise e => Raise e
      | Ok b =>
          match filter_list f l' with
          | Raise e => Raise e
          | Ok r => Ok (if b then x :: r else r)
          end
      end
  end.

(** A coroutine object: the body of an [async def] function, which runs
    only when the object is awaited. *)
Definition coroutine (A : Type) : Type :=
  nat -> world -> option (result A * world).

Section Run.
Variable E : env.

(** [get_offer_ids(campaign_id, market_token)] within a run: the
    requests of the reading are added to the trace. *)
Definition get_offer_ids (c : campaign) (fuel : nat) (tr : world)
  : option (result (list string) * world) :=
  match Market.get_offer_ids (listing E c) fuel [] with
  | None => None
  | Some (r, tokens) => Some (r, tr ++ map (ListEntries c) tokens)
  end.

(** [update_stocks(stocks, campaign_id, access_token)] *)
Definition update_stocks (c : campaign) (chunk : list Market.stock_record)
  : M world unit :=
  fun tr => (stocks_api E c (sent (is_UpdateStocks c) tr), tr ++ [UpdateStocks c chunk]).

(** [update_price(prices, campaign_id, access_token)] *)
Definition update_price (c : campaign) (chunk : list Market.price_record)
  : M world unit :=
  fun tr => (prices_api E c (sent (is_UpdatePrice c) tr), tr ++ [UpdatePrice c chunk]).

(** [download_stock()] *)
Definition download_stock : M world (list Seller.watch) :=
  fun tr => (supplier E, tr ++ [DownloadStock]).

(** [upload_prices(watch_remnants, campaign_id, market_token)]: the call
    makes the coroutine object and runs nothing. *)
Definition upload_prices (watch_remnants : list Seller.watch) (c : campaign)
  : coroutine (list Market.price_record) :=
  fun fuel tr =>
    match get_offer_ids c fuel tr with
    | None => None
    | Some (Raise e, tr') => Some (Raise e, tr')
    | Some (Ok offer_ids, tr') =>
        Some ((prices <- lift (Market.create_prices watch_remnants offer_ids) ;;
               chunks <- lift (Seller.divide prices 500) ;;
               for_each chunks (update_price c) ;;;
               ret prices) tr')
    end.

(** The test of the [filter] of [upload_stocks] (line 275). *)
Definition count_not_zero (stock : Market.stock_record) : result bool :=
  match index0 (Market.items stock) with
  | Ok it => Ok (negb (Market.count it =? 0))
  | Raise e => Raise e
  end.

(** [upload_stocks(watch_remnants, campaign_id, market_token, warehouse_id)] *)
Definition upload_stocks (watch_remnants : list Seller.watch) (c : campaign)
  : coroutine (list Market.stock_record * list Market.stock_record) :=
  fun fuel tr =>
    match get_offer_ids c fuel tr with
    | None => None
    | Some (Raise e, tr') => Some (Raise e, tr')
    | Some (Ok offer_ids, tr') =>
        Some ((let (r, _) :=
                 Market.create_stocks (warehouse E c) (utcnow E c)
                   watch_remnants offer_ids in
               stocks <- lift r ;;
               chunks <- lift (Seller.divide stocks 2000) ;;
               for_each chunks (update_stocks c) ;;;
               not_empty <- lift (filter_list count_not_zero stocks) ;;
               ret (not_empty, stocks)) tr')
    end.

(** The statements of [main] for one campaign (lines 291-297 for FBS,
    300-306 for DBS).  The value of the call of [upload_prices] is a
    coroutine object that [main] neither awaits nor keeps. *)
Definition main_campaign (c : campaign) (watch_remnants : list Seller.watch)
  (fuel : nat) (tr : world) : option (result unit * world) :=
  match get_offer_ids c fuel tr with
  | None => None
  | Some (Raise e, tr') => Some (Raise e, tr')
  | Some (Ok offer_ids, tr') =>
      Some ((let (r, _) :=
               Market.create_stocks (warehouse E c) (utcnow E c)
                 watch_remnants offer_ids in
             stocks <- lift r ;;
             chunks <- lift (Seller.divide stocks 2000) ;;
             for_each chunks (update_stocks c) ;;;
             _ <- ret (upload_prices watch_remnants c) ;;
             ret tt) tr')
  end.

(** The [try] block of [main] (lines 290-306). *)
Definition main_try (watch_remnants : list Seller.watch) (fuel : nat) (tr : world)
  : option (result unit * world) :=
  match main_campaign FBS watch_remnants fuel tr with
  | None => None
  | Some (Raise e, tr') => Some (Raise e, tr')
  | Some (Ok _, tr') => main_campaign DBS watch_remnants fuel tr'
  end.

(** The three [except] clauses of [main] (lines 307-312). *)
Definition main_except (e : exn) : M world unit :=
  fun tr =>
    if Seller.isinstance e ReadTimeout then
      (Ok tt, tr ++ [Print [Seller.PrintStr "Превышено время ожидания..."]])
    else if Seller.isinstance e ConnectionError then
      (Ok tt, tr ++ [Print [Seller.PrintExn e; Seller.PrintStr "Ошибка соединения"]])
    else
      (Ok tt, tr ++ [Print [Seller.PrintExn e; Seller.PrintStr "ERROR_2"]]).

(** [main()], once the settings are read from the environment;
    [download_stock] is called before the [try]. *)
Definition main (fuel : nat) : option (result unit * world) :=
  match download_stock [] with
  | (Raise e, tr) => Some (Raise e, tr)
  | (Ok watch_remnants, tr) =>
      match main_try watch_remnants fuel tr with
      | None => None
      | Some (Ok _, tr') => Some (Ok tt, tr')
      | Some (Raise e, tr') => Some (main_except e tr')
      end
  end.

End Run.

End MarketRun.

(** Sample outsides for [market.py]. *)
Module MarketScenario.
Import Py.

(** Every request succeeds and both catalogues have the three products
    of the scenario. *)
Definition calm : MarketRun.env :=
  {| MarketRun.listing := fun _ k => Ok (Scenario.market_pages k);
     MarketRun.supplier := Ok Scenario.feed;
     MarketRun.stocks_api := fun _ _ => Ok tt;
     MarketRun.prices_api := fun _ _ => Ok tt;
     MarketRun.warehouse := fun c => match c with
                                     | MarketRun.FBS => "W1"
                                     | MarketRun.DBS => "W2"
                                     end;
     MarketRun.utcnow := fun _ => "2024-01-01T00:00:00Z" |}.

(** The supplier's file cannot be downloaded. *)
Definition offline : MarketRun.env :=
  {| MarketRun.listing := fun _ k => Ok (Scenario.market_pages k);
     MarketRun.supplier := Raise ConnectionError;
     MarketRun.stocks_api := fun _ _ => Ok tt;
     MarketRun.prices_api := fun _ _ => Ok tt;
     MarketRun.warehouse := fun _ => "W";
     MarketRun.utcnow := fun _ => "2024-01-01T00:00:00Z" |}.

(** The stock update of the first campaign is refused. *)
Definition refused : MarketRun.env :=
  {| MarketRun.listing := fun _ k => Ok (Scenario.market_pages k);
     MarketRun.supplier := Ok Scenario.feed;
     MarketRun.stocks_api := fun c _ => match c with
                                        | MarketRun.FBS => Raise HTTPError
                                        | MarketRun.DBS => Ok tt
                                        end;
     MarketRun.prices_api := fun _ _ => Ok tt;
     MarketRun.warehouse := fun _ => "W";
     MarketRun.utcnow := fun _ => "T" |}.

End MarketScenario.

(** Notions the properties of [market.main] are stated with. *)
Module MarketSpec.
Import Py.

(** An event of the work on the campaign [c]: a listing request or a
    stock update for [c]. *)
Definition of_campaign (c : MarketRun.campaign) (ev : MarketRun.event) : bool :=
  match ev with
  | MarketRun.ListEntries c' _ | MarketRun.UpdateStocks c' _ =>
      MarketRun.campaign_eqb c' c
  | _ => false
  end.

(** Whether an event is a price update, for whichever campaign. *)
Definition any_UpdatePrice (ev : MarketRun.event) : bool :=
  match ev with MarketRun.UpdatePrice _ _ => true | _ => false end.

(** The requests of the work on [c]: the listing requests carrying
    [tokens], then the stock updates of [chunks]. *)
Definition work (c : MarketRun.campaign) (tokens : list pyval)
  (chunks : list (list Market.stock_record)) : MarketRun.world :=
  map (MarketRun.ListEntries c) tokens ++ map (MarketRun.UpdateStocks c) chunks.

End MarketSpec.

(* ================================================================== *)
(** * Checks of the built-ins on sample values *)

Example str_examples :
  Py.str (Py.PInt (-5)) = "-5" /\ Py.str (Py.PInt 0) = "0" /\
  Py.str (Py.PInt 120) = "120".
Proof. repeat split; reflexivity. Qed.

Example int_examples :
  map Py.int_of_string ["7"; " 7 "; "+7"; "-7"; "0_7"; "007"; "1_000"]
  = map Py.Ok [7; 7; 7; -7; 7; 7; 1000] /\
  map Py.int_of_string ["+-7"; "- 7"; "_7"; "7_"; "7__7"; ""; "  "; ">10"; "1.0"; "+"; "0x10"]
  = repeat (Py.Raise Py.ValueError) 11.
Proof. split; reflexivity. Qed.

Example range_examples :
  Py.range 0 5 2 = Py.Ok [0; 2; 4] /\ Py.range 0 0 2 = Py.Ok [] /\
  Py.range 0 5 (-1) = Py.Ok [] /\ Py.range 5 0 (-2) = Py.Ok [5; 3; 1] /\
  Py.range 0 5 0 = Py.Raise Py.ValueError.
Proof. repeat split; reflexivity. Qed.


(* ================================================================== *)
(** * Lists of identifiers *)

Section Identifiers.
Import Py Spec.

Lemma contains_In x l : contains x l = true <-> In x l.
Proof.
  unfold contains. rewrite existsb_exists. split.
  - intros (y & Hy & Heq). apply String.eqb_eq in Heq. now subst.
  - intros H. exists x. split; [exact H | apply String.eqb_refl].
Qed.

Lemma contains_false x l : contains x l = false <-> ~ In x l.
Proof.
  rewrite <- contains_In. destruct (contains x l); split; congruence.
Qed.

Lemma remove_contains x l :
  contains x l = true -> remove x l = Ok (remove_first x l).
Proof.
  induction l as [|y l IH]; simpl; [discriminate|].
  destruct (String.eqb y x); simpl; [reflexivity|].
  intros H. now rewrite (IH H).
Qed.

Lemma remove_first_In x y l : In y (remove_first x l) -> In y l.
Proof.
  induction l as [|z l IH]; simpl; [tauto|].
  destruct (String.eqb z x); simpl; tauto.
Qed.

Lemma remove_first_perm x l :
  In x l -> Permutation (x :: remove_first x l) l.
Proof.
  induction l as [|y l IH]; simpl; [tauto|].
  destruct (String.eqb_spec y x) as [->|Hne]; [reflexivity|].
  intros [H|H]; [congruence|].
  rewrite perm_swap. constructor. now apply IH.
Qed.

Lemma remove_first_NoDup x l : NoDup l -> NoDup (remove_first x l).
Proof.
  induction 1 as [|y l Hy Hl IH]; simpl; [constructor|].
  destruct (String.eqb y x); [exact Hl|].
  constructor; [|exact IH]. intros H. apply Hy. eapply remove_first_In, H.
Qed.

Lemma remove_first_filter x l :
  NoDup l -> remove_first x l = filter (fun y => negb (String.eqb x y)) l.
Proof.
  induction 1 as [|y l Hy Hl IH]; simpl; [reflexivity|].
  rewrite (String.eqb_sym x y).
  destruct (String.eqb_spec y x) as [->|Hne]; simpl.
  - symmetry. apply forallb_filter_id. apply forallb_forall.
    intros z Hz. destruct (String.eqb_spec x z); [subst; tauto | reflexivity].
  - now rewrite IH.
Qed.

Lemma remove_first_count x y l :
  count_occ string_dec (remove_first x l) y
  = (count_occ string_dec l y - (if String.eqb x y then 1 else 0))%nat.
Proof.
  induction l as [|z l IH]; simpl.
  - now destruct (String.eqb x y).
  - destruct (String.eqb_spec z x) as [->|Hzx].
    + destruct (string_dec x y) as [->|Hxy].
      * rewrite String.eqb_refl. lia.
      * apply String.eqb_neq in Hxy. rewrite Hxy. lia.
    + simpl. rewrite IH. destruct (string_dec z y) as [->|Hzy]; [|reflexivity].
      apply String.eqb_neq in Hzx. rewrite String.eqb_sym in Hzx.
      rewrite Hzx. lia.
Qed.

Lemma matched_remaining_perm feed : forall ids,
  Permutation (map code (matched feed ids) ++ remaining feed ids) ids.
Proof.
  induction feed as [|w rest IH]; intros ids; simpl; [reflexivity|].
  destruct (contains (code w) ids) eqn:Hc; [|apply IH].
  simpl. rewrite IH. apply remove_first_perm. now apply contains_In.
Qed.

Lemma filter_twice {A} (f g : A -> bool) l :
  filter f (filter g l) = filter (fun x => g x && f x) l.
Proof.
  induction l as [|x l IH]; simpl; [reflexivity|].
  destruct (g x); simpl; [|exact IH].
  destruct (f x); now rewrite IH.
Qed.

Lemma remaining_unmatched feed : forall ids,
  NoDup ids -> remaining feed ids = unmatched feed ids.
Proof.
  unfold unmatched.
  induction feed as [|w rest IH]; intros ids Hnd; simpl.
  - symmetry. now apply forallb_filter_id, forallb_forall.
  - destruct (contains (code w) ids) eqn:Hc.
    + rewrite IH by now apply remove_first_NoDup.
      rewrite (remove_first_filter _ _ Hnd), filter_twice.
      apply filter_ext. intros y. now rewrite negb_orb.
    + apply contains_false in Hc. rewrite (IH _ Hnd).
      apply filter_ext_in. intros y Hy.
      destruct (String.eqb_spec (code w) y) as [Heq|Hne]; [|reflexivity].
      subst. tauto.
Qed.

End Identifiers.

(* ================================================================== *)
(** * The loops of [create_stocks] *)

Section SellerStocks.
Import Py Spec.

Lemma seller_body_eq w st :
  Seller.create_stocks_body w st =
  if contains (code w) (Seller.offer_ids st) then
    match Seller.stock_of_count w with
    | Ok n =>
        (Ok tt,
         {| Seller.stocks :=
              Seller.stocks st ++ [{| Seller.offer_id := code w; Seller.stock := n |}];
            Seller.offer_ids := remove_first (code w) (Seller.offer_ids st) |})
    | Raise e => (Raise e, st)
    end
  else (Ok tt, st).
Proof.
  unfold Seller.create_stocks_body, bind, get, lift, ret, code.
  destruct (contains _ _) eqn:Hc; [|reflexivity].
  destruct (Seller.stock_of_count w); [|reflexivity].
  unfold Seller.stocks_append, Seller.offer_ids_remove. simpl.
  now rewrite (remove_contains _ _ Hc).
Qed.

Lemma seller_first_loop feed : forall st,
  match for_each feed Seller.create_stocks_body st with
  | (Ok _, st') =>
      Seller.offer_ids st' = remaining feed (Seller.offer_ids st) /\
      exists new, Seller.stocks st' = Seller.stocks st ++ new /\
                  Forall2 emitted new (matched feed (Seller.offer_ids st))
  | (Raise e, _) =>
      exists w, In w (matched feed (Seller.offer_ids st)) /\
                Seller.stock_of_count w = Raise e
  end.
Proof.
  induction feed as [|w rest IH]; intros st; simpl.
  - split; [reflexivity|]. exists []. now rewrite app_nil_r.
  - unfold bind at 1. rewrite seller_body_eq.
    destruct (contains (code w) (Seller.offer_ids st)) eqn:Hc.
    + destruct (Seller.stock_of_count w) as [n|e] eqn:Hn.
      * match goal with |- context [for_each rest _ ?s] => specialize (IH s) end.
        destruct (for_each rest _ _) as [[[]|e] st']; simpl in IH.
        -- destruct IH as (Hids & new & Hst & Hnew). split; [exact Hids|].
           exists ({| Seller.offer_id := code w; Seller.stock := n |} :: new).
           rewrite Hst, <- app_assoc. split; [reflexivity|].
           constructor; [now split | exact Hnew].
        -- destruct IH as (w' & Hin & Hw'). exists w'. split; [now right | exact Hw'].
      * exists w. split; [now left | exact Hn].
    + apply IH.
Qed.

Lemma seller_second_loop ids : forall st,
  for_each ids (fun offer_id =>
      Seller.stocks_append {| Seller.offer_id := offer_id; Seller.stock := 0 |}) st
  = (Ok tt, {| Seller.stocks := Seller.stocks st ++ map zero_stock ids;
               Seller.offer_ids := Seller.offer_ids st |}).
Proof.
  induction ids as [|id ids IH]; intros st; simpl.
  - rewrite app_nil_r. now destruct st.
  - unfold bind at 1. unfold Seller.stocks_append at 1. rewrite IH. simpl.
    now rewrite <- app_assoc.
Qed.

Lemma seller_create_stocks_eq feed ids :
  Seller.create_stocks feed ids =
  match for_each feed Seller.create_stocks_body
          {| Seller.stocks := []; Seller.offer_ids := ids |} with
  | (Ok _, st) =>
      (Ok (Seller.stocks st ++ map zero_stock (Seller.offer_ids st)), Seller.offer_ids st)
  | (Raise e, st) => (Raise e, Seller.offer_ids st)
  end.
Proof.
  unfold Seller.create_stocks. unfold bind at 1.
  destruct (for_each feed _ _) as [[[]|e] st]; [|reflexivity].
  unfold bind at 1, get at 1. unfold bind at 1. rewrite seller_second_loop.
  reflexivity.
Qed.

Lemma seller_create_stocks_spec feed ids :
  match Seller.create_stocks feed ids with
  | (Ok stocks, ids') =>
      ids' = remaining feed ids /\
      exists new, stocks = new ++ map zero_stock ids' /\
                  Forall2 emitted new (matched feed ids)
  | (Raise e, _) =>
      exists w, In w (matched feed ids) /\ Seller.stock_of_count w = Raise e
  end.
Proof.
  rewrite seller_create_stocks_eq.
  pose proof (seller_first_loop feed {| Seller.stocks := []; Seller.offer_ids := ids |}) as H.
  destruct (for_each feed _ _) as [[[]|e] st']; simpl in H; [|exact H].
  destruct H as (Hids & new & Hst & Hnew).
  split; [exact Hids|]. exists new. rewrite Hst. now split.
Qed.

End SellerStocks.

Section MarketStocks.
Import Py Spec.
Variables (warehouse_id date : string).


Lemma market_body_eq w st :
  Market.create_stocks_body warehouse_id date w (to_market_store warehouse_id date st) =
  let (r, st') := Seller.create_stocks_body w st in (r, to_market_store warehouse_id date st').
Proof.
  rewrite seller_body_eq.
  unfold Market.create_stocks_body, bind, get, lift, ret. simpl.
  fold (code w).
  destruct (contains (code w) (Seller.offer_ids st)) eqn:Hc; [|reflexivity].
  change (Market.stock_of_count w) with (Seller.stock_of_count w).
  destruct (Seller.stock_of_count w); [|reflexivity].
  unfold Market.stocks_append, Market.offer_ids_remove. simpl.
  rewrite (remove_contains _ _ Hc). unfold to_market_store. simpl.
  now rewrite map_app.
Qed.

Lemma market_first_loop feed : forall st,
  for_each feed (Market.create_stocks_body warehouse_id date) (to_market_store warehouse_id date st) =
  let (r, st') := for_each feed Seller.create_stocks_body st in (r, to_market_store warehouse_id date st').
Proof.
  induction feed as [|w rest IH]; intros st; simpl; [reflexivity|].
  unfold bind. rewrite market_body_eq.
  destruct (Seller.create_stocks_body w st) as [[[]|e] st1]; [apply IH | reflexivity].
Qed.

Lemma market_second_loop ids : forall st,
  for_each ids (fun offer_id =>
      Market.stocks_append (Market.stock_entry warehouse_id date offer_id 0)) (to_market_store warehouse_id date st)
  = (Ok tt, to_market_store warehouse_id date {| Seller.stocks := Seller.stocks st ++ map zero_stock ids;
                        Seller.offer_ids := Seller.offer_ids st |}).
Proof.
  induction ids as [|id ids IH]; intros st; simpl.
  - now rewrite app_nil_r.
  - unfold bind at 1. unfold Market.stocks_append at 1.
    specialize (IH {| Seller.stocks := Seller.stocks st ++ [zero_stock id];
                      Seller.offer_ids := Seller.offer_ids st |}).
    unfold to_market_store in *. simpl in *. rewrite map_app in IH. simpl in IH.
    unfold to_market at 2 in IH. simpl in IH. rewrite IH.
    now rewrite <- app_assoc.
Qed.

(** [market.create_stocks] is [seller.create_stocks] with records of
    another shape. *)
Lemma market_create_stocks_eq feed ids :
  Market.create_stocks warehouse_id date feed ids =
  match Seller.create_stocks feed ids with
  | (Ok stocks, ids') => (Ok (map (to_market warehouse_id date) stocks), ids')
  | (Raise e, ids') => (Raise e, ids')
  end.
Proof.
  rewrite seller_create_stocks_eq.
  unfold Market.create_stocks.
  change {| Market.stocks := []; Market.offer_ids := ids |}
    with (to_market_store warehouse_id date {| Seller.stocks := []; Seller.offer_ids := ids |}).
  unfold bind at 1. rewrite market_first_loop.
  destruct (for_each feed Seller.create_stocks_body _) as [[[]|e] st']; [|reflexivity].
  unfold bind at 1, get at 1. unfold bind at 1. rewrite market_second_loop.
  reflexivity.
Qed.

End MarketStocks.

(* ================================================================== *)
(** * The stock records cover the catalogue *)

Section Coverage.
Import Py Spec.

Lemma in_feed_In feed id : in_feed feed id = true <-> In id (map code feed).
Proof.
  unfold in_feed. rewrite existsb_exists, in_map_iff. split.
  - intros (w & Hw & Heq). apply String.eqb_eq in Heq. now exists w.
  - intros (w & Heq & Hw). exists w. split; [exact Hw | now apply String.eqb_eq].
Qed.

Lemma matched_In feed : forall ids w,
  In w (matched feed ids) -> In w feed /\ In (code w) ids.
Proof.
  induction feed as [|v rest IH]; intros ids w; simpl; [tauto|].
  destruct (contains (code v) ids) eqn:Hc.
  - intros [->|H].
    + split; [now left | now apply contains_In].
    + destruct (IH _ _ H) as [H1 H2]. split; [now right|].
      eapply remove_first_In, H2.
  - intros H. destruct (IH _ _ H). split; [now right | assumption].
Qed.

Lemma emitted_ids new ws :
  Forall2 emitted new ws -> map Seller.offer_id new = map code ws.
Proof.
  induction 1 as [|r w new ws [Hr _] _ IH]; simpl; [reflexivity|].
  now rewrite Hr, IH.
Qed.

Lemma map_zero_stock_ids l : map Seller.offer_id (map zero_stock l) = l.
Proof. rewrite map_map. apply map_id. Qed.

Lemma seller_stock_ids feed ids stocks ids' :
  Seller.create_stocks feed ids = (Ok stocks, ids') ->
  map Seller.offer_id stocks = map code (matched feed ids) ++ remaining feed ids.
Proof.
  intros H. pose proof (seller_create_stocks_spec feed ids) as Hs.
  rewrite H in Hs. destruct Hs as (-> & new & -> & Hnew).
  now rewrite map_app, map_zero_stock_ids, (emitted_ids _ _ Hnew).
Qed.

Lemma market_of_seller wh date feed ids stocks ids' :
  Market.create_stocks wh date feed ids = (Ok stocks, ids') ->
  exists stocks0, Seller.create_stocks feed ids = (Ok stocks0, ids') /\
                  stocks = map (to_market wh date) stocks0.
Proof.
  rewrite market_create_stocks_eq.
  destruct (Seller.create_stocks feed ids) as [[stocks0|e] ids0]; [|discriminate].
  intros H. inversion H; subst. now exists stocks0.
Qed.

Lemma to_market_sku wh date l :
  map Market.sku (map (to_market wh date) l) = map Seller.offer_id l.
Proof. now rewrite map_map. Qed.

End Coverage.

(** C1.  For a duplicate-free list of known identifiers, the list that
    [create_stocks] returns (in [seller.py] and in [market.py]) holds a
    record with quantity zero for every known identifier that is the code
    of no supplier record; the identifiers of its records are the known
    identifiers, each exactly once: those of the records emitted for the
    matching supplier records, followed by the unmatched ones with
    quantity zero.  The list is returned whenever the quantity of every
    supplier record with a known code can be coerced. *)
Theorem create_stocks_covers_catalogue :
  forall (feed : list Seller.watch) (ids : list string),
    NoDup ids ->
    (forall stocks ids',
        Seller.create_stocks feed ids = (Py.Ok stocks, ids') ->
        (forall id, In id ids -> ~ In id (map Spec.code feed) ->
                    In {| Seller.offer_id := id; Seller.stock := 0 |} stocks) /\
        Permutation (map Seller.offer_id stocks) ids /\
        NoDup (map Seller.offer_id stocks) /\
        exists new,
          stocks = new ++ map Spec.zero_stock (Spec.unmatched feed ids) /\
          Forall2 Spec.emitted new (Spec.matched feed ids)) /\
    (forall warehouse_id date stocks ids',
        Market.create_stocks warehouse_id date feed ids = (Py.Ok stocks, ids') ->
        (forall id, In id ids -> ~ In id (map Spec.code feed) ->
                    In (Market.stock_entry warehouse_id date id 0) stocks) /\
        Permutation (map Market.sku stocks) ids /\
        NoDup (map Market.sku stocks)) /\
    ((forall w, In w feed -> In (Spec.code w) ids ->
                exists n, Seller.stock_of_count w = Py.Ok n) ->
     (exists stocks ids', Seller.create_stocks feed ids = (Py.Ok stocks, ids')) /\
     (forall warehouse_id date, exists stocks ids',
         Market.create_stocks warehouse_id date feed ids = (Py.Ok stocks, ids'))).
Proof.
  intros feed ids Hnd.
  assert (Hseller : forall stocks ids',
        Seller.create_stocks feed ids = (Py.Ok stocks, ids') ->
        (forall id, In id ids -> ~ In id (map Spec.code feed) ->
                    In (Spec.zero_stock id) stocks) /\
        Permutation (map Seller.offer_id stocks) ids /\
        NoDup (map Seller.offer_id stocks) /\
        exists new,
          stocks = new ++ map Spec.zero_stock (Spec.unmatched feed ids) /\
          Forall2 Spec.emitted new (Spec.matched feed ids)).
  { intros stocks ids' H.
    pose proof (seller_stock_ids _ _ _ _ H) as Hids.
    pose proof (seller_create_stocks_spec feed ids) as Hs.
    rewrite H in Hs. destruct Hs as (Hrem & new & Hst & Hnew).
    rewrite Hrem, (remaining_unmatched _ _ Hnd) in Hst.
    assert (Hperm : Permutation (map Seller.offer_id stocks) ids)
      by (rewrite Hids; apply matched_remaining_perm).
    repeat split.
    - intros id Hin Hout. rewrite Hst. apply in_or_app. right.
      apply in_map. unfold Spec.unmatched. apply filter_In. split; [exact Hin|].
      destruct (Spec.in_feed feed id) eqn:Hf; [|reflexivity].
      apply in_feed_In in Hf. contradiction.
    - exact Hperm.
    - eapply Permutation_NoDup; [symmetry; exact Hperm | exact Hnd].
    - now exists new. }
  split; [exact Hseller|]. split.
  - intros wh date stocks ids' H.
    destruct (market_of_seller _ _ _ _ _ _ H) as (stocks0 & H0 & ->).
    destruct (Hseller _ _ H0) as (Hz & Hp & Hn & _).
    rewrite to_market_sku. repeat split; [|exact Hp|exact Hn].
    intros id Hin Hout.
    change (Market.stock_entry wh date id 0)
      with (Spec.to_market wh date (Spec.zero_stock id)).
    apply in_map. now apply Hz.
  - intros Hparse.
    assert (Hok : exists stocks ids', Seller.create_stocks feed ids = (Py.Ok stocks, ids')).
    { pose proof (seller_create_stocks_spec feed ids) as Hs.
      destruct (Seller.create_stocks feed ids) as [[stocks|e] ids'].
      - now exists stocks, ids'.
      - destruct Hs as (w & Hw & He).
        destruct (matched_In _ _ _ Hw) as [Hf Hi].
        destruct (Hparse w Hf Hi) as [n Hn]. congruence. }
    split; [exact Hok|].
    intros wh date. destruct Hok as (stocks & ids' & H).
    rewrite market_create_stocks_eq, H. now eexists _, _.
Qed.

Lemma NoDup_known_ids : NoDup Scenario.known_ids.
Proof.
  unfold Scenario.known_ids.
  repeat constructor; simpl; intuition discriminate.
Defined.

Lemma create_stocks_covers_catalogue_witness :
  NoDup Scenario.known_ids /\
  Permutation (map Seller.offer_id Scenario.stocks) Scenario.known_ids.
Proof.
  split; [exact NoDup_known_ids|].
  destruct (create_stocks_covers_catalogue Scenario.feed Scenario.known_ids
              NoDup_known_ids) as [H _].
  destruct (H Scenario.stocks ["C"] eq_refl) as (_ & Hperm & _).
  exact Hperm.
Defined.

(* ================================================================== *)
(** * What [create_stocks] leaves in the caller's list *)

Section Leftover.
Import Py Spec.

Lemma remaining_count feed : forall ids id,
  count_occ string_dec (remaining feed ids) id
  = (count_occ string_dec ids id - count_occ string_dec (map code feed) id)%nat.
Proof.
  induction feed as [|w rest IH]; intros ids id; simpl; [lia|].
  destruct (contains (code w) ids) eqn:Hc.
  - rewrite IH, remove_first_count.
    destruct (string_dec (code w) id) as [->|Hne].
    + rewrite String.eqb_refl. lia.
    + apply String.eqb_neq in Hne. rewrite Hne. lia.
  - rewrite IH. destruct (string_dec (code w) id) as [<-|Hne]; [|reflexivity].
    apply contains_false in Hc.
    apply (count_occ_not_In string_dec) in Hc. rewrite Hc. reflexivity.
Qed.

Lemma unmatched_In feed ids id :
  In id (unmatched feed ids) <-> In id ids /\ ~ In id (map code feed).
Proof.
  unfold unmatched. rewrite filter_In, <- in_feed_In.
  destruct (in_feed feed id); simpl; intuition congruence.
Qed.

End Leftover.

(** C7, as the claim states it, fails when the catalogue lists an
    identifier twice: one supplier record takes out one occurrence only,
    and the identifier it matched is still in the caller's list. *)
Lemma create_stocks_keeps_second_occurrence :
  ~ (forall id,
        In id (snd (Seller.create_stocks [Scenario.row "A" "5" "100.00"] ["A"; "A"]))
        <-> In id ["A"; "A"] /\
            ~ In id (map Spec.code [Scenario.row "A" "5" "100.00"])).
Proof.
  intros H. destruct (H "A") as [H1 _].
  destruct H1 as [_ Hn]; [now left|]. apply Hn. now left.
Qed.

(** C7, amended.  [create_stocks] changes the list [offer_ids] of its
    caller: when it returns, the list is the argument less one occurrence
    of its code, the first one left, for every supplier record whose code
    was in the list at its turn; so an identifier occurs in it as many
    times as in the argument, less the number of supplier records with
    that code.  When the argument is duplicate-free, the list holds
    exactly the identifiers that are the code of no supplier record, in
    their order. *)
Theorem create_stocks_leaves_unmatched :
  forall (feed : list Seller.watch) (ids : list string),
    (forall stocks ids',
        Seller.create_stocks feed ids = (Py.Ok stocks, ids') ->
        ids' = Spec.remaining feed ids) /\
    (forall warehouse_id date stocks ids',
        Market.create_stocks warehouse_id date feed ids = (Py.Ok stocks, ids') ->
        ids' = Spec.remaining feed ids) /\
    (forall id,
        count_occ string_dec (Spec.remaining feed ids) id
        = (count_occ string_dec ids id
           - count_occ string_dec (map Spec.code feed) id)%nat) /\
    (NoDup ids ->
     Spec.remaining feed ids = Spec.unmatched feed ids /\
     forall id, In id (Spec.remaining feed ids)
                <-> In id ids /\ ~ In id (map Spec.code feed)).
Proof.
  intros feed ids.
  assert (Hs : forall stocks ids',
             Seller.create_stocks feed ids = (Py.Ok stocks, ids') ->
             ids' = Spec.remaining feed ids).
  { intros stocks ids' H. pose proof (seller_create_stocks_spec feed ids) as Hsp.
    rewrite H in Hsp. tauto. }
  split; [exact Hs|]. split; [|split].
  - intros wh date stocks ids' H.
    destruct (market_of_seller _ _ _ _ _ _ H) as (stocks0 & H0 & _). eauto.
  - apply remaining_count.
  - intros Hnd. rewrite (remaining_unmatched _ _ Hnd).
    split; [reflexivity|]. intros id. apply unmatched_In.
Qed.

Lemma create_stocks_leaves_unmatched_witness :
  NoDup Scenario.known_ids /\
  ["C"] = Spec.remaining Scenario.feed Scenario.known_ids /\
  Spec.remaining Scenario.feed Scenario.known_ids
  = Spec.unmatched Scenario.feed Scenario.known_ids.
Proof.
  split; [exact NoDup_known_ids|].
  destruct (create_stocks_leaves_unmatched Scenario.feed Scenario.known_ids)
    as (Hs & _ & _ & H).
  split.
  - exact (Hs Scenario.stocks ["C"] eq_refl).
  - exact (proj1 (H NoDup_known_ids)).
Defined.

(* ================================================================== *)
(** * The loop of [create_prices] *)

Section Prices.
Import Py Spec.
Variable ids : list string.

Lemma seller_prices_loop feed : forall acc,
  match for_each feed (Seller.create_prices_body ids) acc with
  | (Ok _, prices) =>
      exists new, prices = acc ++ new /\ Forall2 seller_priced new (known feed ids)
  | (Raise e, _) =>
      exists w, In w (known feed ids) /\
                Seller.price_conversion (Seller.Tsena w) = Raise e
  end.
Proof.
  induction feed as [|w rest IH]; intros acc; simpl.
  - exists []. now rewrite app_nil_r.
  - unfold bind at 1. unfold Seller.create_prices_body at 1. fold (code w).
    destruct (contains (code w) ids) eqn:Hc; [|apply IH].
    unfold bind at 1, lift at 1.
    destruct (Seller.price_conversion (Seller.Tsena w)) as [s|e] eqn:Hs.
    + unfold bind, get, put at 1. fold (seller_price (code w) s).
      specialize (IH (acc ++ [seller_price (code w) s])).
      destruct (for_each rest _ _) as [[[]|e] prices].
      * destruct IH as (new & -> & Hnew).
        exists (seller_price (code w) s :: new).
        rewrite <- app_assoc. split; [reflexivity|].
        constructor; [now exists s | exact Hnew].
      * destruct IH as (w' & Hin & Hw'). exists w'. split; [now right | exact Hw'].
    + exists w. split; [now left | exact Hs].
Qed.

Lemma seller_create_prices_spec feed :
  match Seller.create_prices feed ids with
  | Ok prices => Forall2 seller_priced prices (known feed ids)
  | Raise e =>
      exists w, In w (known feed ids) /\
                Seller.price_conversion (Seller.Tsena w) = Raise e
  end.
Proof.
  unfold Seller.create_prices.
  pose proof (seller_prices_loop feed []) as H.
  destruct (for_each feed _ _) as [[[]|e] prices]; [|exact H].
  now destruct H as (new & -> & Hnew).
Qed.

Lemma market_prices_loop feed : forall acc,
  match for_each feed (Market.create_prices_body ids) acc with
  | (Ok _, prices) =>
      exists new, prices = acc ++ new /\ Forall2 market_priced new (known feed ids)
  | (Raise e, _) =>
      exists w, In w (known feed ids) /\
                (Seller.price_conversion (Seller.Tsena w) = Raise e \/
                 exists s, Seller.price_conversion (Seller.Tsena w) = Ok s /\
                           int (PStr s) = Raise e)
  end.
Proof.
  induction feed as [|w rest IH]; intros acc; simpl.
  - exists []. now rewrite app_nil_r.
  - unfold bind at 1. unfold Market.create_prices_body at 1. fold (code w).
    destruct (contains (code w) ids) eqn:Hc; [|apply IH].
    unfold bind at 1, lift at 1.
    destruct (Seller.price_conversion (Seller.Tsena w)) as [s|e] eqn:Hs.
    + unfold bind at 1, lift at 1.
      destruct (int (PStr s)) as [v|e] eqn:Hv.
      * unfold bind, get, put at 1.
        match goal with |- context [for_each rest _ ?a] => specialize (IH a) end.
        destruct (for_each rest _ _) as [[[]|e] prices].
        -- destruct IH as (new & -> & Hnew).
           eexists (_ :: new). rewrite <- app_assoc. split; [reflexivity|].
           constructor; [now exists s, v | exact Hnew].
        -- destruct IH as (w' & Hin & Hw'). exists w'. split; [now right | exact Hw'].
      * exists w. split; [now left|]. right. now exists s.
    + exists w. split; [now left | now left].
Qed.

Lemma market_create_prices_spec feed :
  match Market.create_prices feed ids with
  | Ok prices => Forall2 market_priced prices (known feed ids)
  | Raise e =>
      exists w, In w (known feed ids) /\
                (Seller.price_conversion (Seller.Tsena w) = Raise e \/
                 exists s, Seller.price_conversion (Seller.Tsena w) = Ok s /\
                           int (PStr s) = Raise e)
  end.
Proof.
  unfold Market.create_prices.
  pose proof (market_prices_loop feed []) as H.
  destruct (for_each feed _ _) as [[[]|e] prices]; [|exact H].
  now destruct H as (new & -> & Hnew).
Qed.

Lemma known_In feed w :
  In w (known feed ids) <-> In w feed /\ In (code w) ids.
Proof. unfold known. now rewrite filter_In, contains_In. Qed.

Lemma seller_price_ids prices ws :
  Forall2 seller_priced prices ws ->
  map Seller.price_offer_id prices = map code ws.
Proof.
  induction 1 as [|p w prices ws (s & _ & ->) _ IH]; simpl; [reflexivity|].
  now rewrite IH.
Qed.

Lemma market_price_ids prices ws :
  Forall2 market_priced prices ws -> map Market.id prices = map code ws.
Proof.
  induction 1 as [|p w prices ws (s & v & _ & _ & ->) _ IH]; simpl; [reflexivity|].
  now rewrite IH.
Qed.

Lemma known_codes feed id :
  In id (map code (known feed ids)) -> In id (map code feed) /\ In id ids.
Proof.
  rewrite !in_map_iff. intros (w & <- & Hw). apply known_In in Hw.
  destruct Hw as [Hf Hi]. split; [now exists w | exact Hi].
Qed.

End Prices.

Lemma stock_ids_cover feed ids stocks ids' id :
  Seller.create_stocks feed ids = (Py.Ok stocks, ids') ->
  In id ids -> In id (map Seller.offer_id stocks).
Proof.
  intros H Hin. rewrite (seller_stock_ids _ _ _ _ H).
  eapply Permutation_in; [symmetry; apply matched_remaining_perm | exact Hin].
Qed.

(** C6.  Called on the same supplier feed and the same list of known
    identifiers, [create_prices] emits records only for identifiers that
    are both the code of a supplier record and a known identifier (one
    record for each supplier record with a known code, in the order of
    the feed), and each of these identifiers is the identifier of a
    record of the list [create_stocks] returns; in [seller.py] and in
    [market.py].  The same holds when [create_prices] is called, as in
    [main], on the list object [create_stocks] has worked on. *)
Theorem price_ids_among_stock_ids :
  forall (feed : list Seller.watch) (ids : list string),
    (forall prices,
        Seller.create_prices feed ids = Py.Ok prices ->
        map Seller.price_offer_id prices = map Spec.code (Spec.known feed ids) /\
        (forall id, In id (map Seller.price_offer_id prices) ->
                    In id (map Spec.code feed) /\ In id ids) /\
        (forall stocks ids',
            Seller.create_stocks feed ids = (Py.Ok stocks, ids') ->
            incl (map Seller.price_offer_id prices) (map Seller.offer_id stocks))) /\
    (forall prices,
        Market.create_prices feed ids = Py.Ok prices ->
        map Market.id prices = map Spec.code (Spec.known feed ids) /\
        (forall id, In id (map Market.id prices) ->
                    In id (map Spec.code feed) /\ In id ids) /\
        (forall warehouse_id date stocks ids',
            Market.create_stocks warehouse_id date feed ids = (Py.Ok stocks, ids') ->
            incl (map Market.id prices) (map Market.sku stocks))) /\
    (forall stocks ids' prices,
        Seller.create_stocks feed ids = (Py.Ok stocks, ids') ->
        Seller.create_prices feed ids' = Py.Ok prices ->
        incl (map Seller.price_offer_id prices) (map Seller.offer_id stocks) /\
        (forall id, In id (map Seller.price_offer_id prices) ->
                    In id (map Spec.code feed) /\ In id ids)).
Proof.
  intros feed ids. split; [|split]; [| |
    intros stocks ids' prices Hst Hpr;
    pose proof (seller_create_prices_spec ids' feed) as Hs;
    rewrite Hpr in Hs; apply seller_price_ids in Hs; rewrite Hs;
    pose proof (seller_create_stocks_spec feed ids) as Hc;
    rewrite Hst in Hc; destruct Hc as (Hrem & new & -> & _);
    split;
    [ intros id Hid; apply known_codes in Hid;
      rewrite map_app, map_zero_stock_ids; apply in_or_app; now right
    | intros id Hid; apply known_codes in Hid; destruct Hid as [Hf Hi];
      split; [exact Hf|]; subst ids';
      eapply Permutation_in; [apply matched_remaining_perm|];
      apply in_or_app; right; exact Hi ] ].
  - intros prices H. pose proof (seller_create_prices_spec ids feed) as Hs.
    rewrite H in Hs. apply seller_price_ids in Hs. rewrite Hs.
    split; [reflexivity|]. split.
    + intros id. apply known_codes.
    + intros stocks ids' Hst id Hid.
      eapply stock_ids_cover; [exact Hst|]. now apply known_codes in Hid.
  - intros prices H. pose proof (market_create_prices_spec ids feed) as Hs.
    rewrite H in Hs. apply market_price_ids in Hs. rewrite Hs.
    split; [reflexivity|]. split.
    + intros id. apply known_codes.
    + intros wh date stocks ids' Hst id Hid.
      destruct (market_of_seller _ _ _ _ _ _ Hst) as (stocks0 & H0 & ->).
      rewrite to_market_sku.
      eapply stock_ids_cover; [exact H0|]. now apply known_codes in Hid.
Qed.

Lemma price_ids_among_stock_ids_witness :
  incl (map Seller.price_offer_id Scenario.prices)
       (map Seller.offer_id Scenario.stocks) /\
  incl (map Market.id
          [{| Market.id := "A";
              Market.price := {| Market.value := 100; Market.currencyId := "RUR" |} |};
           {| Market.id := "B";
              Market.price := {| Market.value := 50; Market.currencyId := "RUR" |} |}])
       (map Market.sku
          [Market.stock_entry "W" "T" "A" 5; Market.stock_entry "W" "T" "B" 0;
           Market.stock_entry "W" "T" "C" 0]).
Proof.
  destruct (price_ids_among_stock_ids Scenario.feed Scenario.known_ids)
    as (Hs & Hm & _).
  split.
  - destruct (Hs Scenario.prices eq_refl) as (_ & _ & H).
    exact (H Scenario.stocks ["C"] eq_refl).
  - destruct (Hm _ eq_refl) as (_ & _ & H).
    exact (H "W" "T" _ ["C"] eq_refl).
Defined.

(* ================================================================== *)
(** * Price conversion *)

Section Conversion.
Import Py Spec.

Lemma split_period_head s : index0 (split_period s) = Ok (before_period s).
Proof.
  induction s as [|c s IH]; simpl; [reflexivity|].
  destruct (Ascii.eqb c "."); [reflexivity|].
  destruct (split_period s) as [|h t]; [discriminate|].
  simpl in *. congruence.
Qed.

Lemma sub_non_digits_filter s : sub_non_digits s = digits_only s.
Proof.
  unfold digits_only. induction s as [|c s IH]; simpl; [reflexivity|].
  destruct (is_digit c); simpl; now rewrite IH.
Qed.

Lemma before_period_no_period s c :
  In c (list_ascii_of_string (before_period s)) -> c <> "."%char.
Proof.
  induction s as [|d s IH]; simpl; [tauto|].
  destruct (Ascii.eqb_spec d "."); simpl; [tauto|].
  intros [<-|H]; [assumption | now apply IH].
Qed.

Lemma before_period_prefix s :
  s = before_period s \/ exists rest, s = (before_period s ++ String "." rest)%string.
Proof.
  induction s as [|d s IH]; simpl; [now left|].
  destruct (Ascii.eqb_spec d ".") as [->|Hd]; simpl.
  - right. now exists s.
  - destruct IH as [IH|[rest IH]]; [left | right; exists rest]; congruence.
Qed.

Lemma price_conversion_text s :
  Seller.price_conversion (PStr s) = Ok (digits_only (before_period s)).
Proof.
  unfold Seller.price_conversion.
  now rewrite split_period_head, sub_non_digits_filter.
Qed.

Lemma digits_only_empty s :
  (forall c, In c (list_ascii_of_string s) -> is_digit c = false) ->
  digits_only s = "".
Proof.
  unfold digits_only. induction s as [|c s IH]; simpl; [reflexivity|].
  intros H. rewrite (H c) by now left. apply IH. intros d Hd. apply H. now right.
Qed.

Lemma int_of_text_raises s e : int (PStr s) = Raise e -> e = ValueError.
Proof.
  simpl. unfold int_of_string.
  match goal with |- match ?x with _ => _ end = _ -> _ => destruct x end; congruence.
Qed.

End Conversion.

(** C4.  For every text [price], [price_conversion] returns the text
    before the first period of [price] (all of it when there is no
    period) with every character that is not a decimal digit taken out;
    it turns "5'990.00 руб." into "5990" and "Цена: отсутствует" into
    the empty text. *)
Theorem price_conversion_digits_before_period :
  (forall price : string,
      Seller.price_conversion (Py.PStr price)
      = Py.Ok (Spec.digits_only (Spec.before_period price)) /\
      (forall c, In c (list_ascii_of_string (Spec.before_period price)) ->
                 c <> "."%char) /\
      (price = Spec.before_period price \/
       exists rest, price = (Spec.before_period price ++ String "." rest)%string)) /\
  Seller.price_conversion (Py.PStr "5'990.00 руб.") = Py.Ok "5990" /\
  Seller.price_conversion (Py.PStr "Цена: отсутствует") = Py.Ok "".
Proof.
  split; [|split; reflexivity].
  intros price. split; [apply price_conversion_text|]. split.
  - intros c. apply before_period_no_period.
  - apply before_period_prefix.
Qed.

Section EmptyPrice.
Import Py Spec.

Lemma Forall2_In_r {A B} (R : A -> B -> Prop) l1 l2 y :
  Forall2 R l1 l2 -> In y l2 -> exists x, In x l1 /\ R x y.
Proof.
  induction 1 as [|a b l1 l2 Hab _ IH]; simpl; [tauto|].
  intros [<-|Hy].
  - exists a. split; [now left | exact Hab].
  - destruct (IH Hy) as (x & Hx & Hxy). exists x. split; [now right | exact Hxy].
Qed.

Lemma empty_conversion w s :
  Seller.Tsena w = PStr s ->
  (forall c, In c (list_ascii_of_string (before_period s)) -> is_digit c = false) ->
  Seller.price_conversion (Seller.Tsena w) = Ok "".
Proof.
  intros -> H. now rewrite price_conversion_text, (digits_only_empty _ H).
Qed.

Lemma market_raises_on_empty feed ids w :
  In w feed -> In (code w) ids ->
  Seller.price_conversion (Seller.Tsena w) = Ok "" ->
  exists e, Market.create_prices feed ids = Raise e.
Proof.
  intros Hw Hid Hconv. pose proof (market_create_prices_spec ids feed) as Hs.
  destruct (Market.create_prices feed ids) as [prices|e]; [|now exists e].
  destruct (Forall2_In_r _ _ _ w Hs) as (p & _ & s & v & Hc & Hv & _).
  - apply known_In. now split.
  - rewrite Hconv in Hc. inversion Hc; subst. discriminate.
Qed.

Lemma market_raises_ValueError feed ids w :
  In w feed -> In (code w) ids ->
  Seller.price_conversion (Seller.Tsena w) = Ok "" ->
  (forall v, In v feed -> In (code v) ids -> exists t, Seller.Tsena v = PStr t) ->
  Market.create_prices feed ids = Raise ValueError.
Proof.
  intros Hw Hid Hconv Htext.
  destruct (market_raises_on_empty _ _ _ Hw Hid Hconv) as [e He].
  pose proof (market_create_prices_spec ids feed) as Hs. rewrite He in Hs.
  destruct Hs as (v & Hv & [Hc|(s & _ & Hi)]).
  - apply known_In in Hv. destruct Hv as [Hf Hi].
    destruct (Htext v Hf Hi) as [t Ht]. rewrite Ht, price_conversion_text in Hc.
    discriminate.
  - apply int_of_text_raises in Hi. now subst.
Qed.

Lemma seller_emits_empty feed ids w :
  In w feed -> In (code w) ids ->
  Seller.price_conversion (Seller.Tsena w) = Ok "" ->
  (forall v, In v feed -> In (code v) ids -> exists t, Seller.Tsena v = PStr t) ->
  exists prices, Seller.create_prices feed ids = Ok prices /\
                 Forall2 seller_priced prices (known feed ids) /\
                 In (seller_price (code w) "") prices.
Proof.
  intros Hw Hid Hconv Htext.
  pose proof (seller_create_prices_spec ids feed) as Hs.
  destruct (Seller.create_prices feed ids) as [prices|e].
  - exists prices. split; [reflexivity|]. split; [exact Hs|].
    destruct (Forall2_In_r _ _ _ w Hs) as (p & Hp & s & Hc & ->).
    + apply known_In. now split.
    + rewrite Hconv in Hc. inversion Hc; subst. exact Hp.
  - destruct Hs as (v & Hv & Hc). apply known_In in Hv. destruct Hv as [Hf Hi].
    destruct (Htext v Hf Hi) as [t Ht]. rewrite Ht, price_conversion_text in Hc.
    discriminate.
Qed.

End EmptyPrice.

(** C10.  Take a supplier record with a known code whose price is a
    text with no decimal digit before its first period.
    [market.create_prices] raises: on the record alone it raises
    [ValueError], from [int] applied to the empty text, and on any feed
    holding the record it raises, with [ValueError] when the prices of
    the records with a known code are all text.  [seller.create_prices]
    on the record alone returns the one price record, whose price is the
    empty text, and on such a feed returns a list holding that record. *)
Theorem empty_price_raises_in_market_only :
  forall (feed : list Seller.watch) (ids : list string) (w : Seller.watch)
         (s : string),
    In w feed ->
    In (Spec.code w) ids ->
    Seller.Tsena w = Py.PStr s ->
    (forall c, In c (list_ascii_of_string (Spec.before_period s)) ->
               Py.is_digit c = false) ->
    Seller.price_conversion (Seller.Tsena w) = Py.Ok "" /\
    Py.int (Py.PStr "") = Py.Raise Py.ValueError /\
    Market.create_prices [w] ids = Py.Raise Py.ValueError /\
    Seller.create_prices [w] ids = Py.Ok [Spec.seller_price (Spec.code w) ""] /\
    (exists e, Market.create_prices feed ids = Py.Raise e) /\
    ((forall v, In v feed -> In (Spec.code v) ids ->
                exists t, Seller.Tsena v = Py.PStr t) ->
     Market.create_prices feed ids = Py.Raise Py.ValueError /\
     exists prices, Seller.create_prices feed ids = Py.Ok prices /\
                    In (Spec.seller_price (Spec.code w) "") prices).
Proof.
  intros feed ids w s Hw Hid Hs Hnd.
  pose proof (empty_conversion _ _ Hs Hnd) as Hconv.
  assert (Hone : forall v, In v [w] -> In (Spec.code v) ids ->
                           exists t, Seller.Tsena v = Py.PStr t).
  { intros v [<-|[]] _. now exists s. }
  split; [exact Hconv|]. split; [reflexivity|]. split; [|split; [|split]].
  - apply (market_raises_ValueError [w] ids w); simpl; auto.
  - destruct (seller_emits_empty [w] ids w) as (prices & Hp & Hall & _); simpl; auto.
    rewrite Hp. f_equal. unfold Spec.known in Hall. simpl in Hall.
    apply contains_In in Hid. rewrite Hid in Hall.
    inversion Hall as [|p v ps vs (t & Hc & ->) Hrest]; subst.
    inversion Hrest; subst. rewrite Hconv in Hc. now inversion Hc.
  - now apply (market_raises_on_empty feed ids w).
  - intros Htext. split.
    + now apply (market_raises_ValueError feed ids w).
    + destruct (seller_emits_empty feed ids w Hw Hid Hconv Htext)
        as (prices & Hp & _ & Hin).
      now exists prices.
Qed.

Lemma empty_price_raises_in_market_only_witness :
  Market.create_prices [Scenario.row "A" "5" "Цена: отсутствует"] ["A"]
  = Py.Raise Py.ValueError /\
  Seller.create_prices [Scenario.row "A" "5" "Цена: отсутствует"] ["A"]
  = Py.Ok [Spec.seller_price "A" ""].
Proof.
  assert (Hnd : forall c,
             In c (list_ascii_of_string (Spec.before_period "Цена: отсутствует")) ->
             Py.is_digit c = false).
  { simpl. intros c H.
    repeat (destruct H as [<-|H]; [reflexivity|]). destruct H. }
  destruct (empty_price_raises_in_market_only
              [Scenario.row "A" "5" "Цена: отсутствует"] ["A"]
              (Scenario.row "A" "5" "Цена: отсутствует") "Цена: отсутствует"
              (or_introl eq_refl) (or_introl eq_refl) eq_refl Hnd)
    as (_ & _ & Hm & Hs & _).
  split; [exact Hm | exact Hs].
Defined.

(* ================================================================== *)
(** * Coercion of the quantity *)

Section Quantity.
Import Py Spec.











End Quantity.




(* ================================================================== *)
(** * Splitting into chunks *)

Section Chunks.
Import Py.
Context {A : Type}.

Lemma firstn_then_firstn (l : list A) : forall a b,
  firstn a l ++ firstn b (skipn a l) = firstn (a + b) l.
Proof.
  induction l as [|x l IH]; intros a b.
  - now rewrite skipn_nil, !firstn_nil.
  - destruct a as [|a]; simpl; [reflexivity|]. now rewrite IH.
Qed.

Lemma nth_map_seq (f : nat -> list A) m i :
  (i < m)%nat -> nth i (map f (seq 0 m)) [] = f i.
Proof.
  intros H.
  rewrite (nth_indep _ [] (f O)) by now rewrite length_map, length_seq.
  rewrite map_nth. now rewrite seq_nth.
Qed.


Lemma count_bounds len N :
  (1 <= N)%nat ->
  (len <= Spec.chunk_count len N * N)%nat /\
  (1 <= len -> 1 <= Spec.chunk_count len N /\ (Spec.chunk_count len N - 1) * N < len)%nat /\
  (len = 0 -> Spec.chunk_count len N = 0)%nat.
Proof.
  intros HN. unfold Spec.chunk_count.
  pose proof (Nat.div_mod_eq (len + N - 1) N) as Hdm.
  pose proof (Nat.mod_upper_bound (len + N - 1) N) as Hub.
  set (q := ((len + N - 1) / N)%nat) in *.
  set (r := ((len + N - 1) mod N)%nat) in *.
  assert (Hr : (r < N)%nat) by (apply Hub; lia).
  repeat split; nia.
Qed.

Lemma divide_eq (lst : list A) (n : Z) :
  1 <= n ->
  Seller.divide lst n
  = Ok (map (Spec.chunk lst (Z.to_nat n)) (seq 0 (Spec.chunk_count (List.length lst) (Z.to_nat n)))).
Proof.
  intros Hn. unfold Seller.divide, range.
  destruct (Z.eqb_spec n 0); [lia|].
  destruct (Z.ltb_spec 0 n); [|lia].
  rewrite map_map.
  replace (Z.to_nat ((Z.of_nat (List.length lst) - 0 + n - 1) / n))
    with (Spec.chunk_count (List.length lst) (Z.to_nat n)).
  - f_equal. apply map_ext. intros k. unfold slice, Spec.chunk.
    f_equal; [f_equal; lia | f_equal; nia].
  - unfold Spec.chunk_count.
    replace (Z.of_nat (List.length lst) - 0 + n - 1)
      with (Z.of_nat (List.length lst + Z.to_nat n - 1)) by lia.
    remember (Z.to_nat n) as N eqn:HN.
    assert (Hn' : n = Z.of_nat N) by lia. clear HN. subst n.
    now rewrite <- Nat2Z.inj_div, Nat2Z.id.
Qed.

Lemma concat_chunks (lst : list A) N m :
  List.concat (map (Spec.chunk lst N) (seq 0 m)) = firstn (m * N) lst.
Proof.
  induction m as [|m IH]; [reflexivity|].
  rewrite seq_S, map_app, concat_app, IH. simpl. rewrite app_nil_r.
  unfold Spec.chunk. rewrite firstn_then_firstn. f_equal. lia.
Qed.

Lemma chunk_length (lst : list A) N k :
  List.length (Spec.chunk lst N k) = Nat.min N (List.length lst - k * N).
Proof. unfold Spec.chunk. now rewrite length_firstn, length_skipn. Qed.

Lemma divide_spec (lst : list A) (n : Z) :
  1 <= n ->
  exists chunks,
    Seller.divide lst n = Ok chunks /\
    List.concat chunks = lst /\
    (forall i, (i < List.length chunks)%nat ->
       nth i chunks [] = firstn (Z.to_nat n) (skipn (i * Z.to_nat n) lst) /\
       1 <= Z.of_nat (List.length (nth i chunks [])) <= n /\
       ((S i < List.length chunks)%nat ->
        Z.of_nat (List.length (nth i chunks [])) = n)).
Proof.
  intros Hn. eexists. split; [now apply divide_eq|].
  set (N := Z.to_nat n). set (len := List.length lst).
  assert (HN : (1 <= N)%nat) by lia.
  destruct (count_bounds len N HN) as (Hup & Hlow & Hzero).
  split.
  - rewrite concat_chunks. apply firstn_all2. exact Hup.
  - rewrite length_map, length_seq. intros i Hi.
    rewrite nth_map_seq by exact Hi.
    split; [reflexivity|]. rewrite chunk_length. fold len.
    assert (Hlen : (1 <= len)%nat) by (destruct len; [rewrite Hzero in Hi|]; lia).
    destruct (Hlow Hlen) as [Hc Hlast].
    assert (Hi' : (i * N <= (Spec.chunk_count len N - 1) * N)%nat) by nia.
    split; [lia|]. intros Hnext.
    assert ((S i) * N <= (Spec.chunk_count len N - 1) * N)%nat by nia.
    lia.
Qed.

Lemma divide_nil (n : Z) : n <> 0 -> Seller.divide (@nil A) n = Ok [].
Proof.
  intros Hn. unfold Seller.divide, range.
  destruct (Z.eqb_spec n 0); [contradiction|].
  change (Z.of_nat (List.length (@nil A))) with 0.
  destruct (Z.ltb_spec 0 n); rewrite Z.div_small by lia; reflexivity.
Qed.

End Chunks.

(** C5.  For every list and every chunk size [n >= 1], [divide] yields
    sublists whose concatenation, in their order, is the list: the one
    of rank [i] is made of the [n] elements from position [i * n] on, as
    far as the list goes; every chunk has at least one and at most [n]
    elements, and every chunk but the last has [n].
    [divide([1,2,3,4,5], 2)] yields [[1,2],[3,4],[5]] and the empty list
    yields no chunk. *)
Theorem divide_consecutive_chunks :
  (forall (A : Type) (lst : list A) (n : Z),
      1 <= n ->
      exists chunks,
        Seller.divide lst n = Py.Ok chunks /\
        List.concat chunks = lst /\
        (forall i, (i < List.length chunks)%nat ->
           nth i chunks [] = firstn (Z.to_nat n) (skipn (i * Z.to_nat n) lst) /\
           1 <= Z.of_nat (List.length (nth i chunks [])) <= n /\
           ((S i < List.length chunks)%nat ->
            Z.of_nat (List.length (nth i chunks [])) = n))) /\
  Seller.divide [1; 2; 3; 4; 5] 2 = Py.Ok [[1; 2]; [3; 4]; [5]] /\
  (forall (A : Type) (n : Z), n <> 0 -> Seller.divide (@nil A) n = Py.Ok []).
Proof.
  split; [|split].
  - intros A lst n. apply divide_spec.
  - reflexivity.
  - intros A n. apply divide_nil.
Qed.

Lemma divide_consecutive_chunks_witness :
  exists chunks,
    Seller.divide [1; 2; 3; 4; 5; 6; 7] 3 = Py.Ok chunks /\
    List.concat chunks = [1; 2; 3; 4; 5; 6; 7].
Proof.
  destruct divide_consecutive_chunks as (H & _ & _).
  destruct (H Z [1; 2; 3; 4; 5; 6; 7] 3 ltac:(lia)) as (chunks & Hd & Hc & _).
  exists chunks. split; [exact Hd | exact Hc].
Defined.

(* ================================================================== *)
(** * Reading the catalogue *)

Section SellerCatalogue.
Import Py Spec.
Variable E : Seller.env.
Variable pages : nat -> Seller.page.

Lemma seller_before_S j :
  seller_before pages (S j) = seller_before pages j ++ Seller.items (pages j).
Proof.
  unfold seller_before. rewrite seq_S, flat_map_app. simpl. now rewrite app_nil_r.
Qed.

Lemma sent_app kind tr ev :
  Seller.sent kind (tr ++ [ev])
  = (Seller.sent kind tr + if kind ev then 1 else 0)%nat.
Proof.
  unfold Seller.sent. rewrite filter_app, length_app. simpl.
  now destruct (kind ev).
Qed.

Lemma seller_loop_stops d : forall j cursor tr fuel,
  Seller.sent Seller.is_ListProducts tr = j ->
  (forall i, (i <= d)%nat -> Seller.listing E (j + i) = Ok (pages (j + i))) ->
  seller_stops pages (j + d) ->
  (forall i, (i < d)%nat -> ~ seller_stops pages (j + i)) ->
  (d < fuel)%nat ->
  Seller.get_offer_ids_loop E fuel cursor (seller_before pages j) tr
  = Some (Ok (seller_before pages (S (j + d))),
          tr ++ seller_requests pages cursor j d).
Proof.
  induction d as [|d IH]; intros j cursor tr fuel Hj Hl Hstop Hnot Hfuel;
    (destruct fuel as [|fuel]; [lia|]); simpl;
    unfold Seller.get_product_list; rewrite Hj;
    specialize (Hl O ltac:(lia)) as Hl0; rewrite Nat.add_0_r in Hl0; rewrite Hl0;
    rewrite <- seller_before_S.
  - rewrite Nat.add_0_r in *. unfold seller_stops in Hstop. rewrite Hstop.
    now rewrite Z.eqb_refl.
  - destruct (Z.eqb_spec (Seller.total (pages j))
                (Z.of_nat (List.length (seller_before pages (S j))))) as [Heq|_].
    + exfalso. apply (Hnot O ltac:(lia)). now rewrite Nat.add_0_r.
    + rewrite (IH (S j)).
      * replace (S j + d)%nat with (j + S d)%nat by lia.
        unfold seller_requests. rewrite <- app_assoc. reflexivity.
      * rewrite sent_app. simpl. lia.
      * intros i Hi. replace (S j + i)%nat with (j + S i)%nat by lia.
        apply Hl. lia.
      * now replace (S j + d)%nat with (j + S d)%nat by lia.
      * intros i Hi. replace (S j + i)%nat with (j + S i)%nat by lia.
        apply Hnot. lia.
      * lia.
Qed.

Lemma seller_loop_runs_on fuel : forall j cursor tr,
  Seller.sent Seller.is_ListProducts tr = j ->
  (forall i, Seller.listing E (j + i) = Ok (pages (j + i))) ->
  (forall i, ~ seller_stops pages (j + i)) ->
  Seller.get_offer_ids_loop E fuel cursor (seller_before pages j) tr = None.
Proof.
  induction fuel as [|fuel IH]; intros j cursor tr Hj Hl Hnot; simpl; [reflexivity|].
  unfold Seller.get_product_list. rewrite Hj.
  specialize (Hl O) as Hl0. rewrite Nat.add_0_r in Hl0. rewrite Hl0.
  rewrite <- seller_before_S.
  destruct (Z.eqb_spec (Seller.total (pages j))
              (Z.of_nat (List.length (seller_before pages (S j))))) as [Heq|_].
  - exfalso. apply (Hnot O). now rewrite Nat.add_0_r.
  - apply (IH (S j)).
    + rewrite sent_app. simpl. lia.
    + intros i. replace (S j + i)%nat with (j + S i)%nat by lia. apply Hl.
    + intros i. replace (S j + i)%nat with (j + S i)%nat by lia. apply Hnot.
Qed.

End SellerCatalogue.

Section MarketCatalogue.
Import Py Spec.
Variable listing : nat -> result Market.page.
Variable pages : nat -> Market.page.

Lemma market_before_S j :
  market_before pages (S j)
  = market_before pages j ++ Market.offerMappingEntries (pages j).
Proof.
  unfold market_before. rewrite seq_S, flat_map_app. simpl. now rewrite app_nil_r.
Qed.

Lemma market_loop_stops d : forall j token tr fuel,
  List.length tr = j ->
  (forall i, (i <= d)%nat -> listing (j + i) = Ok (pages (j + i))) ->
  market_stops pages (j + d) ->
  (forall i, (i < d)%nat -> ~ market_stops pages (j + i)) ->
  (d < fuel)%nat ->
  Market.get_offer_ids_loop listing fuel token (market_before pages j) tr
  = Some (Ok (market_before pages (S (j + d))),
          tr ++ market_requests pages token j d).
Proof.
  induction d as [|d IH]; intros j token tr fuel Hj Hl Hstop Hnot Hfuel;
    (destruct fuel as [|fuel]; [lia|]); simpl;
    unfold Market.get_product_list; rewrite Hj;
    specialize (Hl O ltac:(lia)) as Hl0; rewrite Nat.add_0_r in Hl0; rewrite Hl0;
    rewrite <- market_before_S.
  - rewrite Nat.add_0_r in *. unfold market_stops in Hstop. now rewrite Hstop.
  - destruct (Market.truthy (Market.nextPageToken (pages j))) eqn:Ht; simpl.
    + rewrite (IH (S j)).
      * replace (S j + d)%nat with (j + S d)%nat by lia.
        unfold market_requests. rewrite <- app_assoc. reflexivity.
      * rewrite length_app. simpl. lia.
      * intros i Hi. replace (S j + i)%nat with (j + S i)%nat by lia.
        apply Hl. lia.
      * now replace (S j + d)%nat with (j + S d)%nat by lia.
      * intros i Hi. replace (S j + i)%nat with (j + S i)%nat by lia.
        apply Hnot. lia.
      * lia.
    + exfalso. apply (Hnot O ltac:(lia)). now rewrite Nat.add_0_r.
Qed.

Lemma market_loop_runs_on fuel : forall j token tr,
  List.length tr = j ->
  (forall i, listing (j + i) = Ok (pages (j + i))) ->
  (forall i, ~ market_stops pages (j + i)) ->
  Market.get_offer_ids_loop listing fuel token (market_before pages j) tr = None.
Proof.
  induction fuel as [|fuel IH]; intros j token tr Hj Hl Hnot; simpl; [reflexivity|].
  unfold Market.get_product_list. rewrite Hj.
  specialize (Hl O) as Hl0. rewrite Nat.add_0_r in Hl0. rewrite Hl0.
  rewrite <- market_before_S.
  destruct (Market.truthy (Market.nextPageToken (pages j))) eqn:Ht; simpl.
  - apply (IH (S j)).
    + rewrite length_app. simpl. lia.
    + intros i. replace (S j + i)%nat with (j + S i)%nat by lia. apply Hl.
    + intros i. replace (S j + i)%nat with (j + S i)%nat by lia. apply Hnot.
  - exfalso. apply (Hnot O). now rewrite Nat.add_0_r.
Qed.

End MarketCatalogue.

(** C9.  Let the listing requests be answered by the pages [pages 0],
    [pages 1], ...  [get_offer_ids] of [seller.py] stops with the first
    page whose [total] equals the number of products gathered so far,
    that page included, and [get_offer_ids] of [market.py] with the
    first page whose [nextPageToken] is empty: having sent one request
    per page up to that one, each carrying the cursor of the page before,
    they return the identifiers of the products of these pages, in page
    order.  When no page meets the condition, the loop is still running
    after any number of iterations. *)
Theorem get_offer_ids_reads_all_pages :
  (forall (E : Seller.env) (pages : nat -> Seller.page) (k fuel : nat),
      (forall i, (i <= k)%nat -> Seller.listing E i = Py.Ok (pages i)) ->
      Spec.seller_stops pages k ->
      (forall i, (i < k)%nat -> ~ Spec.seller_stops pages i) ->
      (k < fuel)%nat ->
      Seller.get_offer_ids E fuel []
      = Some (Py.Ok (map Seller.product_offer_id (Spec.seller_before pages (S k))),
              Spec.seller_requests pages "" 0 k)) /\
  (forall (E : Seller.env) (pages : nat -> Seller.page),
      (forall i, Seller.listing E i = Py.Ok (pages i)) ->
      (forall i, ~ Spec.seller_stops pages i) ->
      forall fuel, Seller.get_offer_ids E fuel [] = None) /\
  (forall (listing : nat -> Py.result Market.page) (pages : nat -> Market.page)
          (k fuel : nat),
      (forall i, (i <= k)%nat -> listing i = Py.Ok (pages i)) ->
      Spec.market_stops pages k ->
      (forall i, (i < k)%nat -> ~ Spec.market_stops pages i) ->
      (k < fuel)%nat ->
      Market.get_offer_ids listing fuel []
      = Some (Py.Ok (map Market.shopSku (Spec.market_before pages (S k))),
              Spec.market_requests pages (Py.PStr "") 0 k)) /\
  (forall (listing : nat -> Py.result Market.page) (pages : nat -> Market.page),
      (forall i, listing i = Py.Ok (pages i)) ->
      (forall i, ~ Spec.market_stops pages i) ->
      forall fuel, Market.get_offer_ids listing fuel [] = None).
Proof.
  repeat match goal with |- _ /\ _ => split end.
  - intros E pages k fuel Hl Hstop Hnot Hfuel. unfold Seller.get_offer_ids.
    change (@nil Seller.product) with (Spec.seller_before pages 0).
    now rewrite (seller_loop_stops E pages k 0 "" [] fuel).
  - intros E pages Hl Hnot fuel. unfold Seller.get_offer_ids.
    change (@nil Seller.product) with (Spec.seller_before pages 0).
    now rewrite (seller_loop_runs_on E pages fuel 0 "" []).
  - intros listing pages k fuel Hl Hstop Hnot Hfuel. unfold Market.get_offer_ids.
    change (@nil Market.entry) with (Spec.market_before pages 0).
    now rewrite (market_loop_stops listing pages k 0 (Py.PStr "") [] fuel).
  - intros listing pages Hl Hnot fuel. unfold Market.get_offer_ids.
    change (@nil Market.entry) with (Spec.market_before pages 0).
    now rewrite (market_loop_runs_on listing pages fuel 0 (Py.PStr "") []).
Qed.

Lemma seller_pages_stop :
  Spec.seller_stops Scenario.seller_pages 1 /\
  forall i, (i < 1)%nat -> ~ Spec.seller_stops Scenario.seller_pages i.
Proof.
  split; [reflexivity|]. intros i Hi. destruct i; [discriminate | lia].
Defined.

Lemma market_pages_stop :
  Spec.market_stops Scenario.market_pages 1 /\
  forall i, (i < 1)%nat -> ~ Spec.market_stops Scenario.market_pages i.
Proof.
  split; [reflexivity|]. intros i Hi. destruct i; [discriminate | lia].
Defined.

Lemma endless_seller_runs_on i : ~ Spec.seller_stops Scenario.endless_seller i.
Proof.
  unfold Spec.seller_stops, Spec.seller_before.
  assert (H : forall l, flat_map (fun i => Seller.items (Scenario.endless_seller i)) l = [])
    by (induction l; simpl; auto).
  rewrite H. discriminate.
Defined.

Lemma endless_market_runs_on i : ~ Spec.market_stops Scenario.endless_market i.
Proof. discriminate. Defined.

Lemma get_offer_ids_reads_all_pages_witness :
  Seller.get_offer_ids Scenario.calm 2 []
  = Some (Py.Ok ["A"; "B"; "C"], [Seller.ListProducts ""; Seller.ListProducts "p1"]) /\
  Market.get_offer_ids (fun k => Py.Ok (Scenario.market_pages k)) 2 []
  = Some (Py.Ok ["A"; "B"; "C"], [Py.PStr ""; Py.PStr "p1"]) /\
  (forall fuel, Seller.get_offer_ids Scenario.stuck fuel [] = None) /\
  (forall fuel,
      Market.get_offer_ids (fun k => Py.Ok (Scenario.endless_market k)) fuel [] = None).
Proof.
  destruct get_offer_ids_reads_all_pages as (Hs & Hsn & Hm & Hmn).
  split; [|split; [|split]].
  - exact (Hs Scenario.calm Scenario.seller_pages 1%nat 2%nat
             (fun i _ => eq_refl) (proj1 seller_pages_stop)
             (proj2 seller_pages_stop) (le_n 2)).
  - exact (Hm (fun k => Py.Ok (Scenario.market_pages k)) Scenario.market_pages
             1%nat 2%nat (fun i _ => eq_refl) (proj1 market_pages_stop)
             (proj2 market_pages_stop) (le_n 2)).
  - exact (Hsn Scenario.stuck Scenario.endless_seller (fun i => eq_refl)
             endless_seller_runs_on).
  - exact (Hmn (fun k => Py.Ok (Scenario.endless_market k)) Scenario.endless_market
             (fun i => eq_refl) endless_market_runs_on).
Defined.

(* ================================================================== *)
(** * The update loops and [main] *)

Section Calls.
Import Py Spec.
Variables (X : Type) (api : nat -> result unit) (kind : Seller.event -> bool)
          (mk : X -> Seller.event) (act : X -> M Seller.world unit).
Hypothesis Hkind : forall x, kind (mk x) = true.
Hypothesis Hact : forall x tr, act x tr = (api (Seller.sent kind tr), tr ++ [mk x]).

Lemma calls_all_ok chunks : forall tr,
  (forall j, (j < List.length chunks)%nat -> api (Seller.sent kind tr + j) = Ok tt) ->
  for_each chunks act tr = (Ok tt, tr ++ map mk chunks).
Proof.
  induction chunks as [|c chunks IH]; intros tr H; simpl.
  - now rewrite app_nil_r.
  - unfold bind. rewrite Hact.
    specialize (H O ltac:(simpl; lia)) as H0. rewrite Nat.add_0_r in H0. rewrite H0.
    rewrite IH.
    + now rewrite <- app_assoc.
    + intros j Hj. rewrite sent_app, Hkind.
      replace (Seller.sent kind tr + 1 + j)%nat with (Seller.sent kind tr + S j)%nat by lia.
      apply H. simpl. lia.
Qed.

Lemma calls_fail chunks : forall k tr e,
  (k < List.length chunks)%nat ->
  (forall j, (j < k)%nat -> api (Seller.sent kind tr + j) = Ok tt) ->
  api (Seller.sent kind tr + k) = Raise e ->
  for_each chunks act tr = (Raise e, tr ++ map mk (firstn (S k) chunks)).
Proof.
  induction chunks as [|c chunks IH]; intros k tr e Hk Hok Hfail; simpl in Hk; [lia|].
  cbn [for_each]. unfold bind. rewrite Hact.
  destruct k as [|k].
  - rewrite Nat.add_0_r in Hfail. rewrite Hfail. reflexivity.
  - specialize (Hok O ltac:(lia)) as H0. rewrite Nat.add_0_r in H0. rewrite H0.
    rewrite (IH k _ e).
    + rewrite <- app_assoc. reflexivity.
    + lia.
    + intros j Hj. rewrite sent_app, Hkind.
      replace (Seller.sent kind tr + 1 + j)%nat with (Seller.sent kind tr + S j)%nat by lia.
      apply Hok. lia.
    + rewrite sent_app, Hkind.
      now replace (Seller.sent kind tr + 1 + k)%nat with (Seller.sent kind tr + S k)%nat by lia.
Qed.

Lemma calls_trace chunks : forall tr r tr',
  for_each chunks act tr = (r, tr') -> exists n, tr' = tr ++ map mk (firstn n chunks).
Proof.
  induction chunks as [|c chunks IH]; intros tr r tr'; simpl.
  - intros H. inversion H. exists O. now rewrite app_nil_r.
  - unfold bind. rewrite Hact. destruct (api _) as [[]|e].
    + intros H. destruct (IH _ _ _ H) as [n ->]. exists (S n).
      now rewrite <- app_assoc.
    + intros H. inversion H. exists 1%nat. reflexivity.
Qed.

End Calls.

Section Main.
Import Py Spec.
Variable E : Seller.env.

Lemma main_except_eq e tr :
  Seller.main_except e tr = (Ok tt, tr ++ [Seller.Print (report e)]).
Proof. destruct e; reflexivity. Qed.

Lemma listing_trace fuel : forall cursor pl tr r tr',
  Seller.get_offer_ids_loop E fuel cursor pl tr = Some (r, tr') ->
  exists cs, tr' = tr ++ map Seller.ListProducts cs.
Proof.
  induction fuel as [|fuel IH]; intros cursor pl tr r tr'; simpl; [discriminate|].
  unfold Seller.get_product_list.
  destruct (Seller.listing E _) as [some_prod|e].
  - destruct (_ =? _).
    + intros H. inversion H. now exists [cursor].
    + intros H. destruct (IH _ _ _ _ _ H) as [cs ->].
      exists (cursor :: cs). now rewrite <- app_assoc.
  - intros H. inversion H. now exists [cursor].
Qed.

Lemma get_offer_ids_trace fuel r tr' :
  Seller.get_offer_ids E fuel [] = Some (r, tr') ->
  exists cs, tr' = map Seller.ListProducts cs.
Proof.
  unfold Seller.get_offer_ids.
  destruct (Seller.get_offer_ids_loop E fuel "" [] []) as [[[pl|e] tr]|] eqn:Hl;
    [| |discriminate];
    intros H; inversion H; subst;
    destruct (listing_trace _ _ _ _ _ _ Hl) as [cs ->]; now exists cs.
Qed.

Lemma update_stocks_eq chunk tr :
  Seller.update_stocks E chunk tr
  = (Seller.stocks_api E (Seller.sent Seller.is_UpdateStocks tr),
     tr ++ [Seller.UpdateStocks chunk]).
Proof. reflexivity. Qed.

Lemma update_price_eq chunk tr :
  Seller.update_price E chunk tr
  = (Seller.prices_api E (Seller.sent Seller.is_UpdatePrice tr),
     tr ++ [Seller.UpdatePrice chunk]).
Proof. reflexivity. Qed.

Lemma main_try_rest_eq ids tr :
  Seller.main_try_rest E ids tr =
  match Seller.supplier E with
  | Raise e => (Raise e, tr ++ [Seller.DownloadStock])
  | Ok feed =>
      match Seller.create_stocks feed ids with
      | (Raise e, _) => (Raise e, tr ++ [Seller.DownloadStock])
      | (Ok stocks, ids') =>
          match Seller.divide stocks 100 with
          | Raise e => (Raise e, tr ++ [Seller.DownloadStock])
          | Ok chunks =>
              match for_each chunks (Seller.update_stocks E)
                      (tr ++ [Seller.DownloadStock]) with
              | (Raise e, tr2) => (Raise e, tr2)
              | (Ok _, tr2) =>
                  match Seller.create_prices feed ids' with
                  | Raise e => (Raise e, tr2)
                  | Ok prices =>
                      match Seller.divide prices 900 with
                      | Raise e => (Raise e, tr2)
                      | Ok price_chunks =>
                          for_each price_chunks (Seller.update_price E) tr2
                      end
                  end
              end
          end
      end
  end.
Proof.
  unfold Seller.main_try_rest, Seller.download_stock.
  unfold bind at 1. destruct (Seller.supplier E) as [feed|e]; [|reflexivity].
  destruct (Seller.create_stocks feed ids) as [[stocks|e] ids']; [|reflexivity].
  unfold bind at 1, lift at 1. unfold bind at 1, lift at 1.
  destruct (Seller.divide stocks 100) as [chunks|e]; [|reflexivity].
  unfold bind at 1.
  destruct (for_each chunks _ _) as [[[]|e] tr2]; [|reflexivity].
  unfold bind at 1, lift at 1.
  destruct (Seller.create_prices feed ids') as [prices|e]; [|reflexivity].
  unfold bind at 1, lift at 1.
  destruct (Seller.divide prices 900) as [price_chunks|e]; reflexivity.
Qed.

Lemma main_eq fuel ids tr1 :
  Seller.get_offer_ids E fuel [] = Some (Ok ids, tr1) ->
  Seller.main E fuel =
  match Seller.main_try_rest E ids tr1 with
  | (Ok _, tr) => Some (Ok tt, tr)
  | (Raise e, tr) => Some (Ok tt, tr ++ [Seller.Print (report e)])
  end.
Proof.
  intros H. unfold Seller.main, Seller.main_try. rewrite H.
  destruct (Seller.main_try_rest E ids tr1) as [[[]|e] tr]; [reflexivity|].
  now rewrite main_except_eq.
Qed.

Lemma sent_none kind tr :
  Forall (fun ev => kind ev = false) tr -> Seller.sent kind tr = O.
Proof.
  unfold Seller.sent. induction 1 as [|ev tr Hev _ IH]; simpl; [reflexivity|].
  now rewrite Hev.
Qed.

Lemma Forall_map_const {A} (P : Seller.event -> Prop) (f : A -> Seller.event) l :
  (forall x, P (f x)) -> Forall P (map f l).
Proof. intros H. apply Forall_forall. intros ev Hev. apply in_map_iff in Hev.
  destruct Hev as (x & <- & _). apply H. Qed.

Lemma main_try_rest_silent ids tr r tr' :
  silent tr -> Seller.main_try_rest E ids tr = (r, tr') -> silent tr'.
Proof.
  unfold silent. intros Hs. rewrite main_try_rest_eq.
  assert (Hd : Forall (fun ev => Seller.is_Print ev = false) (tr ++ [Seller.DownloadStock]))
    by (apply Forall_app; split; [exact Hs | now constructor]).
  destruct (Seller.supplier E) as [feed|e]; [|intros H; now inversion H; subst].
  destruct (Seller.create_stocks feed ids) as [[stocks|e] ids'];
    [|intros H; now inversion H; subst].
  destruct (Seller.divide stocks 100) as [chunks|e];
    [|intros H; now inversion H; subst].
  destruct (for_each chunks _ _) as [r2 tr2] eqn:H2.
  destruct (calls_trace _ _ _ Seller.UpdateStocks _ update_stocks_eq _ _ _ _ H2)
    as [n ->].
  assert (Hu : Forall (fun ev => Seller.is_Print ev = false)
                 ((tr ++ [Seller.DownloadStock])
                  ++ map Seller.UpdateStocks (firstn n chunks)))
    by (apply Forall_app; split; [exact Hd | now apply Forall_map_const]).
  destruct r2 as [[]|e]; [|intros H; now inversion H; subst].
  destruct (Seller.create_prices feed ids') as [prices|e];
    [|intros H; now inversion H; subst].
  destruct (Seller.divide prices 900) as [price_chunks|e];
    [|intros H; now inversion H; subst].
  intros H3.
  destruct (calls_trace _ _ _ Seller.UpdatePrice _ update_price_eq _ _ _ _ H3)
    as [m ->].
  apply Forall_app; split; [exact Hu | now apply Forall_map_const].
Qed.

Lemma main_try_silent fuel r tr :
  Seller.main_try E fuel [] = Some (r, tr) -> silent tr.
Proof.
  unfold Seller.main_try.
  destruct (Seller.get_offer_ids E fuel []) as [[[ids|e] tr1]|] eqn:Hg;
    [| |discriminate];
    destruct (get_offer_ids_trace _ _ _ Hg) as [cs ->];
    assert (Hs : silent (map Seller.ListProducts cs))
      by (now apply Forall_map_const).
  - intros H. inversion H as [H']. eapply main_try_rest_silent; [exact Hs | exact H'].
  - intros H. now inversion H; subst.
Qed.

End Main.

Section Stages.
Import Py Spec.
Variable E : Seller.env.
Variable cs : list string.


Lemma no_stock_update_yet :
  Seller.sent Seller.is_UpdateStocks (map Seller.ListProducts cs ++ [Seller.DownloadStock]) = O.
Proof.
  apply sent_none, Forall_app. split; [now apply Forall_map_const | now constructor].
Qed.

Lemma no_price_update_yet chunks :
  Seller.sent Seller.is_UpdatePrice
    ((map Seller.ListProducts cs ++ [Seller.DownloadStock]) ++ map Seller.UpdateStocks chunks) = O.
Proof.
  apply sent_none. repeat (apply Forall_app; split);
    [now apply Forall_map_const | now constructor | now apply Forall_map_const].
Qed.

Lemma stock_stage_fails chunks k e :
  (k < List.length chunks)%nat ->
  (forall j, (j < k)%nat -> Seller.stocks_api E j = Ok tt) ->
  Seller.stocks_api E k = Raise e ->
  for_each chunks (Seller.update_stocks E) (map Seller.ListProducts cs ++ [Seller.DownloadStock])
  = (Raise e, (map Seller.ListProducts cs ++ [Seller.DownloadStock])
              ++ map Seller.UpdateStocks (firstn (S k) chunks)).
Proof.
  intros Hk Hok Hfail.
  apply (calls_fail _ (Seller.stocks_api E) Seller.is_UpdateStocks);
    try rewrite no_stock_update_yet; auto using update_stocks_eq.
Qed.

Lemma stock_stage_ok chunks :
  (forall j, (j < List.length chunks)%nat -> Seller.stocks_api E j = Ok tt) ->
  for_each chunks (Seller.update_stocks E) (map Seller.ListProducts cs ++ [Seller.DownloadStock])
  = (Ok tt, (map Seller.ListProducts cs ++ [Seller.DownloadStock]) ++ map Seller.UpdateStocks chunks).
Proof.
  intros Hok.
  apply (calls_all_ok _ (Seller.stocks_api E) Seller.is_UpdateStocks);
    try rewrite no_stock_update_yet; auto using update_stocks_eq.
Qed.

Lemma price_stage_fails chunks price_chunks k e :
  (k < List.length price_chunks)%nat ->
  (forall j, (j < k)%nat -> Seller.prices_api E j = Ok tt) ->
  Seller.prices_api E k = Raise e ->
  for_each price_chunks (Seller.update_price E)
    ((map Seller.ListProducts cs ++ [Seller.DownloadStock]) ++ map Seller.UpdateStocks chunks)
  = (Raise e, ((map Seller.ListProducts cs ++ [Seller.DownloadStock]) ++ map Seller.UpdateStocks chunks)
              ++ map Seller.UpdatePrice (firstn (S k) price_chunks)).
Proof.
  intros Hk Hok Hfail.
  apply (calls_fail _ (Seller.prices_api E) Seller.is_UpdatePrice);
    try rewrite no_price_update_yet; auto using update_price_eq.
Qed.

Lemma price_stage_ok chunks price_chunks :
  (forall j, (j < List.length price_chunks)%nat -> Seller.prices_api E j = Ok tt) ->
  for_each price_chunks (Seller.update_price E)
    ((map Seller.ListProducts cs ++ [Seller.DownloadStock]) ++ map Seller.UpdateStocks chunks)
  = (Ok tt, ((map Seller.ListProducts cs ++ [Seller.DownloadStock]) ++ map Seller.UpdateStocks chunks)
            ++ map Seller.UpdatePrice price_chunks).
Proof.
  intros Hok.
  apply (calls_all_ok _ (Seller.prices_api E) Seller.is_UpdatePrice);
    try rewrite no_price_update_yet; auto using update_price_eq.
Qed.

End Stages.

(** C8.  A run of [main] of [seller.py] comes to an end as soon as the
    catalogue is read or a listing request fails, and never ends with an
    exception: either the block under [try] finished and nothing was
    printed, or it raised, and then the trace of the run is the trace up
    to the raise followed by the one line [main] prints for the
    exception; nothing is printed before, no request follows, none is
    repeated.  Stage by stage: a failed listing request, a failed
    download, a failed coercion in [create_stocks], the failure of the
    stock update of a chunk, a failure in [create_prices] and the failure
    of the price update of a chunk each end the run there; the chunks
    before the failing one were sent once, in order, the failing one
    once, the later ones never. *)
Theorem failure_ends_the_run :
  forall (E : Seller.env) (fuel : nat),
    (forall r1 tr1,
        Seller.get_offer_ids E fuel [] = Some (r1, tr1) ->
        exists tr, Seller.main E fuel = Some (Py.Ok tt, tr)) /\
    (forall r tr,
        Seller.main E fuel = Some (r, tr) ->
        r = Py.Ok tt /\
        ((Seller.main_try E fuel [] = Some (Py.Ok tt, tr) /\ Spec.silent tr) \/
         exists e tr',
           Seller.main_try E fuel [] = Some (Py.Raise e, tr') /\
           Spec.silent tr' /\
           tr = tr' ++ [Seller.Print (Spec.report e)])) /\
    (forall e tr1,
        Seller.get_offer_ids E fuel [] = Some (Py.Raise e, tr1) ->
        Seller.main E fuel = Some (Py.Ok tt, tr1 ++ [Seller.Print (Spec.report e)])) /\
    (forall ids tr1,
        Seller.get_offer_ids E fuel [] = Some (Py.Ok ids, tr1) ->
        (forall e,
            Seller.supplier E = Py.Raise e ->
            Seller.main E fuel
            = Some (Py.Ok tt, (tr1 ++ [Seller.DownloadStock])
                              ++ [Seller.Print (Spec.report e)])) /\
        (forall feed,
            Seller.supplier E = Py.Ok feed ->
            (forall e ids',
                Seller.create_stocks feed ids = (Py.Raise e, ids') ->
                Seller.main E fuel
                = Some (Py.Ok tt, (tr1 ++ [Seller.DownloadStock])
                                  ++ [Seller.Print (Spec.report e)])) /\
            (forall stocks ids' chunks,
                Seller.create_stocks feed ids = (Py.Ok stocks, ids') ->
                Seller.divide stocks 100 = Py.Ok chunks ->
                (forall k e,
                    (k < List.length chunks)%nat ->
                    (forall j, (j < k)%nat -> Seller.stocks_api E j = Py.Ok tt) ->
                    Seller.stocks_api E k = Py.Raise e ->
                    Seller.main E fuel
                    = Some (Py.Ok tt,
                            ((tr1 ++ [Seller.DownloadStock])
                             ++ map Seller.UpdateStocks (firstn (S k) chunks))
                            ++ [Seller.Print (Spec.report e)])) /\
                ((forall j, (j < List.length chunks)%nat ->
                            Seller.stocks_api E j = Py.Ok tt) ->
                 (forall e,
                     Seller.create_prices feed ids' = Py.Raise e ->
                     Seller.main E fuel
                     = Some (Py.Ok tt,
                             ((tr1 ++ [Seller.DownloadStock])
                              ++ map Seller.UpdateStocks chunks)
                             ++ [Seller.Print (Spec.report e)])) /\
                 (forall prices price_chunks,
                     Seller.create_prices feed ids' = Py.Ok prices ->
                     Seller.divide prices 900 = Py.Ok price_chunks ->
                     (forall k e,
                         (k < List.length price_chunks)%nat ->
                         (forall j, (j < k)%nat -> Seller.prices_api E j = Py.Ok tt) ->
                         Seller.prices_api E k = Py.Raise e ->
                         Seller.main E fuel
                         = Some (Py.Ok tt,
                                 (((tr1 ++ [Seller.DownloadStock])
                                   ++ map Seller.UpdateStocks chunks)
                                  ++ map Seller.UpdatePrice (firstn (S k) price_chunks))
                                 ++ [Seller.Print (Spec.report e)])) /\
                     ((forall j, (j < List.length price_chunks)%nat ->
                                 Seller.prices_api E j = Py.Ok tt) ->
                      Seller.main E fuel
                      = Some (Py.Ok tt,
                              ((tr1 ++ [Seller.DownloadStock])
                               ++ map Seller.UpdateStocks chunks)
                              ++ map Seller.UpdatePrice price_chunks))))))).
Proof.
  intros E fuel. split; [|split; [|split]].
  - intros r1 tr1 H. unfold Seller.main, Seller.main_try. rewrite H.
    destruct r1 as [ids|e].
    + destruct (Seller.main_try_rest E ids tr1) as [[[]|e] tr]; [now exists tr|].
      rewrite main_except_eq. now eexists.
    + rewrite main_except_eq. now eexists.
  - intros r tr. unfold Seller.main.
    destruct (Seller.main_try E fuel []) as [[[[]|e] tr']|] eqn:Ht; [| |discriminate].
    + intros H. inversion H; subst. split; [reflexivity|]. left.
      split; [reflexivity|]. eapply main_try_silent, Ht.
    + rewrite main_except_eq. intros H. inversion H; subst.
      split; [reflexivity|]. right. exists e, tr'.
      split; [reflexivity|]. split; [|reflexivity]. eapply main_try_silent, Ht.
  - intros e tr1 H. unfold Seller.main, Seller.main_try. rewrite H.
    now rewrite main_except_eq.
  - intros ids tr1 Hids. rewrite (main_eq _ _ _ _ Hids), main_try_rest_eq.
    destruct (get_offer_ids_trace _ _ _ _ Hids) as [cs ->].
    split; [intros e ->; reflexivity|].
    intros feed ->. split; [intros e ids' ->; reflexivity|].
    intros stocks ids' chunks -> ->. split.
    + intros k e Hk Hok Hfail. now rewrite (stock_stage_fails E cs chunks k e).
    + intros Hok. rewrite (stock_stage_ok E cs chunks Hok).
      split; [intros e ->; reflexivity|].
      intros prices price_chunks -> ->. split.
      * intros k e Hk Hpok Hfail.
        now rewrite (price_stage_fails E cs chunks price_chunks k e).
      * intros Hpok. now rewrite (price_stage_ok E cs chunks price_chunks Hpok).
Qed.

Lemma failure_ends_the_run_witness :
  exists first second,
    Seller.divide (map Spec.zero_stock Scenario.many_ids) 100 = Py.Ok [first; second] /\
    Seller.main Scenario.stormy 1
    = Some (Py.Ok tt,
            [Seller.ListProducts ""; Seller.DownloadStock;
             Seller.UpdateStocks first; Seller.UpdateStocks second;
             Seller.Print [Seller.PrintStr "Превышено время ожидания..."]]).
Proof.
  destruct (failure_ends_the_run Scenario.stormy 1) as (_ & _ & _ & H).
  assert (Hids : Seller.get_offer_ids Scenario.stormy 1 []
                 = Some (Py.Ok Scenario.many_ids, [Seller.ListProducts ""]))
    by (vm_compute; reflexivity).
  destruct (H _ _ Hids) as (_ & H1).
  destruct (H1 [] eq_refl) as (_ & H2).
  assert (Hst : Seller.create_stocks [] Scenario.many_ids
                = (Py.Ok (map Spec.zero_stock Scenario.many_ids), Scenario.many_ids))
    by (vm_compute; reflexivity).
  exists (firstn 100 (map Spec.zero_stock Scenario.many_ids)),
         (skipn 100 (map Spec.zero_stock Scenario.many_ids)).
  assert (Hdiv : Seller.divide (map Spec.zero_stock Scenario.many_ids) 100
                 = Py.Ok [firstn 100 (map Spec.zero_stock Scenario.many_ids);
                          skipn 100 (map Spec.zero_stock Scenario.many_ids)])
    by (vm_compute; reflexivity).
  split; [exact Hdiv|].
  destruct (H2 _ _ _ Hst Hdiv) as (H3 & _).
  assert (Hok : forall j, (j < 1)%nat -> Seller.stocks_api Scenario.stormy j = Py.Ok tt)
    by (intros j Hj; destruct j; [reflexivity | lia]).
  exact (H3 1%nat Py.ReadTimeout (le_n 2) Hok eq_refl).
Defined.

(* ================================================================== *)
(** * The price stage of [main] *)

Section PriceStage.
Import Py Spec.

Lemma filter_none {A} (f : A -> bool) l :
  (forall x, In x l -> f x = false) -> filter f l = [].
Proof.
  induction l as [|x l IH]; simpl; [reflexivity|]. intros H.
  rewrite (H x) by now left. apply IH. intros y Hy. apply H. now right.
Qed.

Lemma known_of_unmatched feed ids : known feed (unmatched feed ids) = [].
Proof.
  unfold known. apply filter_none. intros w Hw.
  apply contains_false. rewrite unmatched_In. intros [_ Hn]. apply Hn.
  now apply in_map.
Qed.

Lemma no_price_after_stocks feed ids :
  NoDup ids -> Seller.create_prices feed (remaining feed ids) = Ok [].
Proof.
  intros Hnd. rewrite (remaining_unmatched _ _ Hnd).
  pose proof (seller_create_prices_spec (unmatched feed ids) feed) as Hs.
  rewrite known_of_unmatched in Hs.
  destruct (Seller.create_prices feed (unmatched feed ids)) as [prices|e].
  - now inversion Hs.
  - destruct Hs as (w & [] & _).
Qed.

End PriceStage.

(** C2.  On the scenario of the specification (known identifiers A, B
    and C; a supplier feed with A, quantity 5, price 100.00, and B,
    quantity 1, price 50.00), [create_stocks] returns the records A=5,
    B=0, C=0 and leaves the list of identifiers of [main] as [C] alone.
    [main] then calls [create_prices] on that same list, so the price
    list is empty, whereas on the three identifiers [create_prices]
    returns the records A=100 and B=50: the run sends the stock update
    and no price update.  With a duplicate-free catalogue the price
    list of [main] is empty whatever the feed. *)
Theorem main_sends_no_price_update :
  Seller.create_stocks Scenario.feed Scenario.known_ids
  = (Py.Ok Scenario.stocks, ["C"]) /\
  Seller.create_prices Scenario.feed ["C"] = Py.Ok [] /\
  Seller.create_prices Scenario.feed Scenario.known_ids = Py.Ok Scenario.prices /\
  Seller.main Scenario.calm 2
  = Some (Py.Ok tt,
          [Seller.ListProducts ""; Seller.ListProducts "p1"; Seller.DownloadStock;
           Seller.UpdateStocks Scenario.stocks]) /\
  (forall feed ids stocks ids',
      NoDup ids ->
      Seller.create_stocks feed ids = (Py.Ok stocks, ids') ->
      Seller.create_prices feed ids' = Py.Ok []).
Proof.
  repeat match goal with |- _ /\ _ => split end; try reflexivity.
  intros feed ids stocks ids' Hnd H.
  pose proof (seller_create_stocks_spec feed ids) as Hs. rewrite H in Hs.
  destruct Hs as [-> _]. now apply no_price_after_stocks.
Qed.

Lemma main_sends_no_price_update_witness :
  Seller.create_prices Scenario.feed ["C"] = Py.Ok [].
Proof.
  destruct main_sends_no_price_update as (_ & _ & _ & _ & H).
  exact (H Scenario.feed Scenario.known_ids Scenario.stocks ["C"]
           NoDup_known_ids eq_refl).
Defined.

(* ================================================================== *)
(** * Further properties of the delta builder *)

Section MoreStocks.
Import Py Spec.

Lemma for_each_app {S A} (l1 l2 : list A) (body : A -> M S unit) st :
  for_each (l1 ++ l2) body st =
  match for_each l1 body st with
  | (Ok _, st') => for_each l2 body st'
  | (Raise e, st') => (Raise e, st')
  end.
Proof.
  revert st. induction l1 as [|x l1 IH]; intros st; simpl; [reflexivity|].
  unfold bind. destruct (body x st) as [[[]|e] st1]; [apply IH | reflexivity].
Qed.

Lemma seller_first_loop_ok feed st :
  (forall v, In v (matched feed (Seller.offer_ids st)) ->
             exists n, Seller.stock_of_count v = Ok n) ->
  exists new,
    for_each feed Seller.create_stocks_body st
    = (Ok tt, {| Seller.stocks := Seller.stocks st ++ new;
                 Seller.offer_ids := remaining feed (Seller.offer_ids st) |}).
Proof.
  intros Hall. pose proof (seller_first_loop feed st) as H.
  destruct (for_each feed _ _) as [[[]|e] st'].
  - destruct H as (Hids & new & Hst & _). exists new.
    destruct st' as [s i]. simpl in *. now subst.
  - destruct H as (w & Hw & He). destruct (Hall w Hw) as [n Hn]. congruence.
Qed.

Lemma str_of_int_cell z s :
  str (PInt z) = s -> NilZero.int_of_string s = Some (Z.to_int z).
Proof.
  simpl. intros <-. apply NilZero.isi; intros H;
    pose proof (DecimalZ.of_to z) as Hz; rewrite H in Hz; simpl in Hz;
    subst z; discriminate.
Qed.

End MoreStocks.

(** X1.  Whatever the list of identifiers, duplicates included, the
    identifiers of the records [create_stocks] returns are those of the
    list, each as many times as the list has it: one record per element
    of the catalogue.  So an identifier the catalogue lists twice and the
    feed once gets two records, one with the supplier's stock and one
    with zero. *)
Theorem create_stocks_one_record_per_element :
  forall (feed : list Seller.watch) (ids : list string),
    (forall stocks ids',
        Seller.create_stocks feed ids = (Py.Ok stocks, ids') ->
        Permutation (map Seller.offer_id stocks) ids /\
        List.length stocks = List.length ids) /\
    (forall warehouse_id date stocks ids',
        Market.create_stocks warehouse_id date feed ids = (Py.Ok stocks, ids') ->
        Permutation (map Market.sku stocks) ids /\
        List.length stocks = List.length ids).
Proof.
  intros feed ids.
  assert (Hs : forall stocks ids',
        Seller.create_stocks feed ids = (Py.Ok stocks, ids') ->
        Permutation (map Seller.offer_id stocks) ids /\
        List.length stocks = List.length ids).
  { intros stocks ids' H.
    assert (Hp : Permutation (map Seller.offer_id stocks) ids)
      by (rewrite (seller_stock_ids _ _ _ _ H); apply matched_remaining_perm).
    split; [exact Hp|].
    rewrite <- (length_map Seller.offer_id). now apply Permutation_length. }
  split; [exact Hs|].
  intros wh date stocks ids' H.
  destruct (market_of_seller _ _ _ _ _ _ H) as (stocks0 & H0 & ->).
  rewrite to_market_sku, length_map. now apply Hs with (ids' := ids').
Qed.

Lemma create_stocks_one_record_per_element_witness :
  Seller.create_stocks [Scenario.row "A" "5" "100.00"] ["A"; "A"]
  = (Py.Ok [{| Seller.offer_id := "A"; Seller.stock := 5 |};
            {| Seller.offer_id := "A"; Seller.stock := 0 |}], ["A"]) /\
  Permutation ["A"; "A"] ["A"; "A"].
Proof.
  split; [reflexivity|].
  destruct (create_stocks_one_record_per_element
              [Scenario.row "A" "5" "100.00"] ["A"; "A"]) as [H _].
  exact (proj1 (H _ ["A"] eq_refl)).
Defined.

(** X2.  When the coercion of a quantity raises, [create_stocks] has
    already changed the list of its caller: if the records before the
    failing one are all coerced, the call raises the exception of the
    failing record and leaves the list without the identifiers matched
    before it, the code of the failing record still in it; no stock list
    is returned. *)
Theorem create_stocks_raise_leaves_partial_list :
  forall (before after : list Seller.watch) (w : Seller.watch)
         (ids : list string) (e : Py.exn),
    (forall v, In v (Spec.matched before ids) ->
               exists n, Seller.stock_of_count v = Py.Ok n) ->
    In (Spec.code w) (Spec.remaining before ids) ->
    Seller.stock_of_count w = Py.Raise e ->
    Seller.create_stocks (before ++ w :: after) ids
    = (Py.Raise e, Spec.remaining before ids) /\
    (forall warehouse_id date,
        Market.create_stocks warehouse_id date (before ++ w :: after) ids
        = (Py.Raise e, Spec.remaining before ids)).
Proof.
  intros pre post w ids e Hall Hin He.
  assert (Hs : Seller.create_stocks (pre ++ w :: post) ids
               = (Py.Raise e, Spec.remaining pre ids)).
  { rewrite seller_create_stocks_eq, for_each_app.
    destruct (seller_first_loop_ok pre
                {| Seller.stocks := []; Seller.offer_ids := ids |} Hall)
      as [new ->].
    cbn [Py.for_each]. unfold Py.bind at 1. rewrite seller_body_eq.
    cbn [Seller.offer_ids]. apply contains_In in Hin. rewrite Hin, He.
    reflexivity. }
  split; [exact Hs|]. intros wh date.
  now rewrite market_create_stocks_eq, Hs.
Qed.

Lemma create_stocks_raise_leaves_partial_list_witness :
  Seller.create_stocks
    [Scenario.row "A" "5" "1.00"; Scenario.row "B" "many" "1.00";
     Scenario.row "C" "2" "1.00"] ["A"; "B"; "C"]
  = (Py.Raise Py.ValueError, ["B"; "C"]).
Proof.
  refine (proj1 (create_stocks_raise_leaves_partial_list
                   [Scenario.row "A" "5" "1.00"] [Scenario.row "C" "2" "1.00"]
                   (Scenario.row "B" "many" "1.00") ["A"; "B"; "C"] Py.ValueError
                   _ _ eq_refl)).
  - intros v [<-|[]]. now exists 5.
  - simpl. now left.
Defined.

(** X3.  A quantity cell holding an integer is coerced to that integer,
    except the integer 1, which is coerced to 0 like the text "1"; a
    record with no quantity makes the coercion raise [TypeError]. *)
Theorem integer_quantity_coercion :
  forall (w : Seller.watch),
    (forall z, Seller.Kolichestvo w = Py.PInt z ->
               Seller.stock_of_count w = Py.Ok (if z =? 1 then 0 else z)) /\
    (Seller.Kolichestvo w = Py.PNone ->
     Seller.stock_of_count w = Py.Raise Py.TypeError).
Proof.
  intros w. split.
  - intros z Hq. unfold Seller.stock_of_count. rewrite Hq.
    destruct (String.eqb_spec (Py.str (Py.PInt z)) ">10") as [H|_].
    + apply str_of_int_cell in H. discriminate.
    + destruct (String.eqb_spec (Py.str (Py.PInt z)) "1") as [H|H].
      * apply str_of_int_cell in H. simpl in H.
        assert (Hz : z = 1).
        { pose proof (DecimalZ.of_to z) as Ho. inversion H as [H'].
          rewrite <- H' in Ho. now symmetry. }
        now subst.
      * destruct (Z.eqb_spec z 1) as [->|_]; [now contradiction H | reflexivity].
  - intros Hq. unfold Seller.stock_of_count. now rewrite Hq.
Qed.

Lemma integer_quantity_coercion_witness :
  Seller.stock_of_count
    {| Seller.Kod := Py.PStr "A"; Seller.Kolichestvo := Py.PInt 1;
       Seller.Tsena := Py.PStr "1.00" |} = Py.Ok 0 /\
  Seller.stock_of_count
    {| Seller.Kod := Py.PStr "A"; Seller.Kolichestvo := Py.PInt 12;
       Seller.Tsena := Py.PStr "1.00" |} = Py.Ok 12 /\
  Seller.stock_of_count
    {| Seller.Kod := Py.PStr "A"; Seller.Kolichestvo := Py.PNone;
       Seller.Tsena := Py.PStr "1.00" |} = Py.Raise Py.TypeError.
Proof.
  split; [|split].
  - exact (proj1 (integer_quantity_coercion
                    {| Seller.Kod := Py.PStr "A"; Seller.Kolichestvo := Py.PInt 1;
                       Seller.Tsena := Py.PStr "1.00" |}) 1 eq_refl).
  - exact (proj1 (integer_quantity_coercion
                    {| Seller.Kod := Py.PStr "A"; Seller.Kolichestvo := Py.PInt 12;
                       Seller.Tsena := Py.PStr "1.00" |}) 12 eq_refl).
  - exact (proj2 (integer_quantity_coercion
                    {| Seller.Kod := Py.PStr "A"; Seller.Kolichestvo := Py.PNone;
                       Seller.Tsena := Py.PStr "1.00" |}) eq_refl).
Defined.

(* ================================================================== *)
(** * Further properties of the prices *)

Section MorePrices.
Import Py Spec.

Lemma digits_only_digits t c :
  In c (list_ascii_of_string (digits_only t)) -> is_digit c = true.
Proof.
  unfold digits_only. rewrite list_ascii_of_string_of_list_ascii.
  intros H. now apply filter_In in H.
Qed.

Lemma sub_non_digits_fixed s :
  (forall c, In c (list_ascii_of_string s) -> is_digit c = true) ->
  sub_non_digits s = s.
Proof.
  induction s as [|c s IH]; simpl; [reflexivity|]. intros H.
  rewrite (H c) by now left. f_equal. apply IH. intros d Hd. apply H. now right.
Qed.

Lemma before_period_fixed s :
  (forall c, In c (list_ascii_of_string s) -> is_digit c = true) ->
  before_period s = s.
Proof.
  induction s as [|c s IH]; simpl; [reflexivity|]. intros H.
  destruct (Ascii.eqb_spec c ".") as [->|_].
  - specialize (H "."%char (or_introl eq_refl)). discriminate.
  - f_equal. apply IH. intros d Hd. apply H. now right.
Qed.






Lemma known_codes_count feed ids id :
  count_occ string_dec (map code (known feed ids)) id
  = if contains id ids then count_occ string_dec (map code feed) id else O.
Proof.
  unfold known. induction feed as [|w rest IH]; simpl.
  - now destruct (contains id ids).
  - destruct (contains (code w) ids) eqn:Hw; simpl;
      destruct (string_dec (code w) id) as [<-|Hne]; rewrite IH;
      try rewrite Hw; try reflexivity.
Qed.

End MorePrices.

(** X4.  [price_conversion] returns a result for text only, raising
    [AttributeError] for a price cell that holds an integer or nothing;
    its result is made of decimal digits only, and converting the result
    again leaves it as it is. *)
Theorem price_conversion_result_is_digits :
  (forall (price : Py.pyval) (s : string),
      Seller.price_conversion price = Py.Ok s ->
      (exists t, price = Py.PStr t) /\
      (forall c, In c (list_ascii_of_string s) -> Py.is_digit c = true) /\
      Seller.price_conversion (Py.PStr s) = Py.Ok s) /\
  (forall price : Py.pyval,
      (forall t, price <> Py.PStr t) ->
      Seller.price_conversion price = Py.Raise Py.AttributeError).
Proof.
  split.
  - intros price s H. destruct price as [t|z|]; try discriminate.
    rewrite price_conversion_text in H. inversion H; subst.
    split; [now exists t|]. split.
    + intros c. apply digits_only_digits.
    + unfold Seller.price_conversion. rewrite split_period_head.
      rewrite before_period_fixed, sub_non_digits_fixed;
        [reflexivity | |]; intros c; apply digits_only_digits.
  - intros price H. destruct price as [t|z|]; [now contradiction (H t)| |];
      reflexivity.
Qed.

Lemma price_conversion_result_is_digits_witness :
  Seller.price_conversion (Py.PStr "5990") = Py.Ok "5990" /\
  Seller.price_conversion (Py.PInt 5990) = Py.Raise Py.AttributeError.
Proof.
  destruct price_conversion_result_is_digits as [H1 H2]. split.
  - exact (proj2 (proj2 (H1 (Py.PStr "5'990.00") "5990" eq_refl))).
  - apply H2. discriminate.
Defined.



(** X6.  [create_prices] emits one record for every row of the feed
    with a known code: a known identifier gets as many price records as
    the feed has rows with that code, and an identifier that is not
    known gets none; in [seller.py] and in [market.py]. *)
Theorem one_price_record_per_feed_row :
  forall (feed : list Seller.watch) (ids : list string) (id : string),
    (forall prices,
        Seller.create_prices feed ids = Py.Ok prices ->
        count_occ string_dec (map Seller.price_offer_id prices) id
        = if Py.contains id ids
          then count_occ string_dec (map Spec.code feed) id else O) /\
    (forall prices,
        Market.create_prices feed ids = Py.Ok prices ->
        count_occ string_dec (map Market.id prices) id
        = if Py.contains id ids
          then count_occ string_dec (map Spec.code feed) id else O).
Proof.
  intros feed ids id. split; intros prices H.
  - pose proof (seller_create_prices_spec ids feed) as Hs. rewrite H in Hs.
    rewrite (seller_price_ids _ _ Hs). apply known_codes_count.
  - pose proof (market_create_prices_spec ids feed) as Hs. rewrite H in Hs.
    rewrite (market_price_ids _ _ Hs). apply known_codes_count.
Qed.

Lemma one_price_record_per_feed_row_witness :
  count_occ string_dec
    (map Seller.price_offer_id
       [Spec.seller_price "A" "100"; Spec.seller_price "A" "90"]) "A" = 2%nat.
Proof.
  exact (proj1 (one_price_record_per_feed_row
                  [Scenario.row "A" "5" "100.00"; Scenario.row "A" "3" "90.00"]
                  ["A"; "B"] "A") _ eq_refl).
Defined.

(* ================================================================== *)
(** * Further properties of [divide] and of the catalogue readers *)

Section MoreChunks.
Import Py.
Context {A : Type}.

Lemma divide_zero (lst : list A) : Seller.divide lst 0 = Raise ValueError.
Proof. reflexivity. Qed.

Lemma divide_negative (lst : list A) n : n < 0 -> Seller.divide lst n = Ok [].
Proof.
  intros Hn. unfold Seller.divide, range.
  destruct (Z.eqb_spec n 0); [lia|].
  destruct (Z.ltb_spec 0 n); [lia|].
  set (len := Z.of_nat (List.length lst)).
  assert (Hq : (0 - len - n - 1) / - n <= 0).
  { assert ((0 - len - n - 1) / - n < 1); [|lia].
    apply Z.div_lt_upper_bound; lia. }
  replace (Z.to_nat ((0 - len - n - 1) / - n)) with O by lia.
  reflexivity.
Qed.

Lemma divide_count (lst : list A) n chunks :
  1 <= n -> Seller.divide lst n = Ok chunks ->
  Z.of_nat (List.length chunks) = (Z.of_nat (List.length lst) + n - 1) / n.
Proof.
  intros Hn. rewrite divide_eq by exact Hn. intros H. inversion H; subst.
  rewrite length_map, length_seq. unfold Spec.chunk_count.
  rewrite Nat2Z.inj_div.
  replace (Z.of_nat (List.length lst + Z.to_nat n - 1))
    with (Z.of_nat (List.length lst) + n - 1) by lia.
  now rewrite Z2Nat.id by lia.
Qed.

End MoreChunks.

(** X7.  [divide] with a chunk size of zero raises [ValueError]
    whatever the list; with a negative chunk size it yields no chunk at
    all, so the elements of the list are silently left out; with a chunk
    size [n >= 1] it yields the quotient of the length by [n], rounded
    up, chunks. *)
Theorem divide_chunk_size_edges :
  forall (A : Type) (lst : list A),
    Seller.divide lst 0 = Py.Raise Py.ValueError /\
    (forall n, n < 0 -> Seller.divide lst n = Py.Ok []) /\
    (forall n chunks,
        1 <= n -> Seller.divide lst n = Py.Ok chunks ->
        Z.of_nat (List.length chunks) = (Z.of_nat (List.length lst) + n - 1) / n).
Proof.
  intros A lst. split; [apply divide_zero|]. split.
  - intros n. apply divide_negative.
  - intros n chunks. apply divide_count.
Qed.

Lemma divide_chunk_size_edges_witness :
  Seller.divide [1; 2; 3] (-2) = Py.Ok [] /\
  Z.of_nat (List.length [[1; 2]; [3; 4]; [5]]) = (Z.of_nat 5 + 2 - 1) / 2.
Proof.
  destruct (divide_chunk_size_edges Z [1; 2; 3]) as (_ & Hneg & _).
  destruct (divide_chunk_size_edges Z [1; 2; 3; 4; 5]) as (_ & _ & Hcount).
  split.
  - apply Hneg. lia.
  - apply (Hcount 2); [lia | reflexivity].
Defined.

Section MoreCatalogue.
Import Py Spec.

Lemma seller_loop_fails (E : Seller.env) (pages : nat -> Seller.page)
  (e : exn) (d : nat) : forall (j : nat) cursor tr fuel,
  Seller.sent Seller.is_ListProducts tr = j ->
  (forall i, (i < d)%nat -> Seller.listing E (j + i)%nat = Ok (pages (j + i)%nat)) ->
  Seller.listing E (j + d)%nat = Raise e ->
  (forall i, (i < d)%nat -> ~ seller_stops pages (j + i)%nat) ->
  (d < fuel)%nat ->
  Seller.get_offer_ids_loop E fuel cursor (seller_before pages j) tr
  = Some (Raise e, tr ++ seller_requests pages cursor j d).
Proof.
  induction d as [|d IH]; intros j cursor tr fuel Hj Hl He Hnot Hfuel;
    (destruct fuel as [|fuel]; [lia|]); simpl;
    unfold Seller.get_product_list; rewrite Hj.
  - rewrite Nat.add_0_r in He. now rewrite He.
  - specialize (Hl O ltac:(lia)) as Hl0. rewrite Nat.add_0_r in Hl0. rewrite Hl0.
    rewrite <- seller_before_S.
    destruct (Z.eqb_spec (Seller.total (pages j))
                (Z.of_nat (List.length (seller_before pages (S j))))) as [Heq|_].
    + exfalso. apply (Hnot O ltac:(lia)). now rewrite Nat.add_0_r.
    + rewrite (IH (S j)).
      * unfold seller_requests. rewrite <- app_assoc. reflexivity.
      * rewrite sent_app. simpl. lia.
      * intros i Hi. replace (S j + i)%nat with (j + S i)%nat by lia.
        apply Hl. lia.
      * now replace (S j + d)%nat with (j + S d)%nat by lia.
      * intros i Hi. replace (S j + i)%nat with (j + S i)%nat by lia.
        apply Hnot. lia.
      * lia.
Qed.

Lemma market_loop_fails (listing : nat -> result Market.page)
  (pages : nat -> Market.page) (e : exn) (d : nat) :
  forall (j : nat) token tr fuel,
  List.length tr = j ->
  (forall i, (i < d)%nat -> listing (j + i)%nat = Ok (pages (j + i)%nat)) ->
  listing (j + d)%nat = Raise e ->
  (forall i, (i < d)%nat -> ~ market_stops pages (j + i)%nat) ->
  (d < fuel)%nat ->
  Market.get_offer_ids_loop listing fuel token (market_before pages j) tr
  = Some (Raise e, tr ++ market_requests pages token j d).
Proof.
  induction d as [|d IH]; intros j token tr fuel Hj Hl He Hnot Hfuel;
    (destruct fuel as [|fuel]; [lia|]); simpl;
    unfold Market.get_product_list; rewrite Hj.
  - rewrite Nat.add_0_r in He. now rewrite He.
  - specialize (Hl O ltac:(lia)) as Hl0. rewrite Nat.add_0_r in Hl0. rewrite Hl0.
    rewrite <- market_before_S.
    destruct (Market.truthy (Market.nextPageToken (pages j))) eqn:Ht; simpl.
    + rewrite (IH (S j)).
      * unfold market_requests. rewrite <- app_assoc. reflexivity.
      * rewrite length_app. simpl. lia.
      * intros i Hi. replace (S j + i)%nat with (j + S i)%nat by lia.
        apply Hl. lia.
      * now replace (S j + d)%nat with (j + S d)%nat by lia.
      * intros i Hi. replace (S j + i)%nat with (j + S i)%nat by lia.
        apply Hnot. lia.
      * lia.
    + exfalso. apply (Hnot O ltac:(lia)). now rewrite Nat.add_0_r.
Qed.

Lemma seller_before_first (pages : nat -> Seller.page) (k : nat) :
  (List.length (Seller.items (pages O))
   <= List.length (seller_before pages (S k)))%nat.
Proof.
  unfold seller_before. rewrite <- cons_seq. simpl. rewrite length_app. lia.
Qed.

End MoreCatalogue.

(** X8.  When a listing request fails before any page has met the
    stopping test, [get_offer_ids] raises the exception of that request:
    it has sent the requests up to the failing one, each once, sends no
    other, and the identifiers read so far are lost.  In [seller.py] and
    in [market.py]. *)
Theorem get_offer_ids_propagates_failure :
  (forall (E : Seller.env) (pages : nat -> Seller.page) (k fuel : nat) (e : Py.exn),
      (forall i, (i < k)%nat -> Seller.listing E i = Py.Ok (pages i)) ->
      Seller.listing E k = Py.Raise e ->
      (forall i, (i < k)%nat -> ~ Spec.seller_stops pages i) ->
      (k < fuel)%nat ->
      Seller.get_offer_ids E fuel []
      = Some (Py.Raise e, Spec.seller_requests pages "" 0 k)) /\
  (forall (listing : nat -> Py.result Market.page) (pages : nat -> Market.page)
          (k fuel : nat) (e : Py.exn),
      (forall i, (i < k)%nat -> listing i = Py.Ok (pages i)) ->
      listing k = Py.Raise e ->
      (forall i, (i < k)%nat -> ~ Spec.market_stops pages i) ->
      (k < fuel)%nat ->
      Market.get_offer_ids listing fuel []
      = Some (Py.Raise e, Spec.market_requests pages (Py.PStr "") 0 k)).
Proof.
  split.
  - intros E pages k fuel e Hl He Hnot Hfuel. unfold Seller.get_offer_ids.
    change (@nil Seller.product) with (Spec.seller_before pages 0).
    now rewrite (seller_loop_fails E pages e k 0 "" [] fuel).
  - intros listing pages k fuel e Hl He Hnot Hfuel. unfold Market.get_offer_ids.
    change (@nil Market.entry) with (Spec.market_before pages 0).
    now rewrite (market_loop_fails listing pages e k 0 (Py.PStr "") [] fuel).
Qed.

Lemma get_offer_ids_propagates_failure_witness :
  Market.get_offer_ids
    (fun k => match k with
              | O => Py.Ok (Scenario.market_pages 0)
              | _ => Py.Raise Py.HTTPError
              end) 5 []
  = Some (Py.Raise Py.HTTPError, [Py.PStr ""; Py.PStr "p1"]).
Proof.
  refine (proj2 get_offer_ids_propagates_failure _ Scenario.market_pages
            1%nat 5%nat Py.HTTPError _ eq_refl _ _).
  - intros i Hi. destruct i; [reflexivity | lia].
  - intros i Hi. destruct i; [discriminate | lia].
  - lia.
Defined.

(** X9.  [get_offer_ids] of [seller.py] stops only on equality: when
    every page reports a [total] lower than the number of products of
    the first page, the products gathered outnumber every [total] from
    the first page on and the loop is still running after any number of
    iterations. *)
Theorem get_offer_ids_overshoot_never_stops :
  forall (E : Seller.env) (pages : nat -> Seller.page),
    (forall i, Seller.listing E i = Py.Ok (pages i)) ->
    (forall k, Seller.total (pages k)
               < Z.of_nat (List.length (Seller.items (pages O)))) ->
    forall fuel, Seller.get_offer_ids E fuel [] = None.
Proof.
  intros E pages Hl Hlow fuel. unfold Seller.get_offer_ids.
  change (@nil Seller.product) with (Spec.seller_before pages 0).
  rewrite (seller_loop_runs_on E pages fuel 0 "" []); auto.
  intros i. unfold Spec.seller_stops. simpl.
  pose proof (seller_before_first pages i). specialize (Hlow i). lia.
Qed.

Lemma get_offer_ids_overshoot_never_stops_witness :
  Seller.get_offer_ids Scenario.overshoot 7 [] = None.
Proof.
  apply (get_offer_ids_overshoot_never_stops Scenario.overshoot
           (fun _ => Scenario.overshoot_page)).
  - intros i. reflexivity.
  - intros k. simpl. lia.
Defined.

(* ================================================================== *)
(** * The coroutines of [seller.py] and the price stage of [main] *)

Section SellerCoroutines.
Import Py Spec.
Variable E : Seller.env.

Lemma Forall2_In_l {A B} (R : A -> B -> Prop) l1 l2 x :
  Forall2 R l1 l2 -> In x l1 -> exists y, In y l2 /\ R x y.
Proof.
  induction 1 as [|a b l1 l2 Hab _ IH]; simpl; [tauto|].
  intros [<-|Hx].
  - exists b. split; [now left | exact Hab].
  - destruct (IH Hx) as (y & Hy & Hxy). exists y. split; [now right | exact Hxy].
Qed.

Lemma listing_sends_no_update cs kind :
  (forall c, kind (Seller.ListProducts c) = false) ->
  Seller.sent kind (map Seller.ListProducts cs) = O.
Proof. intros H. apply sent_none. now apply Forall_map_const. Qed.

Lemma stocks_after_listing cs chunks :
  (forall j, (j < List.length chunks)%nat -> Seller.stocks_api E j = Ok tt) ->
  for_each chunks (Seller.update_stocks E) (map Seller.ListProducts cs)
  = (Ok tt, map Seller.ListProducts cs ++ map Seller.UpdateStocks chunks).
Proof.
  intros Hok.
  apply (calls_all_ok _ (Seller.stocks_api E) Seller.is_UpdateStocks);
    try rewrite listing_sends_no_update; auto using update_stocks_eq.
Qed.

Lemma prices_after_listing cs chunks :
  (forall j, (j < List.length chunks)%nat -> Seller.prices_api E j = Ok tt) ->
  for_each chunks (Seller.update_price E) (map Seller.ListProducts cs)
  = (Ok tt, map Seller.ListProducts cs ++ map Seller.UpdatePrice chunks).
Proof.
  intros Hok.
  apply (calls_all_ok _ (Seller.prices_api E) Seller.is_UpdatePrice);
    try rewrite listing_sends_no_update; auto using update_price_eq.
Qed.

Lemma stocked_record_is_emitted feed ids stocks ids' r :
  Seller.create_stocks feed ids = (Ok stocks, ids') ->
  In r stocks -> Seller.stock r <> 0 ->
  exists w, In w feed /\ In (code w) ids /\ emitted r w.
Proof.
  intros H Hr Hnz. pose proof (seller_create_stocks_spec feed ids) as Hs.
  rewrite H in Hs. destruct Hs as (_ & new & -> & Hnew).
  apply in_app_or in Hr. destruct Hr as [Hr|Hr].
  - destruct (Forall2_In_l _ _ _ _ Hnew Hr) as (w & Hw & Hrw).
    destruct (matched_In _ _ _ Hw) as [Hf Hi]. now exists w.
  - apply in_map_iff in Hr. destruct Hr as (id & <- & _). now contradiction Hnz.
Qed.

End SellerCoroutines.

(** X10.  When the catalogue is read, the stocks are built and every
    update request succeeds, [upload_stocks] of [seller.py] sends the
    chunks of at most 100 stock records, in order, after the listing
    requests and nothing else, and returns the stock list together with
    its records of nonzero stock; each of these was emitted for a
    supplier record whose code is a known identifier, so no identifier
    absent from the feed is among them. *)
Theorem upload_stocks_returns_stocked_records :
  forall (E : Seller.env) (feed : list Seller.watch) (fuel : nat)
         (ids : list string) (tr1 : Seller.world)
         (stocks : list Seller.stock_record) (ids' : list string)
         (chunks : list (list Seller.stock_record)),
    Seller.get_offer_ids E fuel [] = Some (Py.Ok ids, tr1) ->
    Seller.create_stocks feed ids = (Py.Ok stocks, ids') ->
    Seller.divide stocks 100 = Py.Ok chunks ->
    (forall j, (j < List.length chunks)%nat -> Seller.stocks_api E j = Py.Ok tt) ->
    exists not_empty,
      SellerAsync.upload_stocks E feed fuel []
      = Some (Py.Ok (not_empty, stocks), tr1 ++ map Seller.UpdateStocks chunks) /\
      (forall r, In r not_empty <-> In r stocks /\ Seller.stock r <> 0) /\
      (forall r, In r not_empty ->
                 exists w, In w feed /\ In (Spec.code w) ids /\ Spec.emitted r w).
Proof.
  intros E feed fuel ids tr1 stocks ids' chunks Hids Hst Hdiv Hok.
  exists (filter (fun stock => negb (Seller.stock stock =? 0)) stocks).
  assert (Hin : forall r,
             In r (filter (fun stock => negb (Seller.stock stock =? 0)) stocks)
             <-> In r stocks /\ Seller.stock r <> 0).
  { intros r. rewrite filter_In, negb_true_iff, Z.eqb_neq. reflexivity. }
  split; [|split; [exact Hin|]].
  - unfold SellerAsync.upload_stocks. rewrite Hids, Hst.
    destruct (get_offer_ids_trace _ _ _ _ Hids) as [cs ->].
    unfold Py.bind at 1, Py.lift at 1. unfold Py.bind at 1, Py.lift at 1.
    rewrite Hdiv. unfold Py.bind at 1.
    now rewrite (stocks_after_listing E cs chunks Hok).
  - intros r Hr. apply Hin in Hr. destruct Hr as [Hr Hnz].
    now apply (stocked_record_is_emitted feed ids stocks ids').
Qed.

Lemma upload_stocks_returns_stocked_records_witness :
  exists not_empty,
    SellerAsync.upload_stocks Scenario.calm Scenario.feed 2 []
    = Some (Py.Ok (not_empty, Scenario.stocks),
            [Seller.ListProducts ""; Seller.ListProducts "p1"]
            ++ map Seller.UpdateStocks [Scenario.stocks]).
Proof.
  destruct (upload_stocks_returns_stocked_records Scenario.calm Scenario.feed 2
              Scenario.known_ids [Seller.ListProducts ""; Seller.ListProducts "p1"]
              Scenario.stocks ["C"] [Scenario.stocks]
              eq_refl eq_refl eq_refl (fun _ _ => eq_refl))
    as (not_empty & H & _).
  now exists not_empty.
Defined.

(** X11.  When the catalogue is read, the prices are built and every
    update request succeeds, [upload_prices] of [seller.py] returns the
    price list built on the catalogue it has just read: one record for
    every supplier record with a known code, in the order of the feed;
    it sends the chunks of at most 1000 of them, in order, after the
    listing requests and nothing else. *)
Theorem upload_prices_sends_known_prices :
  forall (E : Seller.env) (feed : list Seller.watch) (fuel : nat)
         (ids : list string) (tr1 : Seller.world)
         (prices : list Seller.price_record)
         (chunks : list (list Seller.price_record)),
    Seller.get_offer_ids E fuel [] = Some (Py.Ok ids, tr1) ->
    Seller.create_prices feed ids = Py.Ok prices ->
    Seller.divide prices 1000 = Py.Ok chunks ->
    (forall j, (j < List.length chunks)%nat -> Seller.prices_api E j = Py.Ok tt) ->
    SellerAsync.upload_prices E feed fuel []
    = Some (Py.Ok prices, tr1 ++ map Seller.UpdatePrice chunks) /\
    map Seller.price_offer_id prices = map Spec.code (Spec.known feed ids) /\
    List.concat chunks = prices.
Proof.
  intros E feed fuel ids tr1 prices chunks Hids Hpr Hdiv Hok.
  split; [|split].
  - unfold SellerAsync.upload_prices. rewrite Hids.
    destruct (get_offer_ids_trace _ _ _ _ Hids) as [cs ->].
    unfold Py.bind at 1, Py.lift at 1. rewrite Hpr.
    unfold Py.bind at 1, Py.lift at 1. rewrite Hdiv. unfold Py.bind at 1.
    now rewrite (prices_after_listing E cs chunks Hok).
  - pose proof (seller_create_prices_spec ids feed) as Hs. rewrite Hpr in Hs.
    now apply seller_price_ids.
  - destruct (divide_spec prices 1000 ltac:(lia)) as (chunks' & Hd & Hc & _).
    congruence.
Qed.

Lemma upload_prices_sends_known_prices_witness :
  SellerAsync.upload_prices Scenario.calm Scenario.feed 2 []
  = Some (Py.Ok Scenario.prices,
          [Seller.ListProducts ""; Seller.ListProducts "p1"]
          ++ map Seller.UpdatePrice [Scenario.prices]).
Proof.
  exact (proj1 (upload_prices_sends_known_prices Scenario.calm Scenario.feed 2
                  Scenario.known_ids [Seller.ListProducts ""; Seller.ListProducts "p1"]
                  Scenario.prices [Scenario.prices]
                  eq_refl eq_refl eq_refl (fun _ _ => eq_refl))).
Defined.

(** X12.  Whatever the outside answers, a run of [main] of [seller.py]
    that has read a duplicate-free catalogue sends no price update
    request: when the list of prices is built, the list of identifiers
    holds no code of the feed any more. *)
Theorem main_never_updates_prices :
  forall (E : Seller.env) (fuel : nat) (ids : list string)
         (tr1 : Seller.world) (r : Py.result unit) (tr : Seller.world),
    Seller.get_offer_ids E fuel [] = Some (Py.Ok ids, tr1) ->
    NoDup ids ->
    Seller.main E fuel = Some (r, tr) ->
    Forall (fun ev => Seller.is_UpdatePrice ev = false) tr.
Proof.
  intros E fuel ids tr1 r tr Hids Hnd.
  rewrite (main_eq _ _ _ _ Hids), main_try_rest_eq.
  destruct (get_offer_ids_trace _ _ _ _ Hids) as [cs ->].
  assert (Hd : Forall (fun ev => Seller.is_UpdatePrice ev = false)
                 (map Seller.ListProducts cs ++ [Seller.DownloadStock]))
    by (apply Forall_app; split; [now apply Forall_map_const | now constructor]).
  assert (Hp : forall e tr0,
             Forall (fun ev => Seller.is_UpdatePrice ev = false) tr0 ->
             Forall (fun ev => Seller.is_UpdatePrice ev = false)
               (tr0 ++ [Seller.Print (Spec.report e)]))
    by (intros e tr0 H0; apply Forall_app; split; [exact H0 | now constructor]).
  destruct (Seller.supplier E) as [feed|e];
    [|intros H; inversion H; subst; now apply Hp].
  destruct (Seller.create_stocks feed ids) as [[stocks|e] ids'] eqn:Hst;
    [|intros H; inversion H; subst; now apply Hp].
  destruct (Seller.divide stocks 100) as [chunks|e];
    [|intros H; inversion H; subst; now apply Hp].
  destruct (Py.for_each chunks _ _) as [r2 tr2] eqn:H2.
  destruct (calls_trace _ _ _ Seller.UpdateStocks _ (update_stocks_eq E) _ _ _ _ H2)
    as [n ->].
  assert (Hu : Forall (fun ev => Seller.is_UpdatePrice ev = false)
                 ((map Seller.ListProducts cs ++ [Seller.DownloadStock])
                  ++ map Seller.UpdateStocks (firstn n chunks)))
    by (apply Forall_app; split; [exact Hd | now apply Forall_map_const]).
  destruct r2 as [[]|e]; [|intros H; inversion H; subst; now apply Hp].
  pose proof (seller_create_stocks_spec feed ids) as Hs. rewrite Hst in Hs.
  destruct Hs as [-> _]. rewrite (no_price_after_stocks _ _ Hnd).
  simpl. intros H. inversion H; subst. exact Hu.
Qed.

Lemma main_never_updates_prices_witness :
  Forall (fun ev => Seller.is_UpdatePrice ev = false)
    [Seller.ListProducts ""; Seller.ListProducts "p1"; Seller.DownloadStock;
     Seller.UpdateStocks Scenario.stocks].
Proof.
  exact (main_never_updates_prices Scenario.calm 2 Scenario.known_ids
           [Seller.ListProducts ""; Seller.ListProducts "p1"] (Py.Ok tt) _
           eq_refl NoDup_known_ids eq_refl).
Defined.

(* ================================================================== *)
(** * The run of [market.py] *)

Section MarketCalls.
Import Py.
Variables (X : Type) (api : nat -> result unit) (kind : MarketRun.event -> bool)
          (mk : X -> MarketRun.event) (act : X -> M MarketRun.world unit).
Hypothesis Hkind : forall x, kind (mk x) = true.
Hypothesis Hact : forall x tr, act x tr = (api (MarketRun.sent kind tr), tr ++ [mk x]).

Lemma market_sent_app tr ev :
  MarketRun.sent kind (tr ++ [ev])
  = (MarketRun.sent kind tr + if kind ev then 1 else 0)%nat.
Proof.
  unfold MarketRun.sent. rewrite filter_app, length_app. simpl.
  now destruct (kind ev).
Qed.

Lemma market_calls_all_ok chunks : forall tr,
  (forall j, (j < List.length chunks)%nat -> api (MarketRun.sent kind tr + j) = Ok tt) ->
  for_each chunks act tr = (Ok tt, tr ++ map mk chunks).
Proof.
  induction chunks as [|c chunks IH]; intros tr H; simpl.
  - now rewrite app_nil_r.
  - unfold bind. rewrite Hact.
    specialize (H O ltac:(simpl; lia)) as H0. rewrite Nat.add_0_r in H0. rewrite H0.
    rewrite IH.
    + now rewrite <- app_assoc.
    + intros j Hj. rewrite market_sent_app, Hkind.
      replace (MarketRun.sent kind tr + 1 + j)%nat
        with (MarketRun.sent kind tr + S j)%nat by lia.
      apply H. simpl. lia.
Qed.

Lemma market_calls_fail chunks : forall k tr e,
  (k < List.length chunks)%nat ->
  (forall j, (j < k)%nat -> api (MarketRun.sent kind tr + j) = Ok tt) ->
  api (MarketRun.sent kind tr + k) = Raise e ->
  for_each chunks act tr = (Raise e, tr ++ map mk (firstn (S k) chunks)).
Proof.
  induction chunks as [|c chunks IH]; intros k tr e Hk Hok Hfail; simpl in Hk; [lia|].
  cbn [for_each]. unfold bind. rewrite Hact.
  destruct k as [|k].
  - rewrite Nat.add_0_r in Hfail. rewrite Hfail. reflexivity.
  - specialize (Hok O ltac:(lia)) as H0. rewrite Nat.add_0_r in H0. rewrite H0.
    rewrite (IH k _ e).
    + rewrite <- app_assoc. reflexivity.
    + lia.
    + intros j Hj. rewrite market_sent_app, Hkind.
      replace (MarketRun.sent kind tr + 1 + j)%nat
        with (MarketRun.sent kind tr + S j)%nat by lia.
      apply Hok. lia.
    + rewrite market_sent_app, Hkind.
      now replace (MarketRun.sent kind tr + 1 + k)%nat
        with (MarketRun.sent kind tr + S k)%nat by lia.
Qed.

Lemma market_calls_trace chunks : forall tr r tr',
  for_each chunks act tr = (r, tr') -> exists n, tr' = tr ++ map mk (firstn n chunks).
Proof.
  induction chunks as [|c chunks IH]; intros tr r tr'; simpl.
  - intros H. inversion H. exists O. now rewrite app_nil_r.
  - unfold bind. rewrite Hact. destruct (api _) as [[]|e].
    + intros H. destruct (IH _ _ _ H) as [n ->]. exists (S n).
      now rewrite <- app_assoc.
    + intros H. inversion H. exists 1%nat. reflexivity.
Qed.

End MarketCalls.

Section MarketMain.
Import Py Spec MarketSpec.
Variable E : MarketRun.env.

Lemma market_main_except_eq e tr :
  MarketRun.main_except e tr = (Ok tt, tr ++ [MarketRun.Print (report e)]).
Proof. destruct e; reflexivity. Qed.

Lemma market_update_stocks_eq c chunk tr :
  MarketRun.update_stocks E c chunk tr
  = (MarketRun.stocks_api E c (MarketRun.sent (MarketRun.is_UpdateStocks c) tr),
     tr ++ [MarketRun.UpdateStocks c chunk]).
Proof. reflexivity. Qed.

Lemma market_update_price_eq c chunk tr :
  MarketRun.update_price E c chunk tr
  = (MarketRun.prices_api E c (MarketRun.sent (MarketRun.is_UpdatePrice c) tr),
     tr ++ [MarketRun.UpdatePrice c chunk]).
Proof. reflexivity. Qed.

Lemma campaign_eqb_refl c : MarketRun.campaign_eqb c c = true.
Proof. now destruct c. Qed.

Lemma main_campaign_eq c feed fuel tr :
  MarketRun.main_campaign E c feed fuel tr =
  match Market.get_offer_ids (MarketRun.listing E c) fuel [] with
  | None => None
  | Some (Raise e, tokens) =>
      Some (Raise e, tr ++ map (MarketRun.ListEntries c) tokens)
  | Some (Ok ids, tokens) =>
      Some
        match Market.create_stocks (MarketRun.warehouse E c) (MarketRun.utcnow E c)
                feed ids with
        | (Raise e, _) => (Raise e, tr ++ map (MarketRun.ListEntries c) tokens)
        | (Ok stocks, _) =>
            match Seller.divide stocks 2000 with
            | Raise e => (Raise e, tr ++ map (MarketRun.ListEntries c) tokens)
            | Ok chunks =>
                match for_each chunks (MarketRun.update_stocks E c)
                        (tr ++ map (MarketRun.ListEntries c) tokens) with
                | (Raise e, tr2) => (Raise e, tr2)
                | (Ok _, tr2) => (Ok tt, tr2)
                end
            end
        end
  end.
Proof.
  unfold MarketRun.main_campaign, MarketRun.get_offer_ids.
  destruct (Market.get_offer_ids _ fuel []) as [[[ids|e] tokens]|]; try reflexivity.
  f_equal.
  destruct (Market.create_stocks _ _ feed ids) as [[stocks|e] ids']; [|reflexivity].
  unfold bind at 1, lift at 1. unfold bind at 1, lift at 1.
  destruct (Seller.divide stocks 2000) as [chunks|e]; [|reflexivity].
  unfold bind at 1.
  destruct (for_each chunks _ _) as [[[]|e] tr2]; reflexivity.
Qed.

Lemma main_campaign_trace c feed fuel tr r tr' :
  MarketRun.main_campaign E c feed fuel tr = Some (r, tr') ->
  exists evs, tr' = tr ++ evs /\ Forall (fun ev => of_campaign c ev = true) evs.
Proof.
  rewrite main_campaign_eq.
  destruct (Market.get_offer_ids _ fuel []) as [[[ids|e] tokens]|]; [| |discriminate].
  - assert (Hl : Forall (fun ev => of_campaign c ev = true)
                   (map (MarketRun.ListEntries c) tokens)).
    { apply Forall_forall. intros ev Hev. apply in_map_iff in Hev.
      destruct Hev as (t & <- & _). apply campaign_eqb_refl. }
    destruct (Market.create_stocks _ _ feed ids) as [[stocks|e] ids'];
      [|intros H; inversion H; subst; eauto].
    destruct (Seller.divide stocks 2000) as [chunks|e];
      [|intros H; inversion H; subst; eauto].
    destruct (for_each chunks _ _) as [r2 tr2] eqn:H2.
    destruct (market_calls_trace _ _ _ (MarketRun.UpdateStocks c) _
                (market_update_stocks_eq c) _ _ _ _ H2) as [n ->].
    assert (Hu : Forall (fun ev => of_campaign c ev = true)
                   (map (MarketRun.ListEntries c) tokens
                    ++ map (MarketRun.UpdateStocks c) (firstn n chunks))).
    { apply Forall_app. split; [exact Hl|]. apply Forall_forall. intros ev Hev.
      apply in_map_iff in Hev. destruct Hev as (t & <- & _).
      apply campaign_eqb_refl. }
    destruct r2 as [[]|e]; intros H; inversion H; subst;
      rewrite <- app_assoc; eauto.
  - intros H. inversion H; subst. eexists. split; [reflexivity|].
    apply Forall_forall. intros ev Hev. apply in_map_iff in Hev.
    destruct Hev as (t & <- & _). apply campaign_eqb_refl.
Qed.

Lemma market_main_eq feed fuel :
  MarketRun.supplier E = Ok feed ->
  MarketRun.main E fuel =
  match MarketRun.main_try E feed fuel [MarketRun.DownloadStock] with
  | None => None
  | Some (Ok _, tr) => Some (Ok tt, tr)
  | Some (Raise e, tr) => Some (Ok tt, tr ++ [MarketRun.Print (report e)])
  end.
Proof.
  intros H. unfold MarketRun.main, MarketRun.download_stock. rewrite H. simpl.
  destruct (MarketRun.main_try E feed fuel _) as [[[[]|e] tr]|]; try reflexivity.
  now rewrite market_main_except_eq.
Qed.

Lemma of_campaign_no_price c evs :
  Forall (fun ev => of_campaign c ev = true) evs ->
  Forall (fun ev => any_UpdatePrice ev = false) evs.
Proof.
  intros H. eapply Forall_impl; [|exact H]. intros ev. now destruct ev.
Qed.

Lemma main_try_no_price feed fuel r tr :
  MarketRun.main_try E feed fuel [MarketRun.DownloadStock] = Some (r, tr) ->
  Forall (fun ev => any_UpdatePrice ev = false) tr.
Proof.
  unfold MarketRun.main_try.
  destruct (MarketRun.main_campaign E MarketRun.FBS feed fuel _)
    as [[[[]|e] tr1]|] eqn:H1; [| |discriminate];
    destruct (main_campaign_trace _ _ _ _ _ _ H1) as (evs1 & -> & Hev1);
    apply of_campaign_no_price in Hev1.
  - intros H2. destruct (main_campaign_trace _ _ _ _ _ _ H2) as (evs2 & -> & Hev2).
    apply of_campaign_no_price in Hev2.
    apply Forall_app. split; [|exact Hev2]. now constructor.
  - intros H. inversion H; subst. now constructor.
Qed.

Lemma no_update_for_yet c tokens :
  MarketRun.sent (MarketRun.is_UpdateStocks c)
    ([MarketRun.DownloadStock] ++ map (MarketRun.ListEntries MarketRun.FBS) tokens) = O.
Proof.
  unfold MarketRun.sent. simpl.
  induction tokens as [|t tokens IH]; simpl; [reflexivity | exact IH].
Qed.

End MarketMain.

Section MarketStages.
Import Py Spec MarketSpec.
Variable E : MarketRun.env.

Lemma market_sent_none kind tr :
  Forall (fun ev => kind ev = false) tr -> MarketRun.sent kind tr = O.
Proof.
  unfold MarketRun.sent. induction 1 as [|ev tr Hev _ IH]; simpl; [reflexivity|].
  now rewrite Hev.
Qed.

Lemma listing_is_no_update c' tokens (kind : MarketRun.event -> bool) :
  (forall t, kind (MarketRun.ListEntries c' t) = false) ->
  Forall (fun ev => kind ev = false) (map (MarketRun.ListEntries c') tokens).
Proof.
  intros H. apply Forall_forall. intros ev Hev. apply in_map_iff in Hev.
  destruct Hev as (t & <- & _). apply H.
Qed.

Lemma filter_list_to_market wh date l :
  MarketRun.filter_list MarketRun.count_not_zero (map (to_market wh date) l)
  = Ok (map (to_market wh date)
          (filter (fun stock => negb (Seller.stock stock =? 0)) l)).
Proof.
  induction l as [|r l IH]; simpl; [reflexivity|].
  rewrite IH. now destruct (Seller.stock r =? 0).
Qed.

Lemma stocks_stage_ok c tr chunks :
  MarketRun.sent (MarketRun.is_UpdateStocks c) tr = O ->
  (forall j, (j < List.length chunks)%nat -> MarketRun.stocks_api E c j = Ok tt) ->
  for_each chunks (MarketRun.update_stocks E c) tr
  = (Ok tt, tr ++ map (MarketRun.UpdateStocks c) chunks).
Proof.
  intros H0 Hok.
  apply (market_calls_all_ok _ (MarketRun.stocks_api E c) (MarketRun.is_UpdateStocks c)).
  - intros x. apply campaign_eqb_refl.
  - apply market_update_stocks_eq.
  - now rewrite H0.
Qed.

Lemma stocks_stage_fails c tr chunks k e :
  MarketRun.sent (MarketRun.is_UpdateStocks c) tr = O ->
  (k < List.length chunks)%nat ->
  (forall j, (j < k)%nat -> MarketRun.stocks_api E c j = Ok tt) ->
  MarketRun.stocks_api E c k = Raise e ->
  for_each chunks (MarketRun.update_stocks E c) tr
  = (Raise e, tr ++ map (MarketRun.UpdateStocks c) (firstn (S k) chunks)).
Proof.
  intros H0 Hk Hok Hfail.
  apply (market_calls_fail _ (MarketRun.stocks_api E c) (MarketRun.is_UpdateStocks c)).
  - intros x. apply campaign_eqb_refl.
  - apply market_update_stocks_eq.
  - exact Hk.
  - now rewrite H0.
  - now rewrite H0.
Qed.

Lemma prices_stage_ok c tr chunks :
  MarketRun.sent (MarketRun.is_UpdatePrice c) tr = O ->
  (forall j, (j < List.length chunks)%nat -> MarketRun.prices_api E c j = Ok tt) ->
  for_each chunks (MarketRun.update_price E c) tr
  = (Ok tt, tr ++ map (MarketRun.UpdatePrice c) chunks).
Proof.
  intros H0 Hok.
  apply (market_calls_all_ok _ (MarketRun.prices_api E c) (MarketRun.is_UpdatePrice c)).
  - intros x. apply campaign_eqb_refl.
  - apply market_update_price_eq.
  - now rewrite H0.
Qed.

End MarketStages.

(** X13.  A run of [main] of [market.py] sends no price update request,
    whatever the outside answers: the call of [upload_prices] only makes
    a coroutine object, which is never awaited. *)
Theorem market_main_never_updates_prices :
  forall (E : MarketRun.env) (fuel : nat) (r : Py.result unit)
         (tr : MarketRun.world),
    MarketRun.main E fuel = Some (r, tr) ->
    Forall (fun ev => MarketSpec.any_UpdatePrice ev = false) tr.
Proof.
  intros E fuel r tr.
  destruct (MarketRun.supplier E) as [feed|e] eqn:Hs.
  - rewrite (market_main_eq E feed fuel Hs).
    destruct (MarketRun.main_try E feed fuel _) as [[[[]|e] tr']|] eqn:Ht;
      [| |discriminate]; intros H; inversion H; subst;
      pose proof (main_try_no_price _ _ _ _ _ Ht) as Hn; [exact Hn|].
    apply Forall_app. split; [exact Hn | now constructor].
  - unfold MarketRun.main, MarketRun.download_stock. rewrite Hs.
    intros H. inversion H; subst. now constructor.
Qed.

Lemma market_main_never_updates_prices_witness :
  exists tr,
    MarketRun.main MarketScenario.calm 2 = Some (Py.Ok tt, tr) /\
    Forall (fun ev => MarketSpec.any_UpdatePrice ev = false) tr.
Proof.
  eexists. split; [vm_compute; reflexivity|].
  apply (market_main_never_updates_prices MarketScenario.calm 2 (Py.Ok tt)).
  vm_compute. reflexivity.
Defined.

(** X14.  In [market.py] the supplier's file is downloaded before the
    [try]: when the download fails, [main] ends with that exception,
    nothing is printed and no request is sent to the marketplace; and a
    run of [main] ends with an exception in that case only. *)
Theorem market_main_download_failure_escapes :
  forall (E : MarketRun.env) (fuel : nat) (e : Py.exn),
    (MarketRun.supplier E = Py.Raise e ->
     MarketRun.main E fuel = Some (Py.Raise e, [MarketRun.DownloadStock])) /\
    (forall tr,
        MarketRun.main E fuel = Some (Py.Raise e, tr) ->
        MarketRun.supplier E = Py.Raise e /\ tr = [MarketRun.DownloadStock]).
Proof.
  intros E fuel e. split.
  - intros Hs. unfold MarketRun.main, MarketRun.download_stock. now rewrite Hs.
  - intros tr. destruct (MarketRun.supplier E) as [feed|e'] eqn:Hs.
    + rewrite (market_main_eq E feed fuel Hs).
      destruct (MarketRun.main_try E feed fuel _) as [[[[]|e1] tr']|]; discriminate.
    + unfold MarketRun.main, MarketRun.download_stock. rewrite Hs.
      intros H. inversion H; subst. now split.
Qed.

Lemma market_main_download_failure_escapes_witness :
  MarketRun.main MarketScenario.offline 2
  = Some (Py.Raise Py.ConnectionError, [MarketRun.DownloadStock]).
Proof.
  exact (proj1 (market_main_download_failure_escapes MarketScenario.offline 2
                  Py.ConnectionError) eq_refl).
Defined.

(** X15.  In [main] of [market.py] a failure in the work on the first
    campaign ends the run: when its catalogue cannot be read, when its
    stock list cannot be built or when the stock update of one of its
    chunks fails, [main] prints the line for the exception and sends no
    request for the second campaign; the chunks before the failing one
    were sent once, the failing one once, the later ones never. *)
Theorem market_first_campaign_failure_ends_run :
  forall (E : MarketRun.env) (fuel : nat) (feed : list Seller.watch),
    MarketRun.supplier E = Py.Ok feed ->
    (forall e tokens,
        Market.get_offer_ids (MarketRun.listing E MarketRun.FBS) fuel []
        = Some (Py.Raise e, tokens) ->
        MarketRun.main E fuel
        = Some (Py.Ok tt,
                ([MarketRun.DownloadStock]
                 ++ map (MarketRun.ListEntries MarketRun.FBS) tokens)
                ++ [MarketRun.Print (Spec.report e)])) /\
    (forall ids tokens,
        Market.get_offer_ids (MarketRun.listing E MarketRun.FBS) fuel []
        = Some (Py.Ok ids, tokens) ->
        (forall e ids',
            Market.create_stocks (MarketRun.warehouse E MarketRun.FBS)
              (MarketRun.utcnow E MarketRun.FBS) feed ids = (Py.Raise e, ids') ->
            MarketRun.main E fuel
            = Some (Py.Ok tt,
                    ([MarketRun.DownloadStock]
                     ++ map (MarketRun.ListEntries MarketRun.FBS) tokens)
                    ++ [MarketRun.Print (Spec.report e)])) /\
        (forall stocks ids' chunks k e,
            Market.create_stocks (MarketRun.warehouse E MarketRun.FBS)
              (MarketRun.utcnow E MarketRun.FBS) feed ids = (Py.Ok stocks, ids') ->
            Seller.divide stocks 2000 = Py.Ok chunks ->
            (k < List.length chunks)%nat ->
            (forall j, (j < k)%nat ->
                       MarketRun.stocks_api E MarketRun.FBS j = Py.Ok tt) ->
            MarketRun.stocks_api E MarketRun.FBS k = Py.Raise e ->
            MarketRun.main E fuel
            = Some (Py.Ok tt,
                    (([MarketRun.DownloadStock]
                      ++ map (MarketRun.ListEntries MarketRun.FBS) tokens)
                     ++ map (MarketRun.UpdateStocks MarketRun.FBS)
                          (firstn (S k) chunks))
                    ++ [MarketRun.Print (Spec.report e)]))).
Proof.
  intros E fuel feed Hs. rewrite (market_main_eq E feed fuel Hs).
  unfold MarketRun.main_try. rewrite main_campaign_eq. split.
  - intros e tokens ->. reflexivity.
  - intros ids tokens ->. split.
    + intros e ids' ->. reflexivity.
    + intros stocks ids' chunks k e -> -> Hk Hok Hfail.
      rewrite (stocks_stage_fails E MarketRun.FBS _ chunks k e);
        auto using no_update_for_yet.
Qed.

Lemma market_first_campaign_failure_ends_run_witness :
  exists chunk,
    MarketRun.main MarketScenario.refused 2
    = Some (Py.Ok tt,
            [MarketRun.DownloadStock;
             MarketRun.ListEntries MarketRun.FBS (Py.PStr "");
             MarketRun.ListEntries MarketRun.FBS (Py.PStr "p1");
             MarketRun.UpdateStocks MarketRun.FBS chunk;
             MarketRun.Print [Seller.PrintExn Py.HTTPError; Seller.PrintStr "ERROR_2"]]).
Proof.
  destruct (market_first_campaign_failure_ends_run MarketScenario.refused 2
              Scenario.feed eq_refl) as (_ & H).
  destruct (H ["A"; "B"; "C"] [Py.PStr ""; Py.PStr "p1"] eq_refl) as (_ & H').
  eexists.
  refine (H' _ ["C"] [_] O Py.HTTPError eq_refl eq_refl (le_n 1) _ eq_refl).
  intros j Hj. lia.
Defined.

(** X16.  When the file is downloaded and, for each of the two
    campaigns, the catalogue is read, the stock list is built and every
    stock update succeeds, [main] of [market.py] does the work on the
    first campaign, then the work on the second: for each, the listing
    requests followed by the stock updates of the chunks of at most 2000
    records, in order; it prints nothing and ends without exception. *)
Theorem market_main_updates_both_campaigns :
  forall (E : MarketRun.env) (fuel : nat) (feed : list Seller.watch)
         (ids : MarketRun.campaign -> list string)
         (tokens : MarketRun.campaign -> list Py.pyval)
         (stocks : MarketRun.campaign -> list Market.stock_record)
         (ids' : MarketRun.campaign -> list string)
         (chunks : MarketRun.campaign -> list (list Market.stock_record)),
    MarketRun.supplier E = Py.Ok feed ->
    (forall c,
        Market.get_offer_ids (MarketRun.listing E c) fuel []
        = Some (Py.Ok (ids c), tokens c)) ->
    (forall c,
        Market.create_stocks (MarketRun.warehouse E c) (MarketRun.utcnow E c)
          feed (ids c) = (Py.Ok (stocks c), ids' c)) ->
    (forall c, Seller.divide (stocks c) 2000 = Py.Ok (chunks c)) ->
    (forall c j, (j < List.length (chunks c))%nat ->
                 MarketRun.stocks_api E c j = Py.Ok tt) ->
    MarketRun.main E fuel
    = Some (Py.Ok tt,
            ([MarketRun.DownloadStock]
             ++ MarketSpec.work MarketRun.FBS (tokens MarketRun.FBS)
                  (chunks MarketRun.FBS))
            ++ MarketSpec.work MarketRun.DBS (tokens MarketRun.DBS)
                 (chunks MarketRun.DBS)).
Proof.
  intros E fuel feed ids tokens stocks ids' chunks Hs Hids Hst Hdiv Hok.
  rewrite (market_main_eq E feed fuel Hs). unfold MarketRun.main_try.
  rewrite main_campaign_eq, Hids, Hst, Hdiv.
  rewrite (stocks_stage_ok E MarketRun.FBS _ (chunks MarketRun.FBS));
    [|apply no_update_for_yet | apply Hok].
  cbv iota beta.
  rewrite main_campaign_eq, Hids, Hst, Hdiv.
  rewrite (stocks_stage_ok E MarketRun.DBS _ (chunks MarketRun.DBS));
    [| |apply Hok].
  - unfold MarketSpec.work. now rewrite <- !app_assoc.
  - apply market_sent_none. repeat (apply Forall_app; split).
    + now constructor.
    + now apply listing_is_no_update.
    + apply Forall_forall. intros ev Hev. apply in_map_iff in Hev.
      now destruct Hev as (t & <- & _).
    + now apply listing_is_no_update.
Qed.

Lemma market_main_updates_both_campaigns_witness :
  exists first second,
    MarketRun.main MarketScenario.calm 2
    = Some (Py.Ok tt,
            [MarketRun.DownloadStock;
             MarketRun.ListEntries MarketRun.FBS (Py.PStr "");
             MarketRun.ListEntries MarketRun.FBS (Py.PStr "p1");
             MarketRun.UpdateStocks MarketRun.FBS first;
             MarketRun.ListEntries MarketRun.DBS (Py.PStr "");
             MarketRun.ListEntries MarketRun.DBS (Py.PStr "p1");
             MarketRun.UpdateStocks MarketRun.DBS second]).
Proof.
  eexists _, _.
  refine (market_main_updates_both_campaigns MarketScenario.calm 2 Scenario.feed
            (fun _ => ["A"; "B"; "C"]) (fun _ => [Py.PStr ""; Py.PStr "p1"])
            (fun c => map (Spec.to_market
                             (MarketRun.warehouse MarketScenario.calm c)
                             "2024-01-01T00:00:00Z") Scenario.stocks)
            (fun _ => ["C"])
            (fun c => [map (Spec.to_market
                              (MarketRun.warehouse MarketScenario.calm c)
                              "2024-01-01T00:00:00Z") Scenario.stocks])
            eq_refl _ _ _ _).
  - intros c. destruct c; reflexivity.
  - intros c. destruct c; reflexivity.
  - intros c. destruct c; reflexivity.
  - intros c j _. reflexivity.
Defined.

(** X17.  When the catalogue of a campaign is read, the stocks are
    built and every update succeeds, [upload_stocks] of [market.py],
    once awaited, sends the listing requests then the chunks of at most
    2000 stock records, and returns the stock list with its records of
    nonzero count; both lists are those of [seller.py] for the same feed
    and identifiers, record for record, and looking up the first item of
    a record never fails. *)
Theorem market_upload_stocks_returns_stocked_records :
  forall (E : MarketRun.env) (c : MarketRun.campaign) (feed : list Seller.watch)
         (fuel : nat) (ids : list string) (tokens : list Py.pyval)
         (stocks0 : list Seller.stock_record) (ids' : list string)
         (chunks : list (list Market.stock_record)),
    Market.get_offer_ids (MarketRun.listing E c) fuel [] = Some (Py.Ok ids, tokens) ->
    Seller.create_stocks feed ids = (Py.Ok stocks0, ids') ->
    Seller.divide
      (map (Spec.to_market (MarketRun.warehouse E c) (MarketRun.utcnow E c)) stocks0)
      2000 = Py.Ok chunks ->
    (forall j, (j < List.length chunks)%nat -> MarketRun.stocks_api E c j = Py.Ok tt) ->
    MarketRun.upload_stocks E feed c fuel []
    = Some (Py.Ok
              (map (Spec.to_market (MarketRun.warehouse E c) (MarketRun.utcnow E c))
                 (filter (fun stock => negb (Seller.stock stock =? 0)) stocks0),
               map (Spec.to_market (MarketRun.warehouse E c) (MarketRun.utcnow E c))
                 stocks0),
            MarketSpec.work c tokens chunks).
Proof.
  intros E c feed fuel ids tokens stocks0 ids' chunks Hids Hst Hdiv Hok.
  unfold MarketRun.upload_stocks, MarketRun.get_offer_ids. rewrite Hids.
  rewrite market_create_stocks_eq, Hst.
  unfold Py.bind at 1, Py.lift at 1. unfold Py.bind at 1, Py.lift at 1.
  rewrite Hdiv. unfold Py.bind at 1.
  rewrite (stocks_stage_ok E c _ chunks); [| |exact Hok].
  - unfold Py.bind at 1, Py.lift at 1. now rewrite filter_list_to_market.
  - apply market_sent_none. simpl. now apply listing_is_no_update.
Qed.

Lemma market_upload_stocks_returns_stocked_records_witness :
  exists chunk : list Market.stock_record,
    MarketRun.upload_stocks MarketScenario.calm Scenario.feed MarketRun.FBS 2%nat []
    = Some (Py.Ok ([Market.stock_entry "W1" "2024-01-01T00:00:00Z" "A" 5], chunk),
            [MarketRun.ListEntries MarketRun.FBS (Py.PStr "");
             MarketRun.ListEntries MarketRun.FBS (Py.PStr "p1");
             MarketRun.UpdateStocks MarketRun.FBS chunk]).
Proof.
  eexists.
  exact (market_upload_stocks_returns_stocked_records MarketScenario.calm
           MarketRun.FBS Scenario.feed 2 ["A"; "B"; "C"] [Py.PStr ""; Py.PStr "p1"]
           Scenario.stocks ["C"] [_] eq_refl eq_refl eq_refl (fun _ _ => eq_refl)).
Defined.

(** X18.  When the catalogue of a campaign is read, the prices are
    built and every update succeeds, [upload_prices] of [market.py],
    once awaited, returns one price record for every supplier record
    with a known code, in the order of the feed, and sends them after the
    listing requests in chunks of at most 500, in order. *)
Theorem market_upload_prices_sends_known_prices :
  forall (E : MarketRun.env) (c : MarketRun.campaign) (feed : list Seller.watch)
         (fuel : nat) (ids : list string) (tokens : list Py.pyval)
         (prices : list Market.price_record)
         (chunks : list (list Market.price_record)),
    Market.get_offer_ids (MarketRun.listing E c) fuel [] = Some (Py.Ok ids, tokens) ->
    Market.create_prices feed ids = Py.Ok prices ->
    Seller.divide prices 500 = Py.Ok chunks ->
    (forall j, (j < List.length chunks)%nat -> MarketRun.prices_api E c j = Py.Ok tt) ->
    MarketRun.upload_prices E feed c fuel []
    = Some (Py.Ok prices,
            map (MarketRun.ListEntries c) tokens
            ++ map (MarketRun.UpdatePrice c) chunks) /\
    map Market.id prices = map Spec.code (Spec.known feed ids) /\
    List.concat chunks = prices.
Proof.
  intros E c feed fuel ids tokens prices chunks Hids Hpr Hdiv Hok.
  split; [|split].
  - unfold MarketRun.upload_prices, MarketRun.get_offer_ids. rewrite Hids.
    unfold Py.bind at 1, Py.lift at 1. rewrite Hpr.
    unfold Py.bind at 1, Py.lift at 1. rewrite Hdiv. unfold Py.bind at 1.
    rewrite (prices_stage_ok E c _ chunks); [reflexivity| |exact Hok].
    apply market_sent_none. simpl. now apply listing_is_no_update.
  - pose proof (market_create_prices_spec ids feed) as Hs. rewrite Hpr in Hs.
    now apply market_price_ids.
  - destruct (divide_spec prices 500 ltac:(lia)) as (chunks' & Hd & Hc & _).
    congruence.
Qed.

Lemma market_upload_prices_sends_known_prices_witness :
  exists prices : list Market.price_record,
    MarketRun.upload_prices MarketScenario.calm Scenario.feed MarketRun.DBS 2%nat []
    = Some (Py.Ok prices,
            [MarketRun.ListEntries MarketRun.DBS (Py.PStr "");
             MarketRun.ListEntries MarketRun.DBS (Py.PStr "p1");
             MarketRun.UpdatePrice MarketRun.DBS prices]).
Proof.
  eexists.
  exact (proj1 (market_upload_prices_sends_known_prices MarketScenario.calm
                  MarketRun.DBS Scenario.feed 2 ["A"; "B"; "C"]
                  [Py.PStr ""; Py.PStr "p1"] _ [_]
                  eq_refl eq_refl eq_refl (fun _ _ => eq_refl))).
Defined.
